(** * ntpc: a one-shot NTP clock synchroniser

    Shallow embedding of the v0.3 tool (validation, single exchange,
    multi-sample averaging, user host then built-in pool) and the
    properties established about it.

    Conventions of the embedding
    - C integers are [Z] with the wrap-around of their width written out
      ([to_u32], [to_i32], ...).
    - [double] is an interface ([DoubleOps]) with two instances: exact
      rationals [Q] (no rounding) and IEEE binary64 ([float]).  Control flow
      of the program never branches on a [double], so every structural
      result holds for both; results about numeric values are stated for
      the exact instance.
    - The operating system (resolver, sockets, clocks, privileges) is an
      oracle [Env] answering each call from the history of calls so far;
      the program state is that history, a chronological [list event].
    - Text written to stdout/stderr is kept as structured [message]s. *)

From Stdlib Require Import ZArith QArith Qround List String Ascii Bool Lia Lqa.
From Stdlib Require Import Floats.PrimFloat Floats.FloatOps Floats.SpecFloat.
Import ListNotations.

Local Open Scope Z_scope.

(* ================================================================== *)
(** ** Machine integers *)

Definition to_u8 (x : Z) : Z := x mod 2 ^ 8.
Definition to_u32 (x : Z) : Z := x mod 2 ^ 32.
Definition to_u64 (x : Z) : Z := x mod 2 ^ 64.

(** [(int)x]: conversion to a signed 32-bit integer (two's complement). *)
Definition to_i32 (x : Z) : Z := (x + 2 ^ 31) mod 2 ^ 32 - 2 ^ 31.

(** [(time_t)x] on an LP64 / Win64 target. *)
Definition to_i64 (x : Z) : Z := (x + 2 ^ 63) mod 2 ^ 64 - 2 ^ 63.

(** [a - b] on [int]. *)
Definition sub_i32 (a b : Z) : Z := to_i32 (a - b).

(** [abs] from <stdlib.h>; the negation of [INT_MIN] wraps to [INT_MIN]. *)
Definition abs_i32 (a : Z) : Z := to_i32 (Z.abs a).

Definition INT_MIN : Z := - 2 ^ 31.
Definition INT_MAX : Z := 2 ^ 31 - 1.

(** Byte reversal of a 32-bit word. *)
Definition bswap32 (x : Z) : Z :=
  (x mod 256) * 2 ^ 24 + ((x / 2 ^ 8) mod 256) * 2 ^ 16 +
  ((x / 2 ^ 16) mod 256) * 2 ^ 8 + (x / 2 ^ 24) mod 256.

(** [htonl] / [ntohl]: the identity on a big-endian host, a byte swap on a
    little-endian one. *)
Definition htonl (big_endian : bool) (x : Z) : Z :=
  if big_endian then to_u32 x else bswap32 (to_u32 x).
Definition ntohl (big_endian : bool) (x : Z) : Z :=
  if big_endian then to_u32 x else bswap32 (to_u32 x).

(* ================================================================== *)
(** ** Constants *)

Definition NTP_PORT : Z := 123.
Definition NTP_PACKET_SIZE : Z := 48.
Definition NTP_TIMEOUT_SEC : Z := 5.
Definition NTP_TIMESTAMP_DELTA : Z := 2208988800.
Definition MAX_HOSTNAME_LEN : Z := 255.
Definition MAX_SAMPLES : Z := 5.
Definition MIN_VALID_STRATUM : Z := 1.
Definition MAX_VALID_STRATUM : Z := 15.

Definition INTERNAL_NTP_SERVERS : list string :=
  ["ntp.aliyun.com"; "time.cloudflare.com"; "pool.ntp.org"]%string.
Definition INTERNAL_SERVER_COUNT : Z := 3.

Inductive ntp_error_t : Set :=
| NTP_SUCCESS
| NTP_ERR_DNS_FAILED
| NTP_ERR_SOCKET_CREATE
| NTP_ERR_SEND_FAILED
| NTP_ERR_RECV_TIMEOUT
| NTP_ERR_INVALID_RESPONSE
| NTP_ERR_INVALID_STRATUM
| NTP_ERR_SET_TIME_FAILED
| NTP_ERR_PERMISSION_DENIED
| NTP_ERR_INVALID_HOSTNAME.

Definition ntp_error_eqb (a b : ntp_error_t) : bool :=
  match a, b with
  | NTP_SUCCESS, NTP_SUCCESS
  | NTP_ERR_DNS_FAILED, NTP_ERR_DNS_FAILED
  | NTP_ERR_SOCKET_CREATE, NTP_ERR_SOCKET_CREATE
  | NTP_ERR_SEND_FAILED, NTP_ERR_SEND_FAILED
  | NTP_ERR_RECV_TIMEOUT, NTP_ERR_RECV_TIMEOUT
  | NTP_ERR_INVALID_RESPONSE, NTP_ERR_INVALID_RESPONSE
  | NTP_ERR_INVALID_STRATUM, NTP_ERR_INVALID_STRATUM
  | NTP_ERR_SET_TIME_FAILED, NTP_ERR_SET_TIME_FAILED
  | NTP_ERR_PERMISSION_DENIED, NTP_ERR_PERMISSION_DENIED
  | NTP_ERR_INVALID_HOSTNAME, NTP_ERR_INVALID_HOSTNAME => true
  | _, _ => false
  end.

(** The value of the enumerator, which indexes [ntp_error_strings]. *)
Definition ntp_error_code (e : ntp_error_t) : Z :=
  match e with
  | NTP_SUCCESS => 0
  | NTP_ERR_DNS_FAILED => 1
  | NTP_ERR_SOCKET_CREATE => 2
  | NTP_ERR_SEND_FAILED => 3
  | NTP_ERR_RECV_TIMEOUT => 4
  | NTP_ERR_INVALID_RESPONSE => 5
  | NTP_ERR_INVALID_STRATUM => 6
  | NTP_ERR_SET_TIME_FAILED => 7
  | NTP_ERR_PERMISSION_DENIED => 8
  | NTP_ERR_INVALID_HOSTNAME => 9
  end.

(** [ntp_packet]: the packed 48-byte struct.  Each field holds the value the
    host reads from its bytes, so the four-byte fields are in network order
    until passed through [ntohl]. *)
Record ntp_packet : Set := mk_packet {
  li_vn_mode : Z;
  stratum : Z;
  poll : Z;
  precision : Z;
  root_delay : Z;
  root_dispersion : Z;
  reference_id : Z;
  ref_ts_sec : Z;
  ref_ts_frac : Z;
  orig_ts_sec : Z;
  orig_ts_frac : Z;
  recv_ts_sec : Z;
  recv_ts_frac : Z;
  trans_ts_sec : Z;
  trans_ts_frac : Z
}.

(** [ntp_packet packet = {0};] *)
Definition zero_packet : ntp_packet :=
  mk_packet 0 0 0 0 0 0 0 0 0 0 0 0 0 0 0.

Definition is_u8 (x : Z) : Prop := 0 <= x < 2 ^ 8.
Definition is_u32 (x : Z) : Prop := 0 <= x < 2 ^ 32.

(** Every field within the range of its C type. *)
Definition wf_packet (p : ntp_packet) : Prop :=
  is_u8 (li_vn_mode p) /\ is_u8 (stratum p) /\ is_u8 (poll p) /\
  is_u8 (precision p) /\ is_u32 (root_delay p) /\
  is_u32 (root_dispersion p) /\ is_u32 (reference_id p) /\
  is_u32 (ref_ts_sec p) /\ is_u32 (ref_ts_frac p) /\
  is_u32 (orig_ts_sec p) /\ is_u32 (orig_ts_frac p) /\
  is_u32 (recv_ts_sec p) /\ is_u32 (recv_ts_frac p) /\
  is_u32 (trans_ts_sec p) /\ is_u32 (trans_ts_frac p).

(** [sizeof(ntp_packet)] under [#pragma pack(1)]. *)
Definition sizeof_ntp_packet : Z := 4 * 1 + 11 * 4.

(* ================================================================== *)
(** ** The [double] interface *)

Class DoubleOps (D : Type) : Type := {
  dbl_of_Z : Z -> D;          (* conversion of an integer value *)
  dbl_add : D -> D -> D;
  dbl_sub : D -> D -> D;
  dbl_mul : D -> D -> D;
  dbl_div : D -> D -> D;
  dbl_trunc : D -> Z          (* integral part, as a cast to an integer type takes it *)
}.

Declare Scope dbl_scope.
Delimit Scope dbl_scope with dbl.
Notation "x + y" := (dbl_add x y) : dbl_scope.
Notation "x - y" := (dbl_sub x y) : dbl_scope.
Notation "x * y" := (dbl_mul x y) : dbl_scope.
Notation "x / y" := (dbl_div x y) : dbl_scope.

(** Exact arithmetic; a cast to an integer type truncates toward zero. *)
Definition Qtrunc (q : Q) : Z := Z.quot (Qnum q) (Zpos (Qden q)).

#[export] Instance Q_DoubleOps : DoubleOps Q := {
  dbl_of_Z := inject_Z;
  dbl_add := Qplus;
  dbl_sub := Qminus;
  dbl_mul := Qmult;
  dbl_div := Qdiv;
  dbl_trunc := Qtrunc
}.

(** IEEE 754 binary64, round to nearest even. *)
Definition float_of_Z (z : Z) : float :=
  SF2Prim (binary_normalize FloatOps.prec FloatOps.emax z 0 false).

Definition float_trunc (x : float) : Z :=
  match Prim2SF x with
  | S754_finite s m e =>
      let v := if 0 <=? e then Zpos m * 2 ^ e else Zpos m / 2 ^ (- e) in
      if s then - v else v
  | _ => 0
  end.

#[export] Instance float_DoubleOps : DoubleOps float := {
  dbl_of_Z := float_of_Z;
  dbl_add := PrimFloat.add;
  dbl_sub := PrimFloat.sub;
  dbl_mul := PrimFloat.mul;
  dbl_div := PrimFloat.div;
  dbl_trunc := float_trunc
}.

(* ================================================================== *)
(** ** Hostname syntax *)

(** The character test of the loop in [validate_hostname]. *)
Definition hostname_char_ok (c : ascii) : bool :=
  let n := Z.of_nat (nat_of_ascii c) in
  ((97 <=? n) && (n <=? 122)) ||      (* 'a' .. 'z' *)
  ((65 <=? n) && (n <=? 90)) ||       (* 'A' .. 'Z' *)
  ((48 <=? n) && (n <=? 57)) ||       (* '0' .. '9' *)
  (n =? 46) || (n =? 45).             (* '.' and '-' *)

(** [for (p = hostname; *p; p++) if (!(...)) return 0;] *)
Fixpoint hostname_chars_ok (p : string) : bool :=
  match p with
  | EmptyString => true
  | String c p' => if hostname_char_ok c then hostname_chars_ok p' else false
  end.

(** A [string] is the text of a non-null C string, up to its terminator. *)
Definition validate_hostname (hostname : string) : Z :=
  let len := Z.of_nat (String.length hostname) in
  if (len =? 0) || (MAX_HOSTNAME_LEN <? len) then 0
  else if hostname_chars_ok hostname then 1 else 0.

(* ================================================================== *)
(** ** Command line *)

Definition is_space (c : ascii) : bool :=
  let n := Z.of_nat (nat_of_ascii c) in
  (n =? 32) || ((9 <=? n) && (n <=? 13)).

Definition is_digit (c : ascii) : bool :=
  let n := Z.of_nat (nat_of_ascii c) in (48 <=? n) && (n <=? 57).

Fixpoint skip_spaces (s : string) : string :=
  match s with
  | String c s' => if is_space c then skip_spaces s' else s
  | EmptyString => s
  end.

Fixpoint atoi_digits (s : string) (acc : Z) : Z :=
  match s with
  | String c s' =>
      if is_digit c
      then atoi_digits s' (acc * 10 + (Z.of_nat (nat_of_ascii c) - 48))
      else acc
  | EmptyString => acc
  end.

(** [atoi] of <stdlib.h>: blanks, an optional sign, decimal digits. *)
Definition atoi (s : string) : Z :=
  match skip_spaces s with
  | String "-"%char s' => to_i32 (- atoi_digits s' 0)
  | String "+"%char s' => to_i32 (atoi_digits s' 0)
  | s' => to_i32 (atoi_digits s' 0)
  end.

(** What the argument loop of [main] decides. *)
Inductive parsed_args : Set :=
| ArgsHelp
| ArgsSamplesOutOfRange
| ArgsSamplesMissing
| ArgsOk (samples : Z) (custom_server : option string).

(** [for (i = 1; i < argc; i++) ...] over [argv[i], argv[i+1], ...]. *)
Fixpoint parse_args (args : list string) (samples : Z)
         (custom_server : option string) : parsed_args :=
  match args with
  | [] => ArgsOk samples custom_server
  | a :: rest =>
      if (a =? "-h")%string || (a =? "--help")%string then ArgsHelp
      else if (a =? "-s")%string then
        match rest with
        | n :: rest' =>
            let samples := atoi n in
            if (samples <? 1) || (MAX_SAMPLES <? samples)
            then ArgsSamplesOutOfRange
            else parse_args rest' samples custom_server
        | [] => ArgsSamplesMissing
        end
      else
        match a with
        | String "-"%char _ => parse_args rest samples custom_server
        | _ => parse_args rest samples (Some a)
        end
  end.

(* ================================================================== *)
(** ** Program text over the system interface *)

Section Program.

Context {D : Type} `{DoubleOps D}.

Record ntp_result : Type := mk_result {
  corrected_time : D;
  delay : D;
  error : ntp_error_t
}.

(** Lines written to stdout and stderr. *)
Inductive message : Type :=
| MsgUsage (prog_name : string)
| MsgErrSamplesRange
| MsgErrSamplesMissing
| MsgErrWinsockInit
| MsgErrInvalidHostname (hostname : string)
| MsgStage1
| MsgStage2
| MsgSyncing (hostname : string) (samples : Z)
| MsgSampleOk (i samples : Z) (delay_ms : D)
| MsgSampleFail (i samples : Z) (e : ntp_error_t)
| MsgAllSamplesFailed
| MsgSyncOk (delay_ms : D) (success_count samples : Z)
| MsgTimeUpdated (final_sec : Z)
| MsgError (e : ntp_error_t)          (* "[错误] %s" of ntp_error_strings[e] *)
| MsgHintPrivilege
| MsgSwitchToPool
| MsgAllServersFailed
| MsgDbgMode (mode : Z)
| MsgDbgUnsynced
| MsgDbgStratum (stratum : Z)
| MsgDbgOrigDiff (sec_diff sent_sec resp_orig_sec : Z)
| MsgDbgTransZero.

(** Calls made to the system, in the order they are made. *)
Inductive event : Type :=
| EvWSAStartup
| EvWSACleanup
| EvGetaddrinfo (hostname : string)
| EvFreeaddrinfo
| EvSocket
| EvSetsockopt (timeout_sec : Z)
| EvClose (sock : Z)
| EvGetTime
| EvSendto (sock : Z) (packet : ntp_packet)
| EvRecv (sock : Z)
| EvGetuid
| EvSettimeofday (sec usec : Z)
| EvSetSystemTime (win_ticks : Z)
| EvGetLastError
| EvOut (m : message).

Definition trace : Type := list event.

(** The system: every answer may depend on all that happened before. *)
Record Env : Type := mk_env {
  win32 : bool;                                  (* built with _WIN32 *)
  big_endian : bool;                             (* host byte order *)
  os_WSAStartup : trace -> Z;
  os_getaddrinfo : trace -> string -> Z;
  os_socket : trace -> Z;
  os_gettimeofday : trace -> Z * Z;              (* tv_sec, tv_usec *)
  os_GetSystemTimeAsFileTime : trace -> Z * Z;   (* dwHighDateTime, dwLowDateTime *)
  os_sendto : trace -> ntp_packet -> Z;
  os_recv : trace -> Z * ntp_packet;             (* byte count, buffer afterwards *)
  os_getuid : trace -> Z;
  os_settimeofday : trace -> Z -> Z -> Z;
  os_SetSystemTime : trace -> Z -> bool;
  os_GetLastError : trace -> Z
}.

(** Computations that extend the history. *)
Definition M (A : Type) : Type := trace -> A * trace.

Definition ret {A : Type} (a : A) : M A := fun tr => (a, tr).

Definition bind {A B : Type} (c : M A) (k : A -> M B) : M B :=
  fun tr => let (a, tr') := c tr in k a tr'.

Definition call {A : Type} (answer : trace -> A) (e : event) : M A :=
  fun tr => (answer tr, tr ++ [e]).

Definition out (m : message) : M unit := call (fun _ => tt) (EvOut m).

End Program.

Arguments ntp_result : clear implicits.
Arguments message : clear implicits.
Arguments event : clear implicits.
Arguments trace : clear implicits.
Arguments Env : clear implicits.
Arguments M : clear implicits.

Declare Scope io_scope.
Delimit Scope io_scope with io.
Notation "x <- c ;; k" := (bind c (fun x => k))
  (at level 61, c at next level, right associativity) : io_scope.
Notation "c ;; k" := (bind c (fun _ => k))
  (at level 61, right associativity) : io_scope.

Section Code.

Context {D : Type} `{DoubleOps D}.

Local Open Scope io_scope.

Abbreviation result := (ntp_result D).
Abbreviation IO := (M D).

Variable env : Env D.

(* ------------------------------------------------------------------ *)
(** *** Network start-up and the local clock *)

Definition init_networking : IO Z :=
  if win32 env then
    rc <- call (os_WSAStartup env) EvWSAStartup ;;
    if negb (rc =? 0) then out MsgErrWinsockInit ;; ret 0 else ret 1
  else ret 1.

Definition cleanup_networking : IO unit :=
  if win32 env then call (fun _ => tt) EvWSACleanup else ret tt.

Definition get_local_time_double : IO D :=
  if win32 env then
    ft <- call (os_GetSystemTimeAsFileTime env) EvGetTime ;;
    let val := to_u64 (to_u64 (Z.shiftl (to_u64 (fst ft)) 32) + snd ft) in
    ret (dbl_of_Z (to_u64 (val - 116444736000000000)) / dbl_of_Z 10000000)%dbl
  else
    tv <- call (os_gettimeofday env) EvGetTime ;;
    ret (dbl_of_Z (fst tv) + dbl_of_Z (snd tv) / dbl_of_Z 1000000)%dbl.

(* ------------------------------------------------------------------ *)
(** *** Response validation *)

Definition validate_ntp_response (packet : ntp_packet)
           (sent_sec sent_frac : Z) : IO Z :=
  let mode := Z.land (li_vn_mode packet) 7 in
  if negb (mode =? 4) && negb (mode =? 5) then
    out (MsgDbgMode mode) ;; ret 0
  else if stratum packet =? 0 then
    out MsgDbgUnsynced ;; ret 0
  else if MAX_VALID_STRATUM <? stratum packet then
    out (MsgDbgStratum (stratum packet)) ;; ret 0
  else
    let resp_orig_sec := ntohl (big_endian env) (orig_ts_sec packet) in
    let resp_orig_frac := ntohl (big_endian env) (orig_ts_frac packet) in
    let sec_diff :=
      abs_i32 (sub_i32 (to_i32 resp_orig_sec) (to_i32 sent_sec)) in
    if 1 <? sec_diff then
      out (MsgDbgOrigDiff sec_diff sent_sec resp_orig_sec) ;; ret 0
    else if ntohl (big_endian env) (trans_ts_sec packet) =? 0 then
      out MsgDbgTransZero ;; ret 0
    else ret 1.

(* ------------------------------------------------------------------ *)
(** *** Setting the system clock *)

Definition ERROR_ACCESS_DENIED : Z := 5.

(** [FileTimeToSystemTime] is a change of representation; the event of
    [SetSystemTime] carries the tick count it was built from. *)
Definition set_system_time_platform (new_time_seconds : D) : IO ntp_error_t :=
  let sec := to_i64 (dbl_trunc new_time_seconds) in
  let frac := (new_time_seconds - dbl_of_Z sec)%dbl in
  if win32 env then
    let win_ticks :=
      to_u64 (to_u64 (to_u64 (to_u64 sec + 11644473600) * 10000000) +
              to_u64 (dbl_trunc (frac * dbl_of_Z 10000000)%dbl)) in
    ok <- call (fun tr => os_SetSystemTime env tr win_ticks)
               (EvSetSystemTime win_ticks) ;;
    if negb ok then
      last_error <- call (os_GetLastError env) EvGetLastError ;;
      if last_error =? ERROR_ACCESS_DENIED
      then ret NTP_ERR_PERMISSION_DENIED
      else ret NTP_ERR_SET_TIME_FAILED
    else ret NTP_SUCCESS
  else
    uid <- call (os_getuid env) EvGetuid ;;
    if negb (uid =? 0) then ret NTP_ERR_PERMISSION_DENIED
    else
      let usec := to_i64 (dbl_trunc (frac * dbl_of_Z 1000000)%dbl) in
      rc <- call (fun tr => os_settimeofday env tr sec usec)
                 (EvSettimeofday sec usec) ;;
      if rc <? 0 then ret NTP_ERR_SET_TIME_FAILED else ret NTP_SUCCESS.

(* ------------------------------------------------------------------ *)
(** *** One exchange *)

Definition INVALID_SOCKET : Z := to_u64 (-1).

Definition IS_INVALID_SOCKET (s : Z) : bool :=
  if win32 env then s =? INVALID_SOCKET else s <? 0.

(** The client timestamp as it goes on the wire:
    [t1_sec = (uint32_t)t1 + NTP_TIMESTAMP_DELTA],
    [t1_frac = (uint32_t)((t1 - (uint32_t)t1) * 4294967296.0)]. *)
Definition ntp_encode (t1 : D) : Z * Z :=
  let t1_sec := to_u32 (to_u64 (to_u32 (dbl_trunc t1) + NTP_TIMESTAMP_DELTA)) in
  let t1_frac :=
    to_u32 (dbl_trunc ((t1 - dbl_of_Z (to_u32 (dbl_trunc t1)))
                       * dbl_of_Z 4294967296)%dbl) in
  (t1_sec, t1_frac).

(** A server timestamp read from the wire:
    [(double)(sec - NTP_TIMESTAMP_DELTA) + (double)fra / 4294967296.0],
    the subtraction being done in [unsigned long long]. *)
Definition ntp_decode (sec fra : Z) : D :=
  (dbl_of_Z (to_u64 (sec - NTP_TIMESTAMP_DELTA))
   + dbl_of_Z fra / dbl_of_Z 4294967296)%dbl.

(** [result.delay = (t4 - t1) - (t3 - t2);
     result.corrected_time = t3 + (result.delay / 2.0);] *)
Definition ntp_offset (t1 t2 t3 t4 : D) : D * D :=
  let delay := ((t4 - t1) - (t3 - t2))%dbl in
  (delay, (t3 + delay / dbl_of_Z 2)%dbl).

Definition set_li_vn_mode (v : Z) (p : ntp_packet) : ntp_packet :=
  mk_packet v (stratum p) (poll p) (precision p) (root_delay p)
    (root_dispersion p) (reference_id p) (ref_ts_sec p) (ref_ts_frac p)
    (orig_ts_sec p) (orig_ts_frac p) (recv_ts_sec p) (recv_ts_frac p)
    (trans_ts_sec p) (trans_ts_frac p).

Definition set_trans_ts (sec frac : Z) (p : ntp_packet) : ntp_packet :=
  mk_packet (li_vn_mode p) (stratum p) (poll p) (precision p) (root_delay p)
    (root_dispersion p) (reference_id p) (ref_ts_sec p) (ref_ts_frac p)
    (orig_ts_sec p) (orig_ts_frac p) (recv_ts_sec p) (recv_ts_frac p)
    sec frac.

(** The [cleanup:] label, reached with a resolved address. *)
Definition query_cleanup (sock : Z) (r : result) : IO result :=
  (if negb (IS_INVALID_SOCKET sock) then call (fun _ => tt) (EvClose sock)
   else ret tt) ;;
  call (fun _ => tt) EvFreeaddrinfo ;;
  ret r.

Definition query_ntp_server (hostname : string) : IO result :=
  let result0 := mk_result (dbl_of_Z 0) (dbl_of_Z 0) NTP_ERR_DNS_FAILED in
  let packet := zero_packet in
  rc <- call (fun tr => os_getaddrinfo env tr hostname)
             (EvGetaddrinfo hostname) ;;
  if negb (rc =? 0) then ret result0
  else
    sock <- call (os_socket env) EvSocket ;;
    if IS_INVALID_SOCKET sock then
      query_cleanup sock
        (mk_result (dbl_of_Z 0) (dbl_of_Z 0) NTP_ERR_SOCKET_CREATE)
    else
      call (fun _ => tt) (EvSetsockopt NTP_TIMEOUT_SEC) ;;
      let packet := set_li_vn_mode 27 packet in
      t1 <- get_local_time_double ;;
      let t1_sec := fst (ntp_encode t1) in
      let t1_frac := snd (ntp_encode t1) in
      let packet :=
        set_trans_ts (htonl (big_endian env) t1_sec)
                     (htonl (big_endian env) t1_frac) packet in
      sent <- call (fun tr => os_sendto env tr packet) (EvSendto sock packet) ;;
      if sent <? 0 then
        query_cleanup sock
          (mk_result (dbl_of_Z 0) (dbl_of_Z 0) NTP_ERR_SEND_FAILED)
      else
        rcv <- call (os_recv env) (EvRecv sock) ;;
        let bytes := fst rcv in
        let packet := snd rcv in
        t4 <- get_local_time_double ;;
        if bytes <? NTP_PACKET_SIZE then
          query_cleanup sock
            (mk_result (dbl_of_Z 0) (dbl_of_Z 0) NTP_ERR_RECV_TIMEOUT)
        else
          valid <- validate_ntp_response packet t1_sec t1_frac ;;
          if valid =? 0 then
            query_cleanup sock
              (mk_result (dbl_of_Z 0) (dbl_of_Z 0) NTP_ERR_INVALID_RESPONSE)
          else
            let t2_sec := ntohl (big_endian env) (recv_ts_sec packet) in
            let t2_fra := ntohl (big_endian env) (recv_ts_frac packet) in
            let t3_sec := ntohl (big_endian env) (trans_ts_sec packet) in
            let t3_fra := ntohl (big_endian env) (trans_ts_frac packet) in
            let t2 := ntp_decode t2_sec t2_fra in
            let t3 := ntp_decode t3_sec t3_fra in
            let delay := fst (ntp_offset t1 t2 t3 t4) in
            let corrected_time := snd (ntp_offset t1 t2 t3 t4) in
            query_cleanup sock (mk_result corrected_time delay NTP_SUCCESS).

(* ------------------------------------------------------------------ *)
(** *** Several samples, averaged *)

(** Locals of [sync_with_server_multi_sample] that the loop updates. *)
Record sample_acc : Type := mk_acc {
  results : list result;       (* results[0 .. i-1] *)
  success_count : Z;
  sum_time : D;
  sum_delay : D
}.

Section Aggregator.

(** The exchange that is sampled; [query_ntp_server] in the program. *)
Variable query : string -> IO result.

(** [for (i = ..; i < samples; i++)], [n] iterations from index [i]. *)
Fixpoint sample_loop (hostname : string) (samples : Z) (n : nat) (i : Z)
         (a : sample_acc) : IO sample_acc :=
  match n with
  | O => ret a
  | S n' =>
      r <- query hostname ;;
      a' <- (if ntp_error_eqb (error r) NTP_SUCCESS then
               out (MsgSampleOk (i + 1) samples
                      (delay r * dbl_of_Z 1000)%dbl) ;;
               ret (mk_acc (results a ++ [r]) (success_count a + 1)
                      (sum_time a + corrected_time r)%dbl
                      (sum_delay a + delay r)%dbl)
             else
               out (MsgSampleFail (i + 1) samples (error r)) ;;
               ret (mk_acc (results a ++ [r]) (success_count a)
                      (sum_time a) (sum_delay a))) ;;
      sample_loop hostname samples n' (i + 1) a'
  end.

Definition sync_with (hostname : string) (samples : Z) : IO result :=
  let final := mk_result (dbl_of_Z 0) (dbl_of_Z 0) NTP_ERR_RECV_TIMEOUT in
  out (MsgSyncing hostname samples) ;;
  a <- sample_loop hostname samples (Z.to_nat samples) 0
         (mk_acc [] 0 (dbl_of_Z 0) (dbl_of_Z 0)) ;;
  if success_count a =? 0 then
    out MsgAllSamplesFailed ;; ret final
  else
    let final :=
      mk_result (sum_time a / dbl_of_Z (success_count a))%dbl
                (sum_delay a / dbl_of_Z (success_count a))%dbl
                NTP_SUCCESS in
    out (MsgSyncOk (delay final * dbl_of_Z 1000)%dbl
           (success_count a) samples) ;;
    ret final.

End Aggregator.

Definition sync_with_server_multi_sample : string -> Z -> IO result :=
  sync_with query_ntp_server.

(* ------------------------------------------------------------------ *)
(** *** User host, then the built-in pool *)

Definition print_usage (prog_name : string) : IO unit :=
  out (MsgUsage prog_name).

(** Stage 1 once the host name has passed [validate_hostname]; the value is
    the flag [success]. *)
Definition stage1 (custom_server : string) (samples : Z) : IO Z :=
  out MsgStage1 ;;
  result <- sync_with_server_multi_sample custom_server samples ;;
  if ntp_error_eqb (error result) NTP_SUCCESS then
    set_error <- set_system_time_platform (corrected_time result) ;;
    if ntp_error_eqb set_error NTP_SUCCESS then
      out (MsgTimeUpdated (to_i64 (dbl_trunc (corrected_time result)))) ;;
      ret 1
    else
      out (MsgError set_error) ;; out MsgHintPrivilege ;; ret 0
  else
    out MsgSwitchToPool ;; ret 0.

(** The loop of stage 2 over the servers not yet tried. *)
Fixpoint stage2_loop (servers : list string) (samples : Z) : IO Z :=
  match servers with
  | [] => ret 0
  | server :: rest =>
      result <- sync_with_server_multi_sample server samples ;;
      if ntp_error_eqb (error result) NTP_SUCCESS then
        set_error <- set_system_time_platform (corrected_time result) ;;
        if ntp_error_eqb set_error NTP_SUCCESS then
          out (MsgTimeUpdated (to_i64 (dbl_trunc (corrected_time result)))) ;;
          ret 1
        else
          out (MsgError set_error) ;; stage2_loop rest samples
      else stage2_loop rest samples
  end.

Definition stage2 (samples : Z) : IO Z :=
  out MsgStage2 ;; stage2_loop INTERNAL_NTP_SERVERS samples.

(** The end of [main]: report, clean up, exit code. *)
Definition finish (success : Z) : IO Z :=
  (if success =? 0 then out MsgAllServersFailed else ret tt) ;;
  cleanup_networking ;;
  ret (if success =? 0 then 1 else 0).

(** [main] from the call of [init_networking] on. *)
Definition run (samples : Z) (custom_server : option string) : IO Z :=
  ok <- init_networking ;;
  if ok =? 0 then ret 1
  else
    match custom_server with
    | Some host =>
        if validate_hostname host =? 0 then
          out (MsgErrInvalidHostname host) ;; cleanup_networking ;; ret 1
        else
          success <- stage1 host samples ;;
          success <- (if success =? 0 then stage2 samples else ret success) ;;
          finish success
    | None =>
        success <- stage2 samples ;;
        finish success
    end.

Definition main (argv : list string) : IO Z :=
  match parse_args (tl argv) 1 None with
  | ArgsHelp => print_usage (hd EmptyString argv) ;; ret 0
  | ArgsSamplesOutOfRange => out MsgErrSamplesRange ;; ret 1
  | ArgsSamplesMissing => out MsgErrSamplesMissing ;; ret 1
  | ArgsOk samples custom_server => run samples custom_server
  end.

End Code.

(* ================================================================== *)
(** ** Reference notions the properties are stated with *)

(** The characters a host name may contain. *)
Definition hostname_alphabet : string :=
  "abcdefghijklmnopqrstuvwxyzABCDEFGHIJKLMNOPQRSTUVWXYZ0123456789.-".

Definition in_hostname_charset (c : ascii) : Prop :=
  In c (list_ascii_of_string hostname_alphabet).

(** Syntactically invalid: empty, too long, or with a foreign character. *)
Definition hostname_invalid (h : string) : Prop :=
  h = EmptyString \/
  (255 < String.length h)%nat \/
  exists c, In c (list_ascii_of_string h) /\ ~ in_hostname_charset c.

(** The four acceptance criteria for a response, the origin echo compared
    on the field values. *)
Definition response_acceptable (big_endian : bool) (p : ntp_packet)
           (sent_sec : Z) : Prop :=
  let mode := li_vn_mode p mod 8 in
  (mode = 4 \/ mode = 5) /\
  1 <= stratum p <= 15 /\
  Z.abs (ntohl big_endian (orig_ts_sec p) - sent_sec) <= 1 /\
  ntohl big_endian (trans_ts_sec p) <> 0.

(** The same criteria, the origin echo compared on the two values read as
    [int]. *)
Definition response_acceptable_int (big_endian : bool) (p : ntp_packet)
           (sent_sec : Z) : Prop :=
  let mode := li_vn_mode p mod 8 in
  (mode = 4 \/ mode = 5) /\
  1 <= stratum p <= 15 /\
  Z.abs (to_i32 (ntohl big_endian (orig_ts_sec p)) - to_i32 sent_sec) <= 1 /\
  ntohl big_endian (trans_ts_sec p) <> 0.

(** The subtraction and [abs] of the origin check are within [int]. *)
Definition origin_check_defined (big_endian : bool) (p : ntp_packet)
           (sent_sec : Z) : Prop :=
  INT_MIN < to_i32 (ntohl big_endian (orig_ts_sec p)) - to_i32 sent_sec
          <= INT_MAX.

(** The fraction of a second left after the whole seconds, scaled to the
    32-bit field. *)
Definition scaled_fraction (t : Q) : Q :=
  ((t - inject_Z (Qfloor t)) * inject_Z 4294967296)%Q.

(* ------------------------------------------------------------------ *)
(** *** Concrete systems and inputs *)

(** A server reply (LI 0, VN 4, mode 4) as the host finds it in memory. *)
Definition reply_packet (big_endian : bool) (stratum : Z)
           (orig_sec recv_sec recv_frac trans_sec trans_frac : Z) : ntp_packet :=
  mk_packet 36 stratum 0 0 0 0 0 0 0
    (htonl big_endian orig_sec) 0
    (htonl big_endian recv_sec) (htonl big_endian recv_frac)
    (htonl big_endian trans_sec) (htonl big_endian trans_frac).

(** A little-endian POSIX host whose clock reads 1000.5 s: [uid] is the
    user, [gai] what [getaddrinfo] returns, [rcv] what [recv] delivers. *)
Definition posix_host {D : Type} (uid gai : Z) (rcv : Z * ntp_packet) : Env D :=
  mk_env false false
    (fun _ => 0) (fun _ _ => gai) (fun _ => 3)
    (fun _ => (1000, 500000)) (fun _ => (0, 0))
    (fun _ _ => 48) (fun _ => rcv)
    (fun _ => uid) (fun _ _ _ => 0) (fun _ _ => true) (fun _ => 0).

(** The second the client stamps on its request on [posix_host]. *)
Definition sent_second_1000 : Z := 1000 + NTP_TIMESTAMP_DELTA.

(** A sound reply to a request sent on [posix_host]: received by the server
    at 1010.0 s, sent back at 1010.25 s. *)
Definition good_reply : ntp_packet :=
  reply_packet false 1 sent_second_1000
    (1010 + NTP_TIMESTAMP_DELTA) 0 (1010 + NTP_TIMESTAMP_DELTA) (2 ^ 30).

(** The same reply from a server announcing stratum 16. *)
Definition stratum16_reply : ntp_packet :=
  reply_packet false 16 sent_second_1000
    (1010 + NTP_TIMESTAMP_DELTA) 0 (1010 + NTP_TIMESTAMP_DELTA) (2 ^ 30).

(** A reply whose origin second is 0. *)
Definition origin_zero_reply : ntp_packet :=
  reply_packet false 1 0 1 0 1 0.

(* ------------------------------------------------------------------ *)
(** *** What one exchange reads, by the history it starts from *)

Section ExchangeReadings.

Context {D : Type} `{DoubleOps D}.
Variable env : Env D.
Variable hostname : string.
Variable tr : trace D.

(** The socket the exchange obtains. *)
Definition exchange_socket : Z := os_socket env (tr ++ [EvGetaddrinfo hostname]).

(** T1: the local clock read just before the request is sent. *)
Definition exchange_t1 : D :=
  fst (get_local_time_double env
         (tr ++ [EvGetaddrinfo hostname; EvSocket;
                 EvSetsockopt NTP_TIMEOUT_SEC])).

(** The request: LI 0, VN 3, mode 3, transmit timestamp T1, all else 0. *)
Definition exchange_request : ntp_packet :=
  mk_packet 27 0 0 0 0 0 0 0 0 0 0 0 0
    (htonl (big_endian env) (fst (ntp_encode exchange_t1)))
    (htonl (big_endian env) (snd (ntp_encode exchange_t1))).

(** The history once the request has been sent. *)
Definition exchange_sent : trace D :=
  tr ++ [EvGetaddrinfo hostname; EvSocket; EvSetsockopt NTP_TIMEOUT_SEC;
         EvGetTime; EvSendto exchange_socket exchange_request].

(** The reply delivered by [recv]. *)
Definition exchange_reply : ntp_packet := snd (os_recv env exchange_sent).

(** T4: the local clock read right after [recv] returns. *)
Definition exchange_t4 : D :=
  fst (get_local_time_double env
         (exchange_sent ++ [EvRecv exchange_socket])).

(** T2 and T3: the server's receive and transmit timestamps. *)
Definition exchange_t2 : D :=
  ntp_decode (ntohl (big_endian env) (recv_ts_sec exchange_reply))
             (ntohl (big_endian env) (recv_ts_frac exchange_reply)).

Definition exchange_t3 : D :=
  ntp_decode (ntohl (big_endian env) (trans_ts_sec exchange_reply))
             (ntohl (big_endian env) (trans_ts_frac exchange_reply)).

End ExchangeReadings.

(* ------------------------------------------------------------------ *)
(** *** Averages over the samples of one host *)

Section Averages.

Context {D : Type} `{DoubleOps D}.

Definition succeeded (r : ntp_result D) : bool :=
  ntp_error_eqb (error r) NTP_SUCCESS.

(** The samples that count. *)
Definition successes (rs : list (ntp_result D)) : list (ntp_result D) :=
  filter succeeded rs.

Definition dbl_sum (l : list D) : D := fold_left dbl_add l (dbl_of_Z 0).

(** The unweighted arithmetic mean. *)
Definition dbl_mean (l : list D) : D :=
  (dbl_sum l / dbl_of_Z (Z.of_nat (List.length l)))%dbl.

(** The array [results] once the sampling loop of a host is over. *)
Definition sampled_results (query : string -> M D (ntp_result D))
           (hostname : string) (samples : Z) (tr : trace D)
  : list (ntp_result D) :=
  results (fst (sample_loop query hostname samples (Z.to_nat samples) 0
                  (mk_acc [] 0 (dbl_of_Z 0) (dbl_of_Z 0))
                  (tr ++ [EvOut (MsgSyncing hostname samples)]))).

(** An exchange that replays a script: the k-th call returns the k-th
    entry, calls being counted by the resolutions in the history. *)
Definition is_resolution (e : event D) : bool :=
  match e with EvGetaddrinfo _ => true | _ => false end.

Definition scripted_query (script : list (ntp_result D))
           (hostname : string) : M D (ntp_result D) :=
  call (fun tr =>
          nth (List.length (filter is_resolution tr)) script
              (mk_result (dbl_of_Z 0) (dbl_of_Z 0) NTP_ERR_RECV_TIMEOUT))
       (EvGetaddrinfo hostname).

(** [n / d] as a [double]. *)
Definition ratio (n d : Z) : D := (dbl_of_Z n / dbl_of_Z d)%dbl.

(** Three samples, the second one failed. *)
Definition three_samples : list (ntp_result D) :=
  [ mk_result (ratio 1000 10) (ratio 1 100) NTP_SUCCESS;
    mk_result (ratio 1002 10) (ratio 3 100) NTP_ERR_RECV_TIMEOUT;
    mk_result (ratio 1001 10) (ratio 2 100) NTP_SUCCESS ].

End Averages.

(* ------------------------------------------------------------------ *)
(** *** Kinds of events *)

Section EventKinds.

Context {D : Type}.

(** Calls that reach the resolver or a socket. *)
Definition network_io (e : event D) : bool :=
  match e with
  | EvGetaddrinfo _ | EvFreeaddrinfo | EvSocket | EvSetsockopt _
  | EvClose _ | EvSendto _ _ | EvRecv _ => true
  | _ => false
  end.

(** Calls made by [set_system_time_platform]. *)
Definition sets_clock (e : event D) : bool :=
  match e with
  | EvGetuid | EvSettimeofday _ _ | EvSetSystemTime _ | EvGetLastError => true
  | _ => false
  end.

(** The start of an attempt on a server. *)
Definition server_attempt (e : event D) : bool :=
  match e with
  | EvOut (MsgSyncing _ _) => true
  | _ => false
  end.

(** The report of a successful aggregate. *)
Definition reports_sync_ok (e : event D) : bool :=
  match e with
  | EvOut (MsgSyncOk _ _ _) => true
  | _ => false
  end.

(** Nothing but local actions: no network, no server, no clock. *)
Definition local_only (e : event D) : Prop :=
  network_io e = false /\ server_attempt e = false /\ sets_clock e = false.

(** "A permission failure ends the run": whatever follows its report
    reaches no server. *)
Definition stops_after_permission_denied (evs : trace D) : Prop :=
  forall pre post,
    evs = pre ++ EvOut (MsgError NTP_ERR_PERMISSION_DENIED) :: post ->
    Forall (fun e => network_io e = false) post.

(** No successful aggregate is reported anywhere in a history: every
    attempt on a server has failed, since a success is always reported and
    a failure never is. *)
Definition no_sync_ok (tr : trace D) : Prop :=
  forall e, In e tr -> reports_sync_ok e = false.

Definition no_clock (e : event D) : Prop := sets_clock e = false.

(** Neither a clock call nor the report of a successful aggregate. *)
Definition quiet (e : event D) : Prop :=
  sets_clock e = false /\ reports_sync_ok e = false.
Definition any_event (e : event D) : Prop := True.

(** [c] appends events to the history, all of them in [P]. *)
Definition extends {A : Type} (c : M D A) (P : event D -> Prop) : Prop :=
  forall tr, exists evs, snd (c tr) = tr ++ evs /\ Forall P evs.

End EventKinds.

(* ------------------------------------------------------------------ *)
(** *** What decides the outcome of one exchange *)

Section ExchangeCauses.

Context {D : Type} `{DoubleOps D}.
Variable env : Env D.
Variable hostname : string.
Variable tr : trace D.

(** [getaddrinfo] returned 0. *)
Definition exchange_resolved : bool := os_getaddrinfo env tr hostname =? 0.

(** [socket] returned a valid descriptor. *)
Definition exchange_socket_ok : bool :=
  negb (IS_INVALID_SOCKET env (exchange_socket env hostname tr)).

(** What [sendto] returned. *)
Definition exchange_send_ret : Z :=
  os_sendto env
    (tr ++ [EvGetaddrinfo hostname; EvSocket; EvSetsockopt NTP_TIMEOUT_SEC;
            EvGetTime])
    (exchange_request env hostname tr).

(** What [recv] returned. *)
Definition exchange_bytes : Z := fst (os_recv env (exchange_sent env hostname tr)).

(** The history when the reply is validated. *)
Definition exchange_received : trace D :=
  exchange_sent env hostname tr
  ++ [EvRecv (exchange_socket env hostname tr); EvGetTime].

(** What the validator says of the reply. *)
Definition exchange_valid : Z :=
  fst (validate_ntp_response env (exchange_reply env hostname tr)
         (fst (ntp_encode (exchange_t1 env hostname tr)))
         (snd (ntp_encode (exchange_t1 env hostname tr)))
         exchange_received).

End ExchangeCauses.

(* ------------------------------------------------------------------ *)
(** *** More kinds of events *)

Section MoreEventKinds.

Context {D : Type}.

Definition is_socket (e : event D) : bool :=
  match e with EvSocket => true | _ => false end.

Definition is_close (e : event D) : bool :=
  match e with EvClose _ => true | _ => false end.

Definition is_free (e : event D) : bool :=
  match e with EvFreeaddrinfo => true | _ => false end.

Definition is_send (e : event D) : bool :=
  match e with EvSendto _ _ => true | _ => false end.

(** Between the send and the release of the socket: the receive, the
    clock reading and the validator's diagnostics. *)
Definition after_send (e : event D) : bool :=
  match e with
  | EvRecv _ | EvGetTime => true
  | EvOut (MsgDbgMode _) | EvOut MsgDbgUnsynced | EvOut (MsgDbgStratum _)
  | EvOut (MsgDbgOrigDiff _ _ _) | EvOut MsgDbgTransZero => true
  | _ => false
  end.

(** Events of the sampling of one host: those of the exchanges and the
    line printed for each sample. *)
Definition from_sampling (e : event D) : bool :=
  match e with
  | EvGetaddrinfo _ | EvFreeaddrinfo | EvSocket | EvSetsockopt _
  | EvClose _ | EvSendto _ _ | EvRecv _ | EvGetTime => true
  | EvOut (MsgDbgMode _) | EvOut MsgDbgUnsynced | EvOut (MsgDbgStratum _)
  | EvOut (MsgDbgOrigDiff _ _ _) | EvOut MsgDbgTransZero => true
  | EvOut (MsgSampleOk _ _ _) | EvOut (MsgSampleFail _ _ _) => true
  | _ => false
  end.

(** The report that the clock has been set. *)
Definition reports_update (e : event D) : bool :=
  match e with EvOut (MsgTimeUpdated _) => true | _ => false end.

(** Start-up and teardown of the network stack. *)
Definition wsa_event (e : event D) : bool :=
  match e with EvWSAStartup | EvWSACleanup => true | _ => false end.

End MoreEventKinds.

(** The request of [posix_host] (clock at 1000.5 s) as it is in memory. *)
Definition reflected_request : ntp_packet :=
  mk_packet 27 0 0 0 0 0 0 0 0 0 0 0 0
    (htonl false sent_second_1000) (htonl false (2 ^ 31)).



(* ------------------------------------------------------------------ *)
(** *** Lines printed while a host is sampled *)

Section ReportLines.

Context {D : Type} `{DoubleOps D}.

(** The diagnostics of [validate_ntp_response]. *)
Definition is_diagnostic (m : message D) : bool :=
  match m with
  | MsgDbgMode _ | MsgDbgUnsynced | MsgDbgStratum _
  | MsgDbgOrigDiff _ _ _ | MsgDbgTransZero => true
  | _ => false
  end.

Definition is_sample_line (e : event D) : bool :=
  match e with
  | EvOut (MsgSampleOk _ _ _) | EvOut (MsgSampleFail _ _ _) => true
  | _ => false
  end.

(** The line printed for sample number [i] with result [r]. *)
Definition sample_line (samples i : Z) (r : ntp_result D) : event D :=
  if succeeded r
  then EvOut (MsgSampleOk i samples (delay r * dbl_of_Z 1000)%dbl)
  else EvOut (MsgSampleFail i samples (error r)).

(** The lines of the results [rs], numbered from [i]. *)
Fixpoint numbered_lines (samples i : Z) (rs : list (ntp_result D))
  : list (event D) :=
  match rs with
  | [] => []
  | r :: rs' => sample_line samples i r :: numbered_lines samples (i + 1) rs'
  end.

(** The line that closes the sampling of a host. *)
Definition is_summary (e : event D) : bool :=
  match e with
  | EvOut MsgAllSamplesFailed | EvOut (MsgSyncOk _ _ _) => true
  | _ => false
  end.

End ReportLines.

(* ------------------------------------------------------------------ *)
(** *** The servers of a run *)

Section RunShape.

Context {D : Type}.

(** The servers a run may attempt, in the order it attempts them. *)
Definition candidates (custom_server : option string) : list string :=
  match custom_server with
  | Some host => host :: INTERNAL_NTP_SERVERS
  | None => INTERNAL_NTP_SERVERS
  end.

(** The announcements of the attempts on [hosts]. *)
Definition announced (samples : Z) (hosts : list string) : list (event D) :=
  map (fun host => EvOut (MsgSyncing host samples)) hosts.

(** The final report that no server could be used. *)
Definition reports_failure (e : event D) : bool :=
  match e with EvOut MsgAllServersFailed => true | _ => false end.

(** Events that start no attempt, report neither the update nor the final
    failure, and neither start nor stop the network stack. *)
Definition ordinary (e : event D) : bool :=
  negb (server_attempt e || reports_update e || reports_failure e
        || wsa_event e).

Definition is_ordinary (e : event D) : Prop := ordinary e = true.

(** What the attempts of a run on [hosts] leave behind, [success] being the
    flag of [main]: the hosts are announced in order; on failure all of them
    were, and the update is not reported; on success the report of the
    update is the last event and the only such report. *)
Definition attempts_outcome (samples : Z) (hosts : list string)
           (success : Z) (evs : trace D) : Prop :=
  exists k,
    filter server_attempt evs = announced samples (firstn k hosts) /\
    Forall (fun e => wsa_event e = false /\ reports_failure e = false) evs /\
    ((success = 0 /\ k = List.length hosts /\
      Forall (fun e => reports_update e = false) evs) \/
     (success = 1 /\
      exists pre final_sec,
        evs = pre ++ [EvOut (MsgTimeUpdated final_sec)] /\
        Forall (fun e => reports_update e = false) pre)).

(** Start-up and teardown as they appear in the history of a host. *)
Definition startup_events (env : Env D) : trace D :=
  if win32 env then [EvWSAStartup] else [].

Definition cleanup_events (env : Env D) : trace D :=
  if win32 env then [EvWSACleanup] else [].

(** How a run ends, [code] being its value and [evs] what it adds to the
    history [tr]: the network stack does not start; or the user's host is
    refused; or the attempts are made and the run finishes. *)
Definition run_outcome (env : Env D) (samples : Z)
           (custom_server : option string) (tr : trace D) (code : Z)
           (evs : trace D) : Prop :=
  (win32 env = true /\ os_WSAStartup env tr <> 0 /\
   evs = [EvWSAStartup; EvOut MsgErrWinsockInit] /\ code = 1) \/
  ((win32 env = true -> os_WSAStartup env tr = 0) /\
   exists host,
     custom_server = Some host /\ validate_hostname host = 0 /\
     evs = startup_events env ++ [EvOut (MsgErrInvalidHostname host)]
           ++ cleanup_events env /\
     code = 1) \/
  ((win32 env = true -> os_WSAStartup env tr = 0) /\
   exists body success,
     attempts_outcome samples (candidates custom_server) success body /\
     evs = startup_events env ++ body
           ++ (if success =? 0 then [EvOut MsgAllServersFailed] else [])
           ++ cleanup_events env /\
     code = (if success =? 0 then 1 else 0)).

(** The clock has just been set, with success, when the history is
    [history]: on POSIX by root through [settimeofday] to the second
    [final_sec], on Windows through [SetSystemTime]. *)
Definition clock_set_at (env : Env D) (history : trace D) (final_sec : Z)
  : Prop :=
  if win32 env
  then exists before ticks,
         history = before ++ [EvSetSystemTime ticks] /\
         os_SetSystemTime env before ticks = true
  else exists before usec,
         history = before ++ [EvGetuid; EvSettimeofday final_sec usec] /\
         os_getuid env before = 0 /\
         0 <= os_settimeofday env (before ++ [EvGetuid]) final_sec usec.

(** The value of a stage is the flag [success] of [main]: 1 exactly when
    the clock has just been set and the update reported. *)
Definition stage_result (env : Env D) (r : Z * trace D) : Prop :=
  fst r = 0 \/
  (fst r = 1 /\
   exists history final_sec,
     snd r = history ++ [EvOut (MsgTimeUpdated final_sec)] /\
     clock_set_at env history final_sec).

End RunShape.

(* ================================================================== *)
(** ** Machine integers and byte order *)

Lemma to_u32_small (x : Z) : is_u32 x -> to_u32 x = x.
Proof. unfold is_u32, to_u32. intros Hx. apply Z.mod_small. exact Hx. Qed.

Lemma to_u32_range (x : Z) : is_u32 (to_u32 x).
Proof. unfold is_u32, to_u32. apply Z.mod_pos_bound. lia. Qed.

Lemma to_i32_small (x : Z) : INT_MIN <= x <= INT_MAX -> to_i32 x = x.
Proof.
  unfold INT_MIN, INT_MAX, to_i32. intros Hx.
  rewrite Z.mod_small by lia. lia.
Qed.

Lemma to_i32_range (x : Z) : INT_MIN <= to_i32 x <= INT_MAX.
Proof.
  unfold INT_MIN, INT_MAX, to_i32.
  assert (0 <= (x + 2 ^ 31) mod 2 ^ 32 < 2 ^ 32) by (apply Z.mod_pos_bound; lia).
  lia.
Qed.

Lemma bswap32_range (x : Z) : is_u32 (bswap32 x).
Proof.
  unfold is_u32, bswap32.
  assert (0 <= x mod 256 < 256) by (apply Z.mod_pos_bound; lia).
  assert (0 <= (x / 2 ^ 8) mod 256 < 256) by (apply Z.mod_pos_bound; lia).
  assert (0 <= (x / 2 ^ 16) mod 256 < 256) by (apply Z.mod_pos_bound; lia).
  assert (0 <= (x / 2 ^ 24) mod 256 < 256) by (apply Z.mod_pos_bound; lia).
  lia.
Qed.

Lemma bytes_join_split (a b c d : Z) :
  0 <= a < 256 -> 0 <= b < 256 -> 0 <= c < 256 -> 0 <= d < 256 ->
  (a * 2 ^ 24 + b * 2 ^ 16 + c * 2 ^ 8 + d) mod 256 = d /\
  ((a * 2 ^ 24 + b * 2 ^ 16 + c * 2 ^ 8 + d) / 2 ^ 8) mod 256 = c /\
  ((a * 2 ^ 24 + b * 2 ^ 16 + c * 2 ^ 8 + d) / 2 ^ 16) mod 256 = b /\
  ((a * 2 ^ 24 + b * 2 ^ 16 + c * 2 ^ 8 + d) / 2 ^ 24) mod 256 = a.
Proof.
  intros Ha Hb Hc Hd.
  set (y := a * 2 ^ 24 + b * 2 ^ 16 + c * 2 ^ 8 + d).
  assert (E0 : y = d + (a * 65536 + b * 256 + c) * 256) by (unfold y; lia).
  assert (E1 : y / 2 ^ 8 = a * 65536 + b * 256 + c).
  { rewrite E0. change (2 ^ 8) with 256. rewrite Z.div_add by lia.
    rewrite Z.div_small by lia. lia. }
  assert (E2 : y / 2 ^ 16 = a * 256 + b).
  { replace y with ((c * 256 + d) + (a * 256 + b) * 2 ^ 16) by (unfold y; lia).
    rewrite Z.div_add by lia. rewrite Z.div_small by lia. lia. }
  assert (E3 : y / 2 ^ 24 = a).
  { replace y with ((b * 65536 + c * 256 + d) + a * 2 ^ 24) by (unfold y; lia).
    rewrite Z.div_add by lia. rewrite Z.div_small by lia. lia. }
  repeat split.
  - rewrite E0. rewrite Z.mod_add by lia. apply Z.mod_small; lia.
  - rewrite E1.
    replace (a * 65536 + b * 256 + c) with (c + (a * 256 + b) * 256) by lia.
    rewrite Z.mod_add by lia. apply Z.mod_small; lia.
  - rewrite E2. replace (a * 256 + b) with (b + a * 256) by lia.
    rewrite Z.mod_add by lia. apply Z.mod_small; lia.
  - rewrite E3. apply Z.mod_small; lia.
Qed.

Lemma bytes_split_join (x : Z) :
  is_u32 x ->
  x = (x / 2 ^ 24) mod 256 * 2 ^ 24 + (x / 2 ^ 16) mod 256 * 2 ^ 16 +
      (x / 2 ^ 8) mod 256 * 2 ^ 8 + x mod 256.
Proof.
  unfold is_u32. intros Hx.
  assert (H1 := Z.div_mod x 256 ltac:(lia)).
  assert (H2 := Z.div_mod (x / 2 ^ 8) 256 ltac:(lia)).
  assert (H3 := Z.div_mod (x / 2 ^ 16) 256 ltac:(lia)).
  assert (H4 := Z.div_mod (x / 2 ^ 24) 256 ltac:(lia)).
  assert (D1 : x / 2 ^ 8 / 256 = x / 2 ^ 16)
    by (rewrite Z.div_div by lia; reflexivity).
  assert (D2 : x / 2 ^ 16 / 256 = x / 2 ^ 24)
    by (rewrite Z.div_div by lia; reflexivity).
  assert (D3 : x / 2 ^ 24 / 256 = 0).
  { rewrite Z.div_div by lia. apply Z.div_small. lia. }
  change (x / 256) with (x / 2 ^ 8) in H1.
  rewrite D1 in H2. rewrite D2 in H3. rewrite D3 in H4.
  lia.
Qed.

Lemma bswap32_involutive (x : Z) : is_u32 x -> bswap32 (bswap32 x) = x.
Proof.
  intros Hx.
  assert (B0 : 0 <= x mod 256 < 256) by (apply Z.mod_pos_bound; lia).
  assert (B1 : 0 <= (x / 2 ^ 8) mod 256 < 256) by (apply Z.mod_pos_bound; lia).
  assert (B2 : 0 <= (x / 2 ^ 16) mod 256 < 256) by (apply Z.mod_pos_bound; lia).
  assert (B3 : 0 <= (x / 2 ^ 24) mod 256 < 256) by (apply Z.mod_pos_bound; lia).
  destruct (bytes_join_split _ _ _ _ B0 B1 B2 B3) as (E0 & E1 & E2 & E3).
  unfold bswap32. rewrite E0, E1, E2, E3.
  symmetry. apply bytes_split_join. exact Hx.
Qed.

Lemma htonl_range (be : bool) (x : Z) : is_u32 (htonl be x).
Proof.
  unfold htonl. destruct be; [apply to_u32_range | apply bswap32_range].
Qed.

Lemma ntohl_range (be : bool) (x : Z) : is_u32 (ntohl be x).
Proof.
  unfold ntohl. destruct be; [apply to_u32_range | apply bswap32_range].
Qed.

(** What is written in network order is read back unchanged. *)
Lemma ntohl_htonl (be : bool) (x : Z) : is_u32 x -> ntohl be (htonl be x) = x.
Proof.
  intros Hx. unfold ntohl, htonl. destruct be.
  - rewrite !to_u32_small; auto. rewrite to_u32_small; auto.
  - rewrite (to_u32_small x Hx).
    rewrite (to_u32_small (bswap32 x)) by apply bswap32_range.
    apply bswap32_involutive. exact Hx.
Qed.

Lemma land_7_mod_8 (x : Z) : Z.land x 7 = x mod 8.
Proof. exact (Z.land_ones x 3 ltac:(lia)). Qed.

(* ================================================================== *)
(** ** Hostname syntax *)

Lemma hostname_char_ok_mem (c : ascii) :
  hostname_char_ok c =
  existsb (Ascii.eqb c) (list_ascii_of_string hostname_alphabet).
Proof.
  destruct c as [b0 b1 b2 b3 b4 b5 b6 b7].
  destruct b0, b1, b2, b3, b4, b5, b6, b7; vm_compute; reflexivity.
Qed.

Lemma hostname_char_ok_spec (c : ascii) :
  hostname_char_ok c = true <-> in_hostname_charset c.
Proof.
  rewrite hostname_char_ok_mem. unfold in_hostname_charset.
  rewrite existsb_exists. split.
  - intros (x & Hin & Heq). apply Ascii.eqb_eq in Heq. subst x. exact Hin.
  - intros Hin. exists c. split; [exact Hin | apply Ascii.eqb_refl].
Qed.

Lemma hostname_chars_ok_spec (s : string) :
  hostname_chars_ok s = true <->
  forall c, In c (list_ascii_of_string s) -> in_hostname_charset c.
Proof.
  induction s as [| a s IH]; simpl.
  - split; [intros _ c [] | reflexivity].
  - destruct (hostname_char_ok a) eqn:Ha.
    + rewrite IH. split.
      * intros Hs c [Hc | Hc]; [subst c; apply hostname_char_ok_spec, Ha | auto].
      * intros Hs c Hc. apply Hs. right. exact Hc.
    + split; [discriminate |].
      intros Hs. assert (Hin : in_hostname_charset a) by (apply Hs; left; reflexivity).
      apply hostname_char_ok_spec in Hin. congruence.
Qed.

Lemma validate_hostname_bool (h : string) :
  validate_hostname h = 0 \/ validate_hostname h = 1.
Proof.
  unfold validate_hostname.
  destruct (_ || _); [left; reflexivity |].
  destruct (hostname_chars_ok h); [right | left]; reflexivity.
Qed.

Lemma validate_hostname_accepts_iff (h : string) :
  validate_hostname h = 1 <->
  (1 <= String.length h <= 255)%nat /\
  forall c, In c (list_ascii_of_string h) -> in_hostname_charset c.
Proof.
  unfold validate_hostname, MAX_HOSTNAME_LEN.
  rewrite <- hostname_chars_ok_spec.
  destruct (Z.of_nat (String.length h) =? 0) eqn:E0; simpl.
  - apply Z.eqb_eq in E0. split; [discriminate | intros [[? ?] _]; lia].
  - apply Z.eqb_neq in E0.
    destruct (255 <? Z.of_nat (String.length h)) eqn:E1.
    + apply Z.ltb_lt in E1. split; [discriminate | intros [[? ?] _]; lia].
    + apply Z.ltb_ge in E1.
      destruct (hostname_chars_ok h).
      * split; [intros _; split; [lia | reflexivity] | reflexivity].
      * split; [discriminate | intros [_ ?]; discriminate].
Qed.

Lemma validate_hostname_rejects (h : string) :
  hostname_invalid h -> validate_hostname h = 0.
Proof.
  intros Hinv.
  destruct (validate_hostname_bool h) as [E | E]; [exact E |].
  apply validate_hostname_accepts_iff in E. destruct E as [[Hlo Hhi] Hch].
  destruct Hinv as [He | [Hl | (c & Hin & Hc)]].
  - subst h. simpl in Hlo. lia.
  - lia.
  - elim Hc. apply Hch. exact Hin.
Qed.

(** C10.  [validate_hostname] checks the length (1 to 255) and the
    characters (letters, digits, '.', '-') and nothing else: every
    non-empty string of at most 255 characters drawn from that set is
    accepted, whatever its shape. *)
Theorem validate_hostname_accepts_charset (h : string) :
  (1 <= String.length h)%nat ->
  (String.length h <= 255)%nat ->
  (forall c, In c (list_ascii_of_string h) -> in_hostname_charset c) ->
  validate_hostname h = 1.
Proof.
  intros Hlo Hhi Hch. apply validate_hostname_accepts_iff.
  split; [split; assumption | exact Hch].
Qed.

(** Every character of a given string is in the set. *)
Ltac in_charset :=
  let c := fresh "c" in
  let Hc := fresh "Hc" in
  intros c Hc; apply hostname_char_ok_spec; simpl in Hc;
  repeat (destruct Hc as [Hc | Hc]; [subst c; reflexivity |]);
  destruct Hc.

Lemma validate_hostname_accepts_charset_witness :
  validate_hostname "-" = 1 /\ validate_hostname "..." = 1 /\
  validate_hostname "0123456789" = 1.
Proof.
  refine (conj (validate_hostname_accepts_charset "-" _ _ _)
            (conj (validate_hostname_accepts_charset "..." _ _ _)
                  (validate_hostname_accepts_charset "0123456789" _ _ _)));
    first [in_charset | simpl; lia].
Defined.

(* ================================================================== *)
(** ** Response validation *)

Section ValidatorFacts.

Context {D : Type} `{DoubleOps D}.

Lemma validate_ntp_response_bool (env : Env D) (p : ntp_packet)
      (sent_sec sent_frac : Z) (tr : trace D) :
  fst (validate_ntp_response env p sent_sec sent_frac tr) = 0 \/
  fst (validate_ntp_response env p sent_sec sent_frac tr) = 1.
Proof.
  unfold validate_ntp_response.
  repeat match goal with
         | |- context [if ?b then _ else _] => destruct b
         end; cbn; auto.
Qed.

(** The test "[sec_diff > 1]" when the [int] arithmetic does not overflow. *)
Lemma origin_diff_defined (a b : Z) :
  INT_MIN < to_i32 a - to_i32 b <= INT_MAX ->
  abs_i32 (sub_i32 (to_i32 a) (to_i32 b)) = Z.abs (to_i32 a - to_i32 b).
Proof.
  intros Hd. unfold sub_i32, abs_i32.
  rewrite (to_i32_small (to_i32 a - to_i32 b)) by lia.
  apply to_i32_small. unfold INT_MIN, INT_MAX in *. lia.
Qed.

Lemma to_i32_sub (a b : Z) : sub_i32 (to_i32 a) (to_i32 b) = to_i32 (a - b).
Proof.
  unfold sub_i32, to_i32.
  replace ((a + 2 ^ 31) mod 2 ^ 32 - 2 ^ 31
           - ((b + 2 ^ 31) mod 2 ^ 32 - 2 ^ 31) + 2 ^ 31)
    with (((a + 2 ^ 31) mod 2 ^ 32 - (b + 2 ^ 31) mod 2 ^ 32) + 2 ^ 31)
    by lia.
  rewrite <- Zplus_mod_idemp_l. rewrite <- Zminus_mod.
  rewrite Zplus_mod_idemp_l.
  replace (a + 2 ^ 31 - (b + 2 ^ 31) + 2 ^ 31) with (a - b + 2 ^ 31) by lia.
  reflexivity.
Qed.

(** The test "[sec_diff > 1]" on every input, the [int] arithmetic wrapping
    around: it passes the differences 0, 1 and -1 modulo 2^32, and 2^31. *)
Lemma origin_diff_wrapping (a b : Z) :
  (1 <? abs_i32 (sub_i32 (to_i32 a) (to_i32 b))) = false <->
  (a - b) mod 2 ^ 32 = 0 \/ (a - b) mod 2 ^ 32 = 1 \/
  (a - b) mod 2 ^ 32 = 2 ^ 32 - 1 \/ (a - b) mod 2 ^ 32 = 2 ^ 31.
Proof.
  rewrite to_i32_sub. rewrite Z.ltb_ge.
  unfold abs_i32, to_i32.
  set (d := a - b).
  assert (Hm : 0 <= d mod 2 ^ 32 < 2 ^ 32) by (apply Z.mod_pos_bound; lia).
  assert (Hs : (d + 2 ^ 31) mod 2 ^ 32 =
               if d mod 2 ^ 32 <? 2 ^ 31
               then d mod 2 ^ 32 + 2 ^ 31 else d mod 2 ^ 32 - 2 ^ 31).
  { rewrite <- Zplus_mod_idemp_l.
    destruct (Z.ltb_spec (d mod 2 ^ 32) (2 ^ 31)).
    - apply Z.mod_small. lia.
    - replace (d mod 2 ^ 32 + 2 ^ 31)
        with ((d mod 2 ^ 32 - 2 ^ 31) + 1 * 2 ^ 32) by lia.
      rewrite Z.mod_add by lia. apply Z.mod_small. lia. }
  rewrite Hs. clearbody d.
  destruct (Z.ltb_spec (d mod 2 ^ 32) (2 ^ 31)) as [Hlt | Hge].
  - replace (d mod 2 ^ 32 + 2 ^ 31 - 2 ^ 31) with (d mod 2 ^ 32) by lia.
    rewrite Z.abs_eq by lia. rewrite Z.mod_small by lia. lia.
  - replace (d mod 2 ^ 32 - 2 ^ 31 - 2 ^ 31)
      with (d mod 2 ^ 32 - 2 ^ 32) by lia.
    rewrite Z.abs_neq by lia.
    destruct (Z.eq_dec (d mod 2 ^ 32) (2 ^ 31)) as [E | E].
    + rewrite E. vm_compute. intuition discriminate.
    + rewrite Z.mod_small by lia. lia.
Qed.

(** The four tests of the validator, in the order it makes them. *)
Lemma validate_ntp_response_decides (env : Env D) (p : ntp_packet)
      (sent_sec sent_frac : Z) (tr : trace D) :
  is_u8 (stratum p) ->
  fst (validate_ntp_response env p sent_sec sent_frac tr) = 1 <->
  (li_vn_mode p mod 8 = 4 \/ li_vn_mode p mod 8 = 5) /\
  1 <= stratum p <= 15 /\
  (1 <? abs_i32 (sub_i32 (to_i32 (ntohl (big_endian env) (orig_ts_sec p)))
                         (to_i32 sent_sec))) = false /\
  ntohl (big_endian env) (trans_ts_sec p) <> 0.
Proof.
  unfold is_u8. intros Hs.
  unfold validate_ntp_response, MAX_VALID_STRATUM.
  rewrite land_7_mod_8.
  set (mode := li_vn_mode p mod 8).
  destruct (Z.eqb_spec mode 4) as [M4 | M4];
    destruct (Z.eqb_spec mode 5) as [M5 | M5];
    destruct (Z.eqb_spec (stratum p) 0) as [S0 | S0];
    destruct (Z.ltb_spec 15 (stratum p)) as [S15 | S15];
    destruct (1 <? abs_i32 _) eqn:Dd;
    destruct (Z.eqb_spec (ntohl (big_endian env) (trans_ts_sec p)) 0)
      as [T0 | T0];
    cbn; split; intros Hc;
    try discriminate; try reflexivity;
    try (destruct Hc as (Hm & Hst & Hd & Ht); exfalso;
         first [discriminate | lia]);
    try (repeat split; (lia || auto)).
Qed.

(** The validator on every well-formed packet, with wrap-around. *)
Lemma validate_ntp_response_accepts_wrapping (env : Env D) (p : ntp_packet)
      (sent_sec sent_frac : Z) (tr : trace D) :
  wf_packet p ->
  fst (validate_ntp_response env p sent_sec sent_frac tr) = 1 <->
  (li_vn_mode p mod 8 = 4 \/ li_vn_mode p mod 8 = 5) /\
  1 <= stratum p <= 15 /\
  (let d := (ntohl (big_endian env) (orig_ts_sec p) - sent_sec) mod 2 ^ 32 in
   d = 0 \/ d = 1 \/ d = 2 ^ 32 - 1 \/ d = 2 ^ 31) /\
  ntohl (big_endian env) (trans_ts_sec p) <> 0.
Proof.
  intros (_ & Hs & _).
  rewrite (validate_ntp_response_decides env p sent_sec sent_frac tr Hs).
  rewrite origin_diff_wrapping. cbv zeta. reflexivity.
Qed.

End ValidatorFacts.

(** C3 (as the code has it).  On a well-formed packet for which the origin
    check stays within [int], the validator accepts exactly when the mode
    is 4 or 5, the stratum lies in 1..15, the echoed origin second and the
    sent second differ by at most 1 as [int] values, and the transmit
    second is non-zero. *)
Theorem validate_ntp_response_accepts_iff
        {D : Type} `{DoubleOps D} (env : Env D) (p : ntp_packet)
        (sent_sec sent_frac : Z) (tr : trace D) :
  wf_packet p ->
  origin_check_defined (big_endian env) p sent_sec ->
  fst (validate_ntp_response env p sent_sec sent_frac tr) = 1 <->
  response_acceptable_int (big_endian env) p sent_sec.
Proof.
  intros (_ & Hs & _) Hdef. unfold origin_check_defined in Hdef.
  rewrite (validate_ntp_response_decides env p sent_sec sent_frac tr Hs).
  rewrite (origin_diff_defined _ _ Hdef), Z.ltb_ge.
  unfold response_acceptable_int. cbv zeta. reflexivity.
Qed.

Lemma validate_ntp_response_accepts_iff_witness :
  let env := posix_host (D := Q) 0 0 (48, good_reply) in
  (wf_packet good_reply /\
   origin_check_defined (big_endian env) good_reply sent_second_1000) /\
  (fst (validate_ntp_response env good_reply sent_second_1000 0 []) = 1 <->
   response_acceptable_int (big_endian env) good_reply sent_second_1000).
Proof.
  intros env.
  assert (Hwf : wf_packet good_reply)
    by (unfold wf_packet, is_u8, is_u32; vm_compute; intuition discriminate).
  assert (Hdef : origin_check_defined (big_endian env) good_reply
                   sent_second_1000)
    by (unfold origin_check_defined; vm_compute; intuition discriminate).
  split; [split; assumption |].
  exact (validate_ntp_response_accepts_iff env good_reply sent_second_1000
           0 [] Hwf Hdef).
Defined.

(** C3 (as stated) fails: with the sent second [0xFFFFFFFF] a reply whose
    origin second is 0 is accepted, although the two field values differ by
    [2^32 - 1]. *)
Lemma validator_accepts_wrapped_origin :
  ~ (forall (env : Env Q) (p : ntp_packet) (sent_sec sent_frac : Z)
            (tr : trace Q),
        wf_packet p -> is_u32 sent_sec ->
        fst (validate_ntp_response env p sent_sec sent_frac tr) = 1 <->
        response_acceptable (big_endian env) p sent_sec).
Proof.
  intros Hclaim.
  assert (Hwf : wf_packet origin_zero_reply)
    by (unfold wf_packet, is_u8, is_u32; vm_compute; intuition discriminate).
  assert (Hu : is_u32 4294967295)
    by (unfold is_u32; vm_compute; intuition discriminate).
  destruct (Hclaim (posix_host 0 0 (48, origin_zero_reply)) origin_zero_reply
                   4294967295 0 [] Hwf Hu) as [Hacc _].
  assert (Hrun : fst (validate_ntp_response
                        (posix_host (D := Q) 0 0 (48, origin_zero_reply))
                        origin_zero_reply 4294967295 0 []) = 1)
    by (vm_compute; reflexivity).
  destruct (Hacc Hrun) as (_ & _ & Hd & _).
  vm_compute in Hd. apply Hd. reflexivity.
Qed.

(** The other case the origin check lets through: [abs] of [INT_MIN].  A
    reply whose origin second is half the range away from the sent one is
    accepted when the [int] arithmetic wraps. *)
Example validator_accepts_opposite_origin :
  fst (validate_ntp_response (posix_host (D := Q) 0 0 (48, good_reply))
         (reply_packet false 1 (sent_second_1000 - 2 ^ 31) 1 0 1 0)
         sent_second_1000 0 []) = 1.
Proof. vm_compute. reflexivity. Qed.

(* ================================================================== *)
(** ** Timestamps on the wire (exact arithmetic) *)

Lemma Qtrunc_floor (q : Q) : (0 <= q)%Q -> Qtrunc q = Qfloor q.
Proof.
  destruct q as [n d]. unfold Qle, Qtrunc, Qfloor. simpl. intros Hn.
  apply Z.quot_div_nonneg; lia.
Qed.

Lemma Qfloor_nonneg (q : Q) : (0 <= q)%Q -> 0 <= Qfloor q.
Proof. intros Hq. change 0 with (Qfloor 0). apply Qfloor_resp_le. exact Hq. Qed.

Lemma scaled_fraction_range (t : Q) :
  (0 <= scaled_fraction t)%Q /\ (scaled_fraction t < inject_Z 4294967296)%Q.
Proof.
  unfold scaled_fraction.
  assert (Hlo := Qfloor_le t). assert (Hhi := Qlt_floor t).
  rewrite inject_Z_plus in Hhi.
  change (inject_Z 1) with 1%Q in Hhi.
  change (inject_Z 4294967296) with (4294967296 # 1)%Q.
  split; lra.
Qed.

Lemma Qfloor_scaled_fraction_range (t : Q) :
  0 <= Qfloor (scaled_fraction t) < 2 ^ 32.
Proof.
  destruct (scaled_fraction_range t) as [Hlo Hhi]. split.
  - apply Qfloor_nonneg. exact Hlo.
  - assert (Hf := Qfloor_le (scaled_fraction t)).
    assert (Hlt : (inject_Z (Qfloor (scaled_fraction t))
                   < inject_Z 4294967296)%Q) by lra.
    rewrite <- Zlt_Qlt in Hlt. exact Hlt.
Qed.

(** C4.  For a time [t >= 0] whose NTP second fits the 32-bit field,
    encoding gives the seconds [floor t + 2208988800] and the fraction
    [floor ((t - floor t) * 2^32)]; writing both in network order, reading
    them back and decoding gives a value [t'] with [t' <= t < t' + 2^-32]. *)
Theorem ntp_timestamp_roundtrip (be : bool) (t : Q) :
  (0 <= t)%Q ->
  Qfloor t + NTP_TIMESTAMP_DELTA < 2 ^ 32 ->
  fst (ntp_encode t) = Qfloor t + NTP_TIMESTAMP_DELTA /\
  snd (ntp_encode t) = Qfloor (scaled_fraction t) /\
  (ntp_decode (ntohl be (htonl be (fst (ntp_encode t))))
              (ntohl be (htonl be (snd (ntp_encode t)))) <= t)%Q /\
  (t - ntp_decode (ntohl be (htonl be (fst (ntp_encode t))))
                  (ntohl be (htonl be (snd (ntp_encode t))))
   < 1 / inject_Z (2 ^ 32))%Q.
Proof.
  intros H0 H1.
  assert (Hfl : 0 <= Qfloor t) by (apply Qfloor_nonneg; exact H0).
  assert (Hsec : fst (ntp_encode t) = Qfloor t + NTP_TIMESTAMP_DELTA).
  { unfold ntp_encode. cbn [fst dbl_trunc Q_DoubleOps].
    rewrite Qtrunc_floor by assumption.
    unfold to_u32, to_u64, NTP_TIMESTAMP_DELTA in *.
    rewrite (Z.mod_small (Qfloor t)) by lia.
    rewrite (Z.mod_small (Qfloor t + _) (2 ^ 64)) by lia.
    rewrite Z.mod_small by lia. reflexivity. }
  assert (Hfrac : snd (ntp_encode t) = Qfloor (scaled_fraction t)).
  { unfold ntp_encode.
    cbn [snd dbl_trunc dbl_sub dbl_mul dbl_of_Z Q_DoubleOps].
    rewrite (Qtrunc_floor t) by assumption.
    unfold NTP_TIMESTAMP_DELTA in H1.
    rewrite (to_u32_small (Qfloor t)) by (unfold is_u32; lia).
    fold (scaled_fraction t).
    rewrite Qtrunc_floor by apply scaled_fraction_range.
    apply to_u32_small. apply Qfloor_scaled_fraction_range. }
  split; [exact Hsec |]. split; [exact Hfrac |].
  rewrite Hsec, Hfrac.
  rewrite !ntohl_htonl
    by (unfold is_u32, NTP_TIMESTAMP_DELTA in *;
        try apply Qfloor_scaled_fraction_range; lia).
  unfold ntp_decode. cbn [dbl_add dbl_div dbl_of_Z Q_DoubleOps].
  replace (Qfloor t + NTP_TIMESTAMP_DELTA - NTP_TIMESTAMP_DELTA)
    with (Qfloor t) by lia.
  unfold NTP_TIMESTAMP_DELTA in H1.
  rewrite (Z.mod_small (Qfloor t) (2 ^ 64) ltac:(lia)
           : to_u64 (Qfloor t) = Qfloor t).
  assert (Hlo := Qfloor_le (scaled_fraction t)).
  assert (Hhi := Qlt_floor (scaled_fraction t)).
  rewrite inject_Z_plus in Hhi. change (inject_Z 1) with 1%Q in Hhi.
  set (f := inject_Z (Qfloor (scaled_fraction t))) in *.
  unfold scaled_fraction in Hlo, Hhi.
  change (inject_Z 4294967296) with (4294967296 # 1)%Q in *.
  change (inject_Z (2 ^ 32)) with (4294967296 # 1)%Q.
  set (w := inject_Z (Qfloor t)) in *.
  clearbody f w.
  assert (E : (f / (4294967296 # 1) == f * (1 # 4294967296))%Q)
    by (unfold Qdiv; reflexivity).
  assert (E1 : (1 / (4294967296 # 1) == 1 # 4294967296)%Q) by reflexivity.
  rewrite E, E1. split; lra.
Qed.

Lemma ntp_timestamp_roundtrip_witness :
  let t := (2001 # 2)%Q in
  ((0 <= t)%Q /\ Qfloor t + NTP_TIMESTAMP_DELTA < 2 ^ 32) /\
  fst (ntp_encode t) = Qfloor t + NTP_TIMESTAMP_DELTA /\
  snd (ntp_encode t) = Qfloor (scaled_fraction t) /\
  (ntp_decode (ntohl false (htonl false (fst (ntp_encode t))))
              (ntohl false (htonl false (snd (ntp_encode t)))) <= t)%Q /\
  (t - ntp_decode (ntohl false (htonl false (fst (ntp_encode t))))
                  (ntohl false (htonl false (snd (ntp_encode t))))
   < 1 / inject_Z (2 ^ 32))%Q.
Proof.
  intros t.
  assert (H0 : (0 <= t)%Q) by (vm_compute; discriminate).
  assert (H1 : Qfloor t + NTP_TIMESTAMP_DELTA < 2 ^ 32)
    by (vm_compute; reflexivity).
  split; [split; assumption |].
  exact (ntp_timestamp_roundtrip false t H0 H1).
Defined.

(** Beyond NTP era 0 the pair does not decode to the encoded time: the
    seconds wrap on encoding and the unsigned subtraction wraps on
    decoding. *)
Example ntp_timestamp_era_rollover :
  let t := inject_Z (2 ^ 32 - NTP_TIMESTAMP_DELTA) in
  fst (ntp_encode t) = 0 /\
  (ntp_decode (fst (ntp_encode t)) (snd (ntp_encode t))
   == inject_Z (2 ^ 64 - NTP_TIMESTAMP_DELTA))%Q.
Proof. split; vm_compute; reflexivity. Qed.

(* ================================================================== *)
(** ** Computations over the history *)

Section MonadFacts.

Context {D : Type} `{DoubleOps D}.

Lemma bind_eq {A B : Type} (c : M D A) (k : A -> M D B) (tr : trace D) :
  bind c k tr = k (fst (c tr)) (snd (c tr)).
Proof. unfold bind. destruct (c tr). reflexivity. Qed.

Lemma get_local_time_double_trace (env : Env D) (tr : trace D) :
  snd (get_local_time_double env tr) = tr ++ [EvGetTime].
Proof. unfold get_local_time_double. destruct (win32 env); reflexivity. Qed.

Lemma query_cleanup_value (env : Env D) (sock : Z) (r : ntp_result D)
      (tr : trace D) :
  fst (query_cleanup env sock r tr) = r.
Proof.
  unfold query_cleanup. destruct (negb (IS_INVALID_SOCKET env sock)); reflexivity.
Qed.

End MonadFacts.

(** One step of a computation: name the value and the history of the first
    call of a sequence. *)
Ltac io_step :=
  rewrite bind_eq; cbn beta iota delta [call ret out fst snd].

(* ================================================================== *)
(** ** One exchange *)

(** C5.  The offset calculation is [delay = (T4 - T1) - (T3 - T2)] and
    [correctedTime = T3 + delay / 2]; a successful exchange returns these
    for T1, T4 read from the local clock around the send and the receive and
    T2, T3 decoded from the reply; in exact arithmetic T1 = 0, T2 = 10,
    T3 = 10.1, T4 = 0.2 give delay 0.1 and corrected time 10.15. *)
Theorem query_ntp_server_offset
        {D : Type} `{DoubleOps D} (env : Env D) (hostname : string)
        (tr : trace D) :
  error (fst (query_ntp_server env hostname tr)) = NTP_SUCCESS ->
  let t1 := exchange_t1 env hostname tr in
  let t2 := exchange_t2 env hostname tr in
  let t3 := exchange_t3 env hostname tr in
  let t4 := exchange_t4 env hostname tr in
  delay (fst (query_ntp_server env hostname tr))
  = ((t4 - t1) - (t3 - t2))%dbl /\
  corrected_time (fst (query_ntp_server env hostname tr))
  = (t3 + ((t4 - t1) - (t3 - t2)) / dbl_of_Z 2)%dbl /\
  (fst (ntp_offset (D := Q) 0 10 (101 # 10) (2 # 10)) == 1 # 10)%Q /\
  (snd (ntp_offset (D := Q) 0 10 (101 # 10) (2 # 10)) == 1015 # 100)%Q.
Proof.
  intros Hok t1 t2 t3 t4.
  split; [| split; [| split; vm_compute; reflexivity]].
  all: revert Hok; unfold query_ntp_server.
  all: io_step.
  all: destruct (negb _); [cbn; discriminate |].
  all: io_step.
  all: destruct (IS_INVALID_SOCKET env _) eqn:Hsock;
    [rewrite query_cleanup_value; cbn; discriminate |].
  all: io_step. 
  all: io_step.
  all: rewrite get_local_time_double_trace.
  all: io_step.
  all: destruct (_ <? 0); [rewrite query_cleanup_value; cbn; discriminate |].
  all: io_step. 
  all: io_step.
  all: rewrite get_local_time_double_trace.
  all: destruct (_ <? NTP_PACKET_SIZE);
    [rewrite query_cleanup_value; cbn; discriminate |].
  all: io_step.
  all: destruct (_ =? 0); [rewrite query_cleanup_value; cbn; discriminate |].
  all: rewrite query_cleanup_value; intros _; cbn [delay corrected_time].
  all: unfold ntp_offset; cbn [fst snd].
  all: subst t1 t2 t3 t4.
  all: unfold exchange_t1, exchange_t2, exchange_t3, exchange_t4,
         exchange_reply, exchange_sent, exchange_request, exchange_socket.
  all: repeat rewrite <- app_assoc; cbn [app].
  all: reflexivity.
Qed.

Lemma query_ntp_server_offset_witness :
  let env := posix_host (D := Q) 0 0 (48, good_reply) in
  let r := fst (query_ntp_server env "time.example.org" []) in
  error r = NTP_SUCCESS /\
  (delay r == - (1 # 4))%Q /\ (corrected_time r == 1010 + (1 # 8))%Q.
Proof.
  intros env r.
  assert (Hok : error r = NTP_SUCCESS) by (vm_compute; reflexivity).
  destruct (query_ntp_server_offset env "time.example.org" [] Hok)
    as (Hd & Hc & _).
  split; [exact Hok |]. fold r in Hd, Hc. rewrite Hd, Hc.
  split; vm_compute; reflexivity.
Defined.

(** In binary64 the same four timestamps give the decimal figures to
    within 2^-50. *)
Example ntp_offset_binary64 :
  let T3 := ratio (D := float) 101 10 in
  let T4 := ratio (D := float) 2 10 in
  let r := ntp_offset (D := float) (dbl_of_Z 0) (dbl_of_Z 10) T3 T4 in
  PrimFloat.ltb (PrimFloat.abs (fst r - ratio 1 10)) (ratio 1 (2 ^ 50)) = true /\
  PrimFloat.ltb (PrimFloat.abs (snd r - ratio 1015 100)) (ratio 1 (2 ^ 50)) = true.
Proof. split; vm_compute; reflexivity. Qed.

(** C2 (the code).  No exchange ever returns [NTP_ERR_INVALID_STRATUM]: a
    reply rejected for its stratum (here 16, with the diagnostic
    [MsgDbgStratum 16]) is reported as [NTP_ERR_INVALID_RESPONSE]. *)
Theorem query_ntp_server_stratum_error :
  (forall (D : Type) (ops : DoubleOps D) (env : Env D) (hostname : string)
          (tr : trace D),
      error (fst (query_ntp_server env hostname tr))
      <> NTP_ERR_INVALID_STRATUM) /\
  (let env := posix_host (D := Q) 0 0 (48, stratum16_reply) in
   error (fst (query_ntp_server env "time.example.org" []))
   = NTP_ERR_INVALID_RESPONSE /\
   In (EvOut (MsgDbgStratum 16))
      (snd (query_ntp_server env "time.example.org" []))).
Proof.
  split.
  - intros D ops env hostname tr. unfold query_ntp_server.
    io_step. destruct (negb _); [cbn; discriminate |].
    io_step.
    destruct (IS_INVALID_SOCKET env _);
      [rewrite query_cleanup_value; cbn; discriminate |].
    io_step. io_step. io_step.
    destruct (_ <? 0); [rewrite query_cleanup_value; cbn; discriminate |].
    io_step. io_step.
    destruct (_ <? NTP_PACKET_SIZE);
      [rewrite query_cleanup_value; cbn; discriminate |].
    io_step.
    destruct (_ =? 0); rewrite query_cleanup_value; cbn; discriminate.
  - split; [vm_compute; reflexivity |].
    vm_compute. intuition.
Qed.

(* ================================================================== *)
(** ** Several samples, averaged *)

Section AggregatorFacts.

Context {D : Type} `{DoubleOps D}.

Variable query : string -> M D (ntp_result D).

(** What the loop has accumulated after [n] more iterations. *)
Lemma sample_loop_invariant (hostname : string) (samples : Z) (n : nat) :
  forall (i : Z) (a : sample_acc) (tr : trace D),
    let a' := fst (sample_loop query hostname samples n i a tr) in
    exists rs,
      results a' = results a ++ rs /\
      List.length rs = n /\
      success_count a'
      = success_count a + Z.of_nat (List.length (successes rs)) /\
      sum_time a'
      = fold_left dbl_add (map corrected_time (successes rs)) (sum_time a) /\
      sum_delay a'
      = fold_left dbl_add (map delay (successes rs)) (sum_delay a).
Proof.
  induction n as [| n IH]; intros i a tr a'.
  - exists []. subst a'. cbn. rewrite app_nil_r.
    repeat split; try reflexivity; lia.
  - subst a'. cbn [sample_loop]. io_step.
    set (r := fst (query hostname tr)).
    destruct (ntp_error_eqb (error r) NTP_SUCCESS) eqn:Hr.
    + io_step. io_step.
      match goal with
      | |- context [sample_loop _ _ _ n ?i' ?a1 ?tr1] =>
          destruct (IH i' a1 tr1) as (rs & E1 & E2 & E3 & E4 & E5)
      end.
      exists (r :: rs). cbn [results success_count sum_time sum_delay] in *.
      assert (Hs : succeeded r = true) by exact Hr.
      unfold successes in *. cbn [filter]. rewrite Hs. cbn [map fold_left].
      rewrite E1, E3, E4, E5, <- app_assoc.
      repeat split; try reflexivity.
      * cbn [List.length]. congruence.
      * change (List.length (r :: filter succeeded rs))
          with (S (List.length (filter succeeded rs))).
        rewrite Nat2Z.inj_succ. lia.
    + io_step. io_step.
      match goal with
      | |- context [sample_loop _ _ _ n ?i' ?a1 ?tr1] =>
          destruct (IH i' a1 tr1) as (rs & E1 & E2 & E3 & E4 & E5)
      end.
      exists (r :: rs). cbn [results success_count sum_time sum_delay] in *.
      assert (Hs : succeeded r = false) by exact Hr.
      unfold successes in *. cbn [filter]. rewrite Hs.
      rewrite E1, E3, E4, E5, <- app_assoc.
      repeat split; try reflexivity.
      cbn [List.length]. congruence.
Qed.

Lemma sampled_results_spec (hostname : string) (samples : Z) (tr : trace D) :
  let a := fst (sample_loop query hostname samples (Z.to_nat samples) 0
                  (mk_acc [] 0 (dbl_of_Z 0) (dbl_of_Z 0))
                  (tr ++ [EvOut (MsgSyncing hostname samples)])) in
  let rs := sampled_results query hostname samples tr in
  List.length rs = Z.to_nat samples /\
  success_count a = Z.of_nat (List.length (successes rs)) /\
  sum_time a = dbl_sum (map corrected_time (successes rs)) /\
  sum_delay a = dbl_sum (map delay (successes rs)).
Proof.
  intros a rs.
  destruct (sample_loop_invariant hostname samples (Z.to_nat samples) 0
              (mk_acc [] 0 (dbl_of_Z 0) (dbl_of_Z 0))
              (tr ++ [EvOut (MsgSyncing hostname samples)]))
    as (rs' & E1 & E2 & E3 & E4 & E5).
  fold a in E1, E3, E4, E5. cbn in E1, E3, E4, E5.
  assert (Hrs : rs = rs') by (subst rs; unfold sampled_results; exact E1).
  rewrite Hrs. unfold dbl_sum. repeat split; assumption.
Qed.

End AggregatorFacts.

(** C6.  With [samples] in 1..5 and at least one successful sample, the
    aggregate is a success whose corrected time and delay are the unweighted
    arithmetic means of the successful samples' values (failed samples left
    out, nothing weighted or discarded), and the run ends by reporting the
    number of successes out of [samples] attempts.  It holds for whatever
    exchange is sampled, [query_ntp_server] in the program. *)
Theorem sync_with_mean
        {D : Type} `{DoubleOps D} (query : string -> M D (ntp_result D))
        (hostname : string) (samples : Z) (tr : trace D) :
  1 <= samples <= MAX_SAMPLES ->
  successes (sampled_results query hostname samples tr) <> [] ->
  let rs := sampled_results query hostname samples tr in
  let final := fst (sync_with query hostname samples tr) in
  Z.of_nat (List.length rs) = samples /\
  error final = NTP_SUCCESS /\
  corrected_time final = dbl_mean (map corrected_time (successes rs)) /\
  delay final = dbl_mean (map delay (successes rs)) /\
  exists tr',
    snd (sync_with query hostname samples tr)
    = tr' ++ [EvOut (MsgSyncOk (delay final * dbl_of_Z 1000)%dbl
                       (Z.of_nat (List.length (successes rs))) samples)].
Proof.
  intros Hrange Hsome rs final.
  destruct (sampled_results_spec query hostname samples tr)
    as (Hlen & Hcount & Htime & Hdelay).
  fold rs in Hlen, Hcount, Htime, Hdelay, Hsome.
  assert (Hpos : (success_count
                    (fst (sample_loop query hostname samples
                            (Z.to_nat samples) 0
                            (mk_acc [] 0 (dbl_of_Z 0) (dbl_of_Z 0))
                            (tr ++ [EvOut (MsgSyncing hostname samples)])))
                  =? 0) = false).
  { apply Z.eqb_neq. rewrite Hcount.
    destruct (successes rs); [congruence | cbn [List.length]; lia]. }
  subst final. unfold sync_with.
  io_step. io_step. rewrite Hpos. io_step.
  cbn [error corrected_time delay].
  unfold dbl_mean. rewrite !length_map, Htime, Hdelay, Hcount.
  split; [rewrite Hlen; lia |].
  repeat split; try reflexivity.
  eexists. reflexivity.
Qed.

Lemma sync_with_mean_witness :
  let run := sync_with (D := Q) (scripted_query three_samples)
               "time.example.org" 3 [] in
  let rs := sampled_results (D := Q) (scripted_query three_samples)
              "time.example.org" 3 [] in
  (1 <= 3 <= MAX_SAMPLES /\
   map error rs = [NTP_SUCCESS; NTP_ERR_RECV_TIMEOUT; NTP_SUCCESS]) /\
  error (fst run) = NTP_SUCCESS /\
  (corrected_time (fst run) == 10005 # 100)%Q /\
  (delay (fst run) == 15 # 1000)%Q /\
  exists tr',
    snd run = tr' ++ [EvOut (MsgSyncOk (delay (fst run) * 1000)%Q 2 3)].
Proof.
  intros run rs.
  assert (Hrange : 1 <= 3 <= MAX_SAMPLES) by (unfold MAX_SAMPLES; lia).
  assert (Hsome : successes rs <> []) by (vm_compute; discriminate).
  destruct (sync_with_mean (scripted_query three_samples) "time.example.org"
              3 [] Hrange Hsome) as (_ & Hok & Ht & Hd & Hlast).
  fold run in Hok, Ht, Hd, Hlast.
  split; [split; [exact Hrange | vm_compute; reflexivity] |].
  split; [exact Hok |].
  split; [rewrite Ht; vm_compute; reflexivity |].
  split; [rewrite Hd; vm_compute; reflexivity |].
  exact Hlast.
Defined.

(** The same on the exchange of the program: two samples of a host that
    answers, each with corrected time 1010.125 s and delay -0.25 s. *)
Example sync_with_server_multi_sample_two_samples :
  let env := posix_host (D := Q) 0 0 (48, good_reply) in
  let run := sync_with_server_multi_sample env "time.example.org" 2 [] in
  map error (sampled_results (query_ntp_server env) "time.example.org" 2 [])
  = [NTP_SUCCESS; NTP_SUCCESS] /\
  error (fst run) = NTP_SUCCESS /\
  (corrected_time (fst run) == 1010 + (1 # 8))%Q /\
  (delay (fst run) == - (1 # 4))%Q.
Proof. repeat split; vm_compute; reflexivity. Qed.

(** In binary64 the averages of the three samples agree with the decimal
    figures to within 2^-50. *)
Example sync_with_mean_binary64 :
  let final := fst (sync_with (D := float) (scripted_query three_samples)
                      "time.example.org" 3 []) in
  PrimFloat.ltb (PrimFloat.abs (corrected_time final - ratio 10005 100))
                (ratio 1 (2 ^ 50)) = true /\
  PrimFloat.ltb (PrimFloat.abs (delay final - ratio 15 1000))
                (ratio 1 (2 ^ 50)) = true.
Proof. split; vm_compute; reflexivity. Qed.

(** C9.  When none of the samples of a host succeeds, the aggregate is the
    fixed [NTP_ERR_RECV_TIMEOUT] (with both times 0), whatever made the
    samples fail. *)
Theorem sync_all_samples_failed
        {D : Type} `{DoubleOps D} (env : Env D) (hostname : string)
        (samples : Z) (tr : trace D) :
  successes (sampled_results (query_ntp_server env) hostname samples tr) = [] ->
  fst (sync_with_server_multi_sample env hostname samples tr)
  = mk_result (dbl_of_Z 0) (dbl_of_Z 0) NTP_ERR_RECV_TIMEOUT.
Proof.
  intros Hnone.
  destruct (sampled_results_spec (query_ntp_server env) hostname samples tr)
    as (_ & Hcount & _).
  rewrite Hnone in Hcount. cbn in Hcount.
  unfold sync_with_server_multi_sample, sync_with.
  io_step. io_step. rewrite Hcount. reflexivity.
Qed.

Lemma sync_all_samples_failed_witness :
  let env := posix_host (D := Q) 0 (-2) (48, good_reply) in
  map error (sampled_results (query_ntp_server env) "time.example.org" 3 [])
  = [NTP_ERR_DNS_FAILED; NTP_ERR_DNS_FAILED; NTP_ERR_DNS_FAILED] /\
  error (fst (sync_with_server_multi_sample env "time.example.org" 3 []))
  = NTP_ERR_RECV_TIMEOUT.
Proof.
  intros env. split; [vm_compute; reflexivity |].
  rewrite (sync_all_samples_failed env "time.example.org" 3 []).
  - reflexivity.
  - vm_compute. reflexivity.
Defined.

(* ================================================================== *)
(** ** Histories only grow *)

Section Extends.

Context {D : Type} `{DoubleOps D}.

Lemma extends_ret {A : Type} (a : A) (P : event D -> Prop) :
  extends (ret a) P.
Proof. intros tr. exists []. cbn. rewrite app_nil_r. auto. Qed.

Lemma extends_call {A : Type} (f : trace D -> A) (e : event D)
      (P : event D -> Prop) :
  P e -> extends (call f e) P.
Proof. intros He tr. exists [e]. cbn. auto. Qed.

Lemma extends_out (m : message D) (P : event D -> Prop) :
  P (EvOut m) -> extends (out m) P.
Proof. apply extends_call. Qed.

Lemma extends_bind {A B : Type} (c : M D A) (k : A -> M D B)
      (P : event D -> Prop) :
  extends c P -> (forall a, extends (k a) P) -> extends (bind c k) P.
Proof.
  intros Hc Hk tr. rewrite bind_eq.
  destruct (Hc tr) as (evs1 & E1 & F1).
  destruct (Hk (fst (c tr)) (snd (c tr))) as (evs2 & E2 & F2).
  exists (evs1 ++ evs2). rewrite E2, E1, app_assoc.
  split; [reflexivity | apply Forall_app; auto].
Qed.

Lemma extends_weaken {A : Type} (c : M D A) (P Q : event D -> Prop) :
  (forall e, P e -> Q e) -> extends c P -> extends c Q.
Proof.
  intros HPQ Hc tr. destruct (Hc tr) as (evs & E & F).
  exists evs. split; [exact E | eapply Forall_impl; eauto].
Qed.

(** What is in the history stays in it. *)
Lemma extends_In {A : Type} (c : M D A) (P : event D -> Prop)
      (tr : trace D) (e : event D) :
  extends c P -> In e tr -> In e (snd (c tr)).
Proof.
  intros Hc Hin. destruct (Hc tr) as (evs & E & _).
  rewrite E. apply in_or_app. left. exact Hin.
Qed.

End Extends.

(** Decompose a sequence of calls into its events. *)
Ltac extends_steps :=
  repeat first
    [ apply extends_ret
    | apply extends_out; cbv beta; first [exact I | reflexivity | split; reflexivity]
    | apply extends_call; cbv beta; first [exact I | reflexivity | split; reflexivity]
    | apply extends_bind; [| intros ?]
    | match goal with
      | |- extends (if ?b then _ else _) _ => destruct b
      end ].

Section ProgramExtends.

Context {D : Type} `{DoubleOps D}.

Variable env : Env D.

Lemma init_networking_extends (P : event D -> Prop) :
  P EvWSAStartup -> P (EvOut MsgErrWinsockInit) ->
  extends (init_networking env) P.
Proof.
  intros P1 P2. unfold init_networking.
  destruct (win32 env); [| apply extends_ret].
  apply extends_bind; [apply extends_call; exact P1 | intros rc].
  destruct (negb (rc =? 0)); [| apply extends_ret].
  apply extends_bind; [apply extends_out; exact P2 | intros _].
  apply extends_ret.
Qed.

Lemma cleanup_networking_extends (P : event D -> Prop) :
  P EvWSACleanup -> extends (cleanup_networking env) P.
Proof.
  intros P1. unfold cleanup_networking.
  destruct (win32 env); [apply extends_call; exact P1 | apply extends_ret].
Qed.

Lemma get_local_time_double_extends (P : event D -> Prop) :
  P EvGetTime -> extends (get_local_time_double env) P.
Proof.
  intros P1 tr. exists [EvGetTime].
  rewrite get_local_time_double_trace. auto.
Qed.

Lemma validate_ntp_response_quiet (p : ntp_packet) (s f : Z) :
  extends (validate_ntp_response env p s f) quiet.
Proof. unfold validate_ntp_response, quiet. extends_steps. Qed.

Lemma query_cleanup_quiet (sock : Z) (r : ntp_result D) :
  extends (query_cleanup env sock r) quiet.
Proof. unfold query_cleanup, quiet. extends_steps. Qed.

Lemma query_ntp_server_quiet (hostname : string) :
  extends (query_ntp_server env hostname) quiet.
Proof.
  unfold query_ntp_server.
  repeat first
    [ apply query_cleanup_quiet
    | apply validate_ntp_response_quiet
    | apply get_local_time_double_extends; split; reflexivity
    | apply extends_ret
    | apply extends_call; split; reflexivity
    | apply extends_bind; [| intros ?]
    | match goal with
      | |- extends (if ?b then _ else _) _ => destruct b
      end ].
Qed.

Lemma sample_loop_quiet (hostname : string) (samples : Z) (n : nat) :
  forall (i : Z) (a : sample_acc),
    extends (sample_loop (query_ntp_server env) hostname samples n i a) quiet.
Proof.
  induction n as [| n IH]; intros i a; cbn [sample_loop].
  - apply extends_ret.
  - apply extends_bind; [apply query_ntp_server_quiet | intros r].
    apply extends_bind; [| intros a'; apply IH].
    unfold quiet. extends_steps.
Qed.

Lemma sample_loop_no_clock (hostname : string) (samples : Z) (n : nat)
      (i : Z) (a : sample_acc) :
  extends (sample_loop (query_ntp_server env) hostname samples n i a) no_clock.
Proof.
  eapply extends_weaken; [| apply sample_loop_quiet]. intros e [He _]. exact He.
Qed.

Lemma sync_no_clock (hostname : string) (samples : Z) :
  extends (sync_with_server_multi_sample env hostname samples) no_clock.
Proof.
  unfold sync_with_server_multi_sample, sync_with.
  apply extends_bind; [apply extends_out; reflexivity | intros _].
  apply extends_bind; [apply sample_loop_no_clock | intros a].
  unfold no_clock. extends_steps.
Qed.

Lemma set_system_time_platform_extends (t : D) :
  extends (set_system_time_platform env t) any_event.
Proof. unfold set_system_time_platform, any_event. extends_steps. Qed.

Lemma stage2_loop_extends (servers : list string) (samples : Z) :
  extends (stage2_loop env servers samples) any_event.
Proof.
  induction servers as [| server rest IH]; cbn [stage2_loop].
  - apply extends_ret.
  - apply extends_bind;
      [eapply extends_weaken; [| apply sync_no_clock]; intros; exact I
      | intros r].
    destruct (ntp_error_eqb (error r) NTP_SUCCESS); [| exact IH].
    apply extends_bind; [apply set_system_time_platform_extends | intros e].
    destruct (ntp_error_eqb e NTP_SUCCESS).
    + unfold any_event. extends_steps.
    + apply extends_bind; [apply extends_out; exact I | intros _; exact IH].
Qed.

Lemma finish_extends (success : Z) (P : event D -> Prop) :
  P (EvOut MsgAllServersFailed) -> P EvWSACleanup ->
  extends (finish env success) P.
Proof.
  intros P1 P2. unfold finish.
  apply extends_bind;
    [destruct (success =? 0); [apply extends_out; exact P1 | apply extends_ret]
    | intros _].
  apply extends_bind; [apply cleanup_networking_extends; exact P2 | intros _].
  apply extends_ret.
Qed.

(** A successful aggregate is reported last. *)
Lemma sync_success_reported (hostname : string) (samples : Z) (tr : trace D) :
  error (fst (sync_with_server_multi_sample env hostname samples tr))
  = NTP_SUCCESS ->
  exists e, reports_sync_ok e = true /\
            In e (snd (sync_with_server_multi_sample env hostname samples tr)).
Proof.
  unfold sync_with_server_multi_sample, sync_with.
  io_step. io_step. destruct (_ =? 0).
  - io_step. cbn. discriminate.
  - io_step. intros _. eexists. split; [| apply in_or_app; right; left; reflexivity].
    reflexivity.
Qed.

(** A failed aggregate reports no success. *)
Lemma sync_failure_unreported (hostname : string) (samples : Z) (tr : trace D) :
  error (fst (sync_with_server_multi_sample env hostname samples tr))
  <> NTP_SUCCESS ->
  exists evs,
    snd (sync_with_server_multi_sample env hostname samples tr) = tr ++ evs /\
    Forall (fun e => reports_sync_ok e = false) evs.
Proof.
  unfold sync_with_server_multi_sample, sync_with.
  io_step. io_step.
  destruct (sample_loop_quiet hostname samples (Z.to_nat samples) 0
              (mk_acc [] 0 (dbl_of_Z 0) (dbl_of_Z 0))
              (tr ++ [EvOut (MsgSyncing hostname samples)]))
    as (evs & E & F).
  destruct (_ =? 0).
  - io_step. intros _. cbn [ret snd].
    exists (EvOut (MsgSyncing hostname samples) :: evs
            ++ [EvOut MsgAllSamplesFailed]).
    rewrite E, <- !app_assoc. split; [reflexivity |].
    constructor; [reflexivity |].
    apply Forall_app. split; [| repeat constructor].
    eapply Forall_impl; [| exact F]. intros e [_ He]. exact He.
  - io_step. cbn [ret fst error]. intros Hne. elim Hne. reflexivity.
Qed.

End ProgramExtends.

(* ================================================================== *)
(** ** User host, then the built-in pool *)

Lemma INTERNAL_SERVER_COUNT_length :
  INTERNAL_SERVER_COUNT = Z.of_nat (List.length INTERNAL_NTP_SERVERS).
Proof. reflexivity. Qed.

(** The argument loop takes the last argument that does not start with '-'
    as the host; an argument such as "-" is passed over, so that name, which
    [validate_hostname] would accept, never reaches it. *)
Example parse_args_examples :
  parse_args ["-s"; "3"; "time.example.org"]%string 1 None
  = ArgsOk 3 (Some "time.example.org"%string) /\
  parse_args ["-"]%string 1 None = ArgsOk 1 None /\
  parse_args [""]%string 1 None = ArgsOk 1 (Some EmptyString) /\
  parse_args ["-s"; "6"]%string 1 None = ArgsSamplesOutOfRange /\
  parse_args ["a.example"; "-h"]%string 1 None = ArgsHelp.
Proof. repeat split. Qed.

(** C7.  When the host name given on the command line is syntactically
    invalid (empty, longer than 255 characters, or with a character other
    than a letter, a digit, '.' or '-'), [main] exits with code 1 having
    done nothing but local actions: no resolution, no socket, no attempt
    on any server, built-in pool included, no clock setting.  The invalid
    host name is what it reports, unless the network start-up (Windows)
    has already failed. *)
Theorem invalid_user_hostname_is_fatal
        {D : Type} `{DoubleOps D} (env : Env D) (argv : list string)
        (samples : Z) (host : string) (tr : trace D) :
  parse_args (tl argv) 1 None = ArgsOk samples (Some host) ->
  hostname_invalid host ->
  fst (main env argv tr) = 1 /\
  exists evs,
    snd (main env argv tr) = tr ++ evs /\
    Forall local_only evs /\
    (fst (init_networking env tr) <> 0 ->
     In (EvOut (MsgErrInvalidHostname host)) evs).
Proof.
  intros Hparse Hinv.
  apply validate_hostname_rejects in Hinv.
  unfold main. rewrite Hparse. unfold run.
  io_step. unfold init_networking, cleanup_networking.
  rewrite Hinv. cbn [Z.eqb].
  destruct (win32 env).
  - io_step. destruct (negb _).
    + cbn. split; [reflexivity |].
      exists [EvWSAStartup; EvOut MsgErrWinsockInit].
      rewrite <- !app_assoc. split; [reflexivity |].
      split; [repeat constructor | intros Hne; elim Hne; reflexivity].
    + cbn. split; [reflexivity |].
      exists [EvWSAStartup; EvOut (MsgErrInvalidHostname host); EvWSACleanup].
      rewrite <- !app_assoc. split; [reflexivity |].
      split; [repeat constructor | intros _; right; left; reflexivity].
  - cbn. split; [reflexivity |].
    exists [EvOut (MsgErrInvalidHostname host)].
    split; [reflexivity |].
    split; [repeat constructor | intros _; left; reflexivity].
Qed.

Lemma invalid_user_hostname_is_fatal_witness :
  let env := posix_host (D := Q) 0 0 (48, good_reply) in
  let argv := ["ntpc"; "pool.ntp.org/x"]%string in
  hostname_invalid "pool.ntp.org/x" /\
  fst (main env argv []) = 1 /\
  exists evs,
    snd (main env argv []) = [] ++ evs /\
    Forall local_only evs /\
    (fst (init_networking env []) <> 0 ->
     In (EvOut (MsgErrInvalidHostname "pool.ntp.org/x")) evs).
Proof.
  intros env argv.
  assert (Hparse : parse_args (tl argv) 1 None
                   = ArgsOk 1 (Some "pool.ntp.org/x"%string))
    by reflexivity.
  assert (Hinv : hostname_invalid "pool.ntp.org/x").
  { right. right. exists "/"%char. split.
    - simpl. intuition.
    - intros Hin. apply hostname_char_ok_spec in Hin. discriminate. }
  split; [exact Hinv |].
  exact (invalid_user_hostname_is_fatal env argv 1 _ [] Hparse Hinv).
Defined.

Section TotalFailure.

Context {D : Type} `{DoubleOps D}.

Variable env : Env D.
Variable samples : Z.

Lemma stage2_loop_total_failure (servers : list string) :
  forall tr,
    no_sync_ok (snd (stage2_loop env servers samples tr)) ->
    fst (stage2_loop env servers samples tr) = 0 /\
    exists evs,
      snd (stage2_loop env servers samples tr) = tr ++ evs /\
      Forall no_clock evs.
Proof.
  induction servers as [| server rest IH]; intros tr.
  - intros _. cbn. split; [reflexivity |]. exists []. rewrite app_nil_r. auto.
  - cbn [stage2_loop]. rewrite bind_eq.
    destruct (sync_no_clock env server samples tr) as (evs1 & E1 & F1).
    destruct (ntp_error_eqb _ _) eqn:Hr.
    + (* a successful aggregate would have been reported *)
      intros Hno. exfalso.
      assert (Hok : error (fst (sync_with_server_multi_sample env server
                                  samples tr)) = NTP_SUCCESS)
        by (destruct (error _); try discriminate; reflexivity).
      destruct (sync_success_reported env server samples tr Hok)
        as (e & He & Hin).
      match type of Hno with
      | no_sync_ok (snd (?c _)) =>
          assert (Hc : extends c any_event)
      end.
      { apply extends_bind;
          [apply set_system_time_platform_extends | intros se].
        destruct (ntp_error_eqb se NTP_SUCCESS).
        - unfold any_event. extends_steps.
        - apply extends_bind;
            [apply extends_out; exact I
            | intros _; apply stage2_loop_extends]. }
      rewrite (Hno e (extends_In _ any_event _ e Hc Hin)) in He.
      discriminate.
    + intros Hno. destruct (IH _ Hno) as (E0 & evs2 & E2 & F2).
      split; [exact E0 |].
      exists (evs1 ++ evs2). rewrite E2, E1, app_assoc.
      split; [reflexivity | apply Forall_app; auto].
Qed.

Lemma no_sync_ok_before {A : Type} (c : M D A) (tr : trace D) :
  extends c any_event -> no_sync_ok (snd (c tr)) -> no_sync_ok tr.
Proof.
  intros Hc Hno e Hin. apply Hno. eapply extends_In; eauto.
Qed.

Lemma stage2_extends : extends (stage2 env samples) any_event.
Proof.
  unfold stage2.
  apply extends_bind; [apply extends_out; exact I | intros _].
  apply stage2_loop_extends.
Qed.

Lemma stage2_total_failure (tr : trace D) :
  no_sync_ok (snd (stage2 env samples tr)) ->
  fst (stage2 env samples tr) = 0 /\
  exists evs,
    snd (stage2 env samples tr) = tr ++ evs /\ Forall no_clock evs.
Proof.
  unfold stage2. rewrite bind_eq. cbn [out call fst snd]. intros Hno.
  destruct (stage2_loop_total_failure _ _ Hno) as (E0 & evs & E & F).
  split; [exact E0 |].
  exists (EvOut MsgStage2 :: evs). rewrite E, <- app_assoc.
  split; [reflexivity | constructor; [reflexivity | exact F]].
Qed.

Lemma stage1_total_failure (host : string) (tr : trace D) :
  no_sync_ok (snd (stage1 env host samples tr)) ->
  fst (stage1 env host samples tr) = 0 /\
  exists evs,
    snd (stage1 env host samples tr) = tr ++ evs /\ Forall no_clock evs.
Proof.
  unfold stage1. rewrite bind_eq. cbn [out call fst snd]. rewrite bind_eq.
  destruct (sync_no_clock env host samples (tr ++ [EvOut MsgStage1]))
    as (evs1 & E1 & F1).
  destruct (ntp_error_eqb _ _) eqn:Hr.
  - intros Hno. exfalso.
    assert (Hok : error (fst (sync_with_server_multi_sample env host samples
                                (tr ++ [EvOut MsgStage1]))) = NTP_SUCCESS)
      by (destruct (error _); try discriminate; reflexivity).
    destruct (sync_success_reported env host samples _ Hok) as (e & He & Hin).
    match type of Hno with
    | no_sync_ok (snd (?c _)) => assert (Hc : extends c any_event)
    end.
    { apply extends_bind;
        [apply set_system_time_platform_extends | intros se].
      destruct (ntp_error_eqb se NTP_SUCCESS);
        unfold any_event; extends_steps. }
    rewrite (Hno e (extends_In _ any_event _ e Hc Hin)) in He.
    discriminate.
  - intros _. rewrite bind_eq. cbn [out call ret fst snd].
    split; [reflexivity |].
    exists (EvOut MsgStage1 :: evs1 ++ [EvOut MsgSwitchToPool]).
    rewrite E1, <- !app_assoc. split; [reflexivity |].
    constructor; [reflexivity |].
    apply Forall_app. split; [exact F1 | repeat constructor].
Qed.

End TotalFailure.

(** C8.  In a run that reports no successful aggregate -- every server it
    is configured with, the user host if any and every entry of the pool,
    has failed -- [main] exits with code 1 and [set_system_time_platform]
    is never entered. *)
Theorem total_failure_never_sets_clock
        {D : Type} `{DoubleOps D} (env : Env D) (argv : list string)
        (samples : Z) (custom_server : option string) (tr : trace D) :
  parse_args (tl argv) 1 None = ArgsOk samples custom_server ->
  no_sync_ok (snd (main env argv tr)) ->
  fst (main env argv tr) = 1 /\
  exists evs,
    snd (main env argv tr) = tr ++ evs /\
    Forall (fun e => sets_clock e = false) evs.
Proof.
  intros Hparse. unfold main. rewrite Hparse. unfold run.
  rewrite bind_eq.
  destruct (init_networking_extends env no_clock eq_refl eq_refl tr)
    as (evs0 & E0 & F0).
  destruct (fst (init_networking env tr) =? 0).
  { intros _. cbn. split; [reflexivity |]. exists evs0. auto. }
  assert (Hfin : forall success, extends (finish env success) any_event)
    by (intros; apply finish_extends; exact I).
  assert (Hfinc : forall tr', exists evs,
             snd (finish env 0 tr') = tr' ++ evs /\ Forall no_clock evs)
    by (intros; apply finish_extends; reflexivity).
  assert (Hfin0 : forall tr', fst (finish env 0 tr') = 1).
  { intros tr'. unfold finish, cleanup_networking.
    destruct (win32 env); reflexivity. }
  destruct custom_server as [host |].
  - destruct (validate_hostname host =? 0).
    { intros _. unfold cleanup_networking.
      destruct (win32 env); cbn; (split; [reflexivity |]).
      - exists (evs0 ++ [EvOut (MsgErrInvalidHostname host); EvWSACleanup]).
        rewrite E0, <- !app_assoc. split; [reflexivity |].
        apply Forall_app. split; [exact F0 | repeat constructor].
      - exists (evs0 ++ [EvOut (MsgErrInvalidHostname host)]).
        rewrite E0, <- !app_assoc. split; [reflexivity |].
        apply Forall_app. split; [exact F0 | repeat constructor]. }
    rewrite bind_eq. intros Hno.
    assert (Hno1 : no_sync_ok (snd (stage1 env host samples
                                      (snd (init_networking env tr))))).
    { revert Hno. apply no_sync_ok_before.
      apply extends_bind; [| intros s2; apply Hfin].
      destruct (_ =? 0); [apply stage2_extends | apply extends_ret]. }
    destruct (stage1_total_failure env samples host _ Hno1)
      as (S1 & evs1 & E1 & F1).
    revert Hno. rewrite S1. cbn [Z.eqb]. rewrite bind_eq. intros Hno.
    assert (Hno2 : no_sync_ok
                     (snd (stage2 env samples
                             (snd (stage1 env host samples
                                     (snd (init_networking env tr))))))).
    { revert Hno. apply no_sync_ok_before. apply Hfin. }
    destruct (stage2_total_failure env samples _ Hno2)
      as (S2 & evs2 & E2 & F2).
    rewrite S2.
    destruct (Hfinc (snd (stage2 env samples
                            (snd (stage1 env host samples
                                    (snd (init_networking env tr)))))))
      as (evs3 & E3 & F3).
    split; [apply Hfin0 |].
    exists (evs0 ++ evs1 ++ evs2 ++ evs3).
    rewrite E3, E2, E1, E0, <- !app_assoc. split; [reflexivity |].
    repeat (apply Forall_app; split); assumption.
  - rewrite bind_eq. intros Hno.
    assert (Hno2 : no_sync_ok
                     (snd (stage2 env samples (snd (init_networking env tr))))).
    { revert Hno. apply no_sync_ok_before. apply Hfin. }
    destruct (stage2_total_failure env samples _ Hno2)
      as (S2 & evs2 & E2 & F2).
    rewrite S2.
    destruct (Hfinc (snd (stage2 env samples (snd (init_networking env tr)))))
      as (evs3 & E3 & F3).
    split; [apply Hfin0 |].
    exists (evs0 ++ evs2 ++ evs3).
    rewrite E3, E2, E0, <- !app_assoc. split; [reflexivity |].
    repeat (apply Forall_app; split); assumption.
Qed.

Lemma total_failure_never_sets_clock_witness :
  let env := posix_host (D := Q) 0 0 (-1, zero_packet) in
  let argv := ["ntpc"; "time.example.org"]%string in
  no_sync_ok (snd (main env argv [])) /\
  fst (main env argv []) = 1 /\
  exists evs,
    snd (main env argv []) = [] ++ evs /\
    Forall (fun e => sets_clock e = false) evs.
Proof.
  intros env argv.
  assert (Hno : no_sync_ok (snd (main env argv []))).
  { intros e Hin.
    assert (Hall : forallb (fun e => negb (reports_sync_ok e))
                     (snd (main env argv [])) = true)
      by (vm_compute; reflexivity).
    rewrite forallb_forall in Hall. apply Hall in Hin.
    destruct (reports_sync_ok e); [discriminate | reflexivity]. }
  split; [exact Hno |].
  exact (total_failure_never_sets_clock env argv 1
           (Some "time.example.org"%string) [] eq_refl Hno).
Defined.

(* ------------------------------------------------------------------ *)
(** *** A clock that cannot be set *)

Section SetFailure.

Context {D : Type} `{DoubleOps D}.

Variable env : Env D.
Variable samples : Z.

Lemma sync_starts_with_report (hostname : string) (tr : trace D) :
  exists evs,
    snd (sync_with_server_multi_sample env hostname samples tr)
    = tr ++ EvOut (MsgSyncing hostname samples) :: evs.
Proof.
  unfold sync_with_server_multi_sample, sync_with.
  rewrite bind_eq. cbn [out call fst snd].
  match goal with
  | |- context [snd (?c (tr ++ [?e]))] =>
      assert (Hc : extends c no_clock)
  end.
  { apply extends_bind; [apply sample_loop_no_clock | intros a].
    unfold no_clock. extends_steps. }
  destruct (Hc (tr ++ [EvOut (MsgSyncing hostname samples)]))
    as (evs & E & _).
  exists evs. rewrite E, <- app_assoc. reflexivity.
Qed.

Lemma stage2_loop_starts_with_report (server : string) (rest : list string)
      (tr : trace D) :
  exists evs,
    snd (stage2_loop env (server :: rest) samples tr)
    = tr ++ EvOut (MsgSyncing server samples) :: evs.
Proof.
  cbn [stage2_loop]. rewrite bind_eq.
  destruct (sync_starts_with_report server tr) as (evs1 & E1).
  match goal with
  | |- context [snd (?c (snd (sync_with_server_multi_sample _ _ _ _)))] =>
      assert (Hc : extends c any_event)
  end.
  { destruct (ntp_error_eqb _ NTP_SUCCESS); [| apply stage2_loop_extends].
    apply extends_bind; [apply set_system_time_platform_extends | intros se].
    destruct (ntp_error_eqb se NTP_SUCCESS).
    - unfold any_event. extends_steps.
    - apply extends_bind;
        [apply extends_out; exact I | intros _; apply stage2_loop_extends]. }
  destruct (Hc (snd (sync_with_server_multi_sample env server samples tr)))
    as (evs2 & E2 & _).
  exists (evs1 ++ evs2). rewrite E2, E1, <- !app_assoc. reflexivity.
Qed.

End SetFailure.

(** C1 (as the code has it).  When the aggregate of a host succeeds and
    applying its time fails with [NTP_ERR_PERMISSION_DENIED], the failure
    is reported and the program goes on: after the user host it enters
    stage 2, which starts by attempting the first server of the built-in
    pool, and after a pool server it continues with the servers that
    follow; the run ends as the rest of the pool decides. *)
Theorem permission_denied_goes_on
        {D : Type} `{DoubleOps D} (env : Env D) (samples : Z) :
  (forall (host : string) (tr0 : trace D),
      fst (init_networking env tr0) <> 0 ->
      validate_hostname host <> 0 ->
      let tr := snd (init_networking env tr0) ++ [EvOut MsgStage1] in
      let r := fst (sync_with_server_multi_sample env host samples tr) in
      let tr1 := snd (sync_with_server_multi_sample env host samples tr) in
      error r = NTP_SUCCESS ->
      fst (set_system_time_platform env (corrected_time r) tr1)
      = NTP_ERR_PERMISSION_DENIED ->
      let tr2 := snd (set_system_time_platform env (corrected_time r) tr1)
                 ++ [EvOut (MsgError NTP_ERR_PERMISSION_DENIED);
                     EvOut MsgHintPrivilege] in
      run env samples (Some host) tr0
      = (success <- stage2 env samples ;; finish env success)%io tr2) /\
  (forall (server : string) (rest : list string) (tr : trace D),
      let r := fst (sync_with_server_multi_sample env server samples tr) in
      let tr1 := snd (sync_with_server_multi_sample env server samples tr) in
      error r = NTP_SUCCESS ->
      fst (set_system_time_platform env (corrected_time r) tr1)
      = NTP_ERR_PERMISSION_DENIED ->
      stage2_loop env (server :: rest) samples tr
      = stage2_loop env rest samples
          (snd (set_system_time_platform env (corrected_time r) tr1)
           ++ [EvOut (MsgError NTP_ERR_PERMISSION_DENIED)])) /\
  (forall (tr : trace D),
      exists evs,
        snd ((success <- stage2 env samples ;; finish env success)%io tr)
        = tr ++ [EvOut MsgStage2;
                 EvOut (MsgSyncing "ntp.aliyun.com" samples)] ++ evs).
Proof.
  split; [| split].
  - intros host tr0 Hinit Hvalid tr r tr1 Hok Hset tr2.
    unfold run. rewrite bind_eq.
    apply Z.eqb_neq in Hinit. rewrite Hinit.
    apply Z.eqb_neq in Hvalid. rewrite Hvalid.
    rewrite bind_eq.
    assert (Hs1 : stage1 env host samples (snd (init_networking env tr0))
                  = (0, tr2)).
    { unfold stage1. rewrite bind_eq. cbn [out call fst snd].
      rewrite bind_eq. fold tr. fold r. fold tr1. rewrite Hok.
      cbn [ntp_error_eqb]. rewrite bind_eq. rewrite Hset.
      cbn [ntp_error_eqb]. cbv [bind out call ret]. subst tr2.
      rewrite <- app_assoc. reflexivity. }
    rewrite Hs1. cbn [fst snd Z.eqb]. reflexivity.
  - intros server rest tr r tr1 Hok Hset.
    cbn [stage2_loop]. rewrite bind_eq. fold r. fold tr1. rewrite Hok.
    cbn [ntp_error_eqb]. rewrite bind_eq. rewrite Hset.
    cbn [ntp_error_eqb]. rewrite bind_eq. reflexivity.
  - intros tr.
    assert (Hs2 : exists evs,
               snd (stage2 env samples tr)
               = tr ++ [EvOut MsgStage2;
                        EvOut (MsgSyncing "ntp.aliyun.com" samples)] ++ evs).
    { unfold stage2, INTERNAL_NTP_SERVERS. rewrite bind_eq.
      cbn [out call fst snd].
      destruct (stage2_loop_starts_with_report env samples "ntp.aliyun.com"
                  ["time.cloudflare.com"; "pool.ntp.org"]%string
                  (tr ++ [EvOut MsgStage2])) as (evs1 & E1).
      exists evs1. rewrite E1, <- !app_assoc. reflexivity. }
    destruct Hs2 as (evs & E).
    rewrite bind_eq.
    destruct (finish_extends env (fst (stage2 env samples tr)) any_event I I
                (snd (stage2 env samples tr))) as (evs3 & E3 & _).
    exists (evs ++ evs3). rewrite E3, E, <- !app_assoc. reflexivity.
Qed.

Lemma permission_denied_goes_on_witness :
  let env := posix_host (D := Q) 1000 0 (48, good_reply) in
  let host := "time.example.org"%string in
  let r := fst (sync_with_server_multi_sample env host 1 [EvOut MsgStage1]) in
  let tr1 := snd (sync_with_server_multi_sample env host 1 [EvOut MsgStage1]) in
  let tr2 := snd (set_system_time_platform env (corrected_time r) tr1) in
  (error r = NTP_SUCCESS /\
   fst (set_system_time_platform env (corrected_time r) tr1)
   = NTP_ERR_PERMISSION_DENIED) /\
  run env 1 (Some host) []
  = (success <- stage2 env 1 ;; finish env success)%io
      (tr2 ++ [EvOut (MsgError NTP_ERR_PERMISSION_DENIED);
               EvOut MsgHintPrivilege]) /\
  stage2_loop env [host; "pool.ntp.org"%string] 1 [EvOut MsgStage1]
  = stage2_loop env ["pool.ntp.org"%string] 1
      (tr2 ++ [EvOut (MsgError NTP_ERR_PERMISSION_DENIED)]).
Proof.
  intros env host r tr1 tr2.
  assert (Hok : error r = NTP_SUCCESS) by (vm_compute; reflexivity).
  assert (Hset : fst (set_system_time_platform env (corrected_time r) tr1)
                 = NTP_ERR_PERMISSION_DENIED) by (vm_compute; reflexivity).
  destruct (permission_denied_goes_on env 1) as (Hstage1 & Hstage2 & _).
  split; [split; assumption |]. split.
  - apply (Hstage1 host []); [vm_compute; discriminate
                             | vm_compute; discriminate
                             | exact Hok | exact Hset].
  - apply (Hstage2 host ["pool.ntp.org"%string] [EvOut MsgStage1] Hok Hset).
Defined.

(** C1 (as stated) fails: on a POSIX host run by an ordinary user the query
    of the user host succeeds, setting the clock is refused, and the program
    then resolves the first server of the built-in pool. *)
Lemma permission_denied_is_not_terminal :
  let env := posix_host (D := Q) 1000 0 (48, good_reply) in
  let evs := snd (main env ["ntpc"; "time.example.org"]%string []) in
  ~ stops_after_permission_denied evs.
Proof.
  intros env evs Hstop.
  assert (Hsplit : evs = firstn 14 evs
                         ++ EvOut (MsgError NTP_ERR_PERMISSION_DENIED)
                         :: skipn 15 evs)
    by (vm_compute; reflexivity).
  apply Hstop in Hsplit. rewrite Forall_forall in Hsplit.
  assert (Hin : In (EvGetaddrinfo "ntp.aliyun.com") (skipn 15 evs))
    by (vm_compute; right; right; right; left; reflexivity).
  apply Hsplit in Hin. discriminate.
Qed.

(** The servers that run goes through, and how it ends. *)
Example permission_denied_run :
  let env := posix_host (D := Q) 1000 0 (48, good_reply) in
  let run := main env ["ntpc"; "time.example.org"]%string [] in
  fst run = 1 /\
  filter server_attempt (snd run)
  = [EvOut (MsgSyncing "time.example.org" 1);
     EvOut (MsgSyncing "ntp.aliyun.com" 1);
     EvOut (MsgSyncing "time.cloudflare.com" 1);
     EvOut (MsgSyncing "pool.ntp.org" 1)] /\
  List.length (filter (fun e => match e with
                                | EvOut (MsgError NTP_ERR_PERMISSION_DENIED) => true
                                | _ => false
                                end) (snd run)) = 4%nat.
Proof. repeat split; vm_compute; reflexivity. Qed.

(* ================================================================== *)
(** ** One exchange: causes, resources, the request *)

(** X1.  The outcome of an exchange is decided by the first step that
    fails, in this order: resolution, socket creation, send, length of the
    reply (anything under 48 bytes, a receive error included, counts as a
    timeout), validation. *)
Theorem query_ntp_server_error_by_cause
        {D : Type} `{DoubleOps D} (env : Env D) (hostname : string)
        (tr : trace D) :
  error (fst (query_ntp_server env hostname tr))
  = if negb (exchange_resolved env hostname tr) then NTP_ERR_DNS_FAILED
    else if negb (exchange_socket_ok env hostname tr)
         then NTP_ERR_SOCKET_CREATE
    else if exchange_send_ret env hostname tr <? 0 then NTP_ERR_SEND_FAILED
    else if exchange_bytes env hostname tr <? NTP_PACKET_SIZE
         then NTP_ERR_RECV_TIMEOUT
    else if exchange_valid env hostname tr =? 0
         then NTP_ERR_INVALID_RESPONSE
    else NTP_SUCCESS.
Proof.
  unfold exchange_resolved, exchange_socket_ok, exchange_send_ret,
    exchange_bytes, exchange_valid, exchange_received, exchange_reply,
    exchange_sent, exchange_request, exchange_t1, exchange_socket.
  unfold query_ntp_server.
  io_step. destruct (negb _); [reflexivity |].
  io_step. rewrite <- !app_assoc. cbn [app].
  destruct (IS_INVALID_SOCKET env _);
    [rewrite query_cleanup_value; reflexivity |].
  cbn [negb]. io_step. io_step.
  rewrite get_local_time_double_trace. rewrite <- !app_assoc. cbn [app].
  io_step.
  destruct (_ <? 0); [rewrite query_cleanup_value; reflexivity |].
  io_step. io_step. rewrite get_local_time_double_trace.
  rewrite <- !app_assoc. cbn [app].
  destruct (_ <? NTP_PACKET_SIZE);
    [rewrite query_cleanup_value; reflexivity |].
  io_step.
  destruct (_ =? 0); rewrite query_cleanup_value; reflexivity.
Qed.

Section ExchangeShape.

Context {D : Type} `{DoubleOps D}.
Variable env : Env D.

Lemma validate_ntp_response_after_send (p : ntp_packet) (s f : Z) :
  extends (validate_ntp_response env p s f)
          (fun e => after_send e = true).
Proof. unfold validate_ntp_response. extends_steps. Qed.

Lemma query_cleanup_trace (sock : Z) (r : ntp_result D) (tr : trace D) :
  snd (query_cleanup env sock r tr)
  = tr ++ (if IS_INVALID_SOCKET env sock then [] else [EvClose sock])
       ++ [EvFreeaddrinfo].
Proof.
  unfold query_cleanup. destruct (IS_INVALID_SOCKET env sock); cbn.
  - reflexivity.
  - rewrite <- app_assoc. reflexivity.
Qed.

(** The events of an exchange, by how far it gets. *)
Lemma query_ntp_server_events (hostname : string) (tr : trace D) :
  let sock := exchange_socket env hostname tr in
  exists evs,
    snd (query_ntp_server env hostname tr) = tr ++ evs /\
    ((exchange_resolved env hostname tr = false /\
      evs = [EvGetaddrinfo hostname]) \/
     (exchange_resolved env hostname tr = true /\
      exchange_socket_ok env hostname tr = false /\
      evs = [EvGetaddrinfo hostname; EvSocket; EvFreeaddrinfo]) \/
     (exchange_resolved env hostname tr = true /\
      exchange_socket_ok env hostname tr = true /\
      exists mid,
        evs = [EvGetaddrinfo hostname; EvSocket;
               EvSetsockopt NTP_TIMEOUT_SEC; EvGetTime;
               EvSendto sock (exchange_request env hostname tr)]
              ++ mid ++ [EvClose sock; EvFreeaddrinfo] /\
        Forall (fun e => after_send e = true) mid)).
Proof.
  intros sock. subst sock.
  unfold exchange_resolved, exchange_socket_ok, exchange_request,
    exchange_t1, exchange_socket.
  unfold query_ntp_server.
  io_step. destruct (os_getaddrinfo env tr hostname =? 0) eqn:Hrc; cbn [negb].
  2: { exists [EvGetaddrinfo hostname]. split; [reflexivity |].
       left. split; reflexivity. }
  io_step.
  set (sock := os_socket env (tr ++ [EvGetaddrinfo hostname])) in *.
  destruct (IS_INVALID_SOCKET env sock) eqn:Hsock; cbn [negb].
  { rewrite query_cleanup_trace, Hsock.
    exists [EvGetaddrinfo hostname; EvSocket; EvFreeaddrinfo].
    rewrite <- !app_assoc. split; [reflexivity |].
    right. left. repeat split; reflexivity. }
  io_step. io_step. rewrite get_local_time_double_trace. io_step.
  rewrite <- !app_assoc. cbn [app].
  match goal with
  | |- context [EvSendto sock ?p] => set (req := p)
  end.
  assert (Hfin : forall mid r,
             Forall (fun e => after_send e = true) mid ->
             exists evs,
               snd (query_cleanup env sock r
                      (tr ++ [EvGetaddrinfo hostname; EvSocket;
                              EvSetsockopt NTP_TIMEOUT_SEC; EvGetTime;
                              EvSendto sock req] ++ mid))
               = tr ++ evs /\
               ((true = false /\ evs = [EvGetaddrinfo hostname]) \/
                (true = true /\ true = false /\
                 evs = [EvGetaddrinfo hostname; EvSocket; EvFreeaddrinfo]) \/
                (true = true /\ true = true /\
                 exists mid0,
                   evs = [EvGetaddrinfo hostname; EvSocket;
                          EvSetsockopt NTP_TIMEOUT_SEC; EvGetTime;
                          EvSendto sock req]
                         ++ mid0 ++ [EvClose sock; EvFreeaddrinfo] /\
                   Forall (fun e => after_send e = true) mid0))).
  { intros mid r Hmid. rewrite query_cleanup_trace, Hsock.
    eexists. split.
    - rewrite <- !app_assoc. reflexivity.
    - right. right. split; [reflexivity |]. split; [reflexivity |].
      exists mid. split; [reflexivity | exact Hmid]. }
  destruct (_ <? 0).
  { destruct (Hfin [] (mk_result (dbl_of_Z 0) (dbl_of_Z 0)
                         NTP_ERR_SEND_FAILED) (Forall_nil _))
      as (evs & E & Hs).
    rewrite app_nil_r in E. exists evs. split; [exact E | exact Hs]. }
  io_step. io_step. rewrite get_local_time_double_trace.
  rewrite <- !app_assoc. cbn [app].
  destruct (_ <? NTP_PACKET_SIZE).
  { destruct (Hfin [EvRecv sock; EvGetTime]
                (mk_result (dbl_of_Z 0) (dbl_of_Z 0) NTP_ERR_RECV_TIMEOUT)
                ltac:(repeat constructor))
      as (evs & E & Hs).
    exists evs. split; [exact E | exact Hs]. }
  io_step.
  match goal with
  | |- context [validate_ntp_response env ?p ?s ?f ?t] =>
      destruct (validate_ntp_response_after_send p s f t) as (dbg & Ed & Fd)
  end.
  rewrite Ed.
  assert (Hmid : Forall (fun e : event D => after_send e = true)
                   ([EvRecv sock; EvGetTime] ++ dbg))
    by (apply Forall_app; split; [repeat constructor | exact Fd]).
  destruct (fst (validate_ntp_response _ _ _ _ _) =? 0).
  - destruct (Hfin _ (mk_result (dbl_of_Z 0) (dbl_of_Z 0)
                        NTP_ERR_INVALID_RESPONSE) Hmid) as (evs & E & Hs).
    exists evs. split; [| exact Hs].
    rewrite <- E. rewrite <- !app_assoc. reflexivity.
  - match goal with
    | |- context [query_cleanup env sock ?r _] =>
        destruct (Hfin _ r Hmid) as (evs & E & Hs)
    end.
    exists evs. split; [| exact Hs].
    rewrite <- E. rewrite <- !app_assoc. reflexivity.
Qed.

End ExchangeShape.

Lemma filter_none {A : Type} (f : A -> bool) (P : A -> Prop) (l : list A) :
  (forall a, P a -> f a = false) -> Forall P l -> filter f l = [].
Proof.
  intros HP Hl. induction Hl as [| a l Ha _ IH]; cbn.
  - reflexivity.
  - rewrite (HP a Ha). exact IH.
Qed.

Lemma after_send_kinds {D : Type} (e : event D) :
  after_send e = true ->
  is_socket e = false /\ is_close e = false /\ is_free e = false /\
  is_send e = false /\ is_resolution e = false.
Proof.
  destruct e as [| | h | | | t | s | | s p | s | | a b | w | | m];
    try discriminate; try (intros _; repeat split; reflexivity).
Qed.

(** X2.  An exchange releases what it acquires, on every path: the address
    list is freed exactly once if the name resolved, the socket is closed
    exactly once if it was obtained, and these are its last actions; when
    the name does not resolve nothing is opened. *)
Theorem query_ntp_server_releases
        {D : Type} `{DoubleOps D} (env : Env D) (hostname : string)
        (tr : trace D) :
  let resolved := exchange_resolved env hostname tr in
  let opened := resolved && exchange_socket_ok env hostname tr in
  let sock := exchange_socket env hostname tr in
  exists evs,
    snd (query_ntp_server env hostname tr) = tr ++ evs /\
    filter is_socket evs = (if resolved then [EvSocket] else []) /\
    filter is_close evs = (if opened then [EvClose sock] else []) /\
    filter is_free evs = (if resolved then [EvFreeaddrinfo] else []) /\
    (opened = true ->
     exists before, evs = before ++ [EvClose sock; EvFreeaddrinfo]).
Proof.
  intros resolved opened sock. subst resolved opened sock.
  destruct (query_ntp_server_events env hostname tr)
    as (evs & E & [(Hr & Hevs) | [(Hr & Hs & Hevs) | (Hr & Hs & mid & Hevs & Hmid)]]);
    exists evs; (split; [exact E |]); rewrite Hr; try rewrite Hs; subst evs;
    cbn [andb].
  - repeat split; try reflexivity. discriminate.
  - repeat split; try reflexivity. discriminate.
  - rewrite !filter_app.
    rewrite (filter_none is_socket _ mid
               (fun e He => proj1 (after_send_kinds e He)) Hmid).
    rewrite (filter_none is_close _ mid
               (fun e He => proj1 (proj2 (after_send_kinds e He))) Hmid).
    rewrite (filter_none is_free _ mid
               (fun e He => proj1 (proj2 (proj2 (after_send_kinds e He))))
               Hmid).
    repeat split; try reflexivity.
    intros _. eexists. rewrite app_assoc. reflexivity.
Qed.

(** X3.  An exchange sends at most one packet, and only once it holds a
    socket: the client request with first byte 0x1B (LI 0, VN 3, mode 3),
    every other field zero except the transmit timestamp, which carries the
    encoded T1 in network order. *)
Theorem query_ntp_server_request
        {D : Type} `{DoubleOps D} (env : Env D) (hostname : string)
        (tr : trace D) :
  let opened := exchange_resolved env hostname tr
                && exchange_socket_ok env hostname tr in
  let sock := exchange_socket env hostname tr in
  let t1 := exchange_t1 env hostname tr in
  exists evs p,
    snd (query_ntp_server env hostname tr) = tr ++ evs /\
    filter is_send evs = (if opened then [EvSendto sock p] else []) /\
    wf_packet p /\
    (li_vn_mode p / 64 = 0 /\ (li_vn_mode p / 8) mod 8 = 3 /\
     li_vn_mode p mod 8 = 3) /\
    set_trans_ts 0 0 p = set_li_vn_mode 27 zero_packet /\
    ntohl (big_endian env) (trans_ts_sec p) = fst (ntp_encode t1) /\
    ntohl (big_endian env) (trans_ts_frac p) = snd (ntp_encode t1).
Proof.
  intros opened sock t1. subst opened sock t1.
  assert (Hsec : is_u32 (fst (ntp_encode (exchange_t1 env hostname tr))))
    by (unfold ntp_encode; cbn [fst]; apply to_u32_range).
  assert (Hfrac : is_u32 (snd (ntp_encode (exchange_t1 env hostname tr))))
    by (unfold ntp_encode; cbn [snd]; apply to_u32_range).
  destruct (query_ntp_server_events env hostname tr)
    as (evs & E & Hcases).
  exists evs, (exchange_request env hostname tr).
  split; [exact E |]. split.
  - destruct Hcases
      as [(Hr & Hevs) | [(Hr & Hs & Hevs) | (Hr & Hs & mid & Hevs & Hmid)]];
      rewrite Hr; try rewrite Hs; subst evs; cbn [andb]; try reflexivity.
    rewrite !filter_app.
    rewrite (filter_none is_send _ mid
               (fun e He =>
                  proj1 (proj2 (proj2 (proj2 (after_send_kinds e He)))))
               Hmid).
    reflexivity.
  - unfold exchange_request. cbn [li_vn_mode trans_ts_sec trans_ts_frac].
    rewrite !ntohl_htonl by assumption.
    split; [| repeat split; reflexivity].
    unfold wf_packet. cbn.
    pose proof (htonl_range (big_endian env)
                  (fst (ntp_encode (exchange_t1 env hostname tr)))).
    pose proof (htonl_range (big_endian env)
                  (snd (ntp_encode (exchange_t1 env hostname tr)))).
    unfold is_u8, is_u32 in *. repeat split; try lia; try tauto.
Qed.

(** X4.  A failed exchange carries no time: whatever made it fail, the
    result holds corrected time 0.0 and delay 0.0. *)
Theorem query_ntp_server_failure_is_zero
        {D : Type} `{DoubleOps D} (env : Env D) (hostname : string)
        (tr : trace D) :
  error (fst (query_ntp_server env hostname tr)) <> NTP_SUCCESS ->
  corrected_time (fst (query_ntp_server env hostname tr)) = dbl_of_Z 0 /\
  delay (fst (query_ntp_server env hostname tr)) = dbl_of_Z 0.
Proof.
  unfold query_ntp_server.
  io_step. destruct (negb _); [intros _; split; reflexivity |].
  io_step.
  destruct (IS_INVALID_SOCKET env _);
    [rewrite query_cleanup_value; intros _; split; reflexivity |].
  io_step. io_step. io_step.
  destruct (_ <? 0);
    [rewrite query_cleanup_value; intros _; split; reflexivity |].
  io_step. io_step.
  destruct (_ <? NTP_PACKET_SIZE);
    [rewrite query_cleanup_value; intros _; split; reflexivity |].
  io_step.
  destruct (fst (validate_ntp_response _ _ _ _ _) =? 0);
    rewrite query_cleanup_value.
  - intros _. split; reflexivity.
  - cbn [error]. intros Hne. elim Hne. reflexivity.
Qed.

Lemma query_ntp_server_failure_is_zero_witness :
  let env := posix_host (D := Q) 0 0 (20, good_reply) in
  let r := fst (query_ntp_server env "time.example.org" []) in
  error r = NTP_ERR_RECV_TIMEOUT /\
  corrected_time r = dbl_of_Z 0 /\ delay r = dbl_of_Z 0.
Proof.
  intros env r.
  assert (He : error r = NTP_ERR_RECV_TIMEOUT) by (vm_compute; reflexivity).
  split; [exact He |].
  apply (query_ntp_server_failure_is_zero env "time.example.org" []).
  fold r. rewrite He. discriminate.
Defined.

(** Success means a full-length reply that the validator accepted. *)
Lemma query_ntp_server_success_inv
      {D : Type} `{DoubleOps D} (env : Env D) (hostname : string)
      (tr : trace D) :
  error (fst (query_ntp_server env hostname tr)) = NTP_SUCCESS ->
  NTP_PACKET_SIZE <= exchange_bytes env hostname tr /\
  exchange_valid env hostname tr = 1.
Proof.
  unfold exchange_valid, exchange_received, exchange_bytes, exchange_reply,
    exchange_sent, exchange_request, exchange_t1, exchange_socket.
  unfold query_ntp_server.
  io_step. destruct (negb _); [cbn; discriminate |].
  io_step.
  destruct (IS_INVALID_SOCKET env _);
    [rewrite query_cleanup_value; cbn; discriminate |].
  io_step. io_step. rewrite get_local_time_double_trace. io_step.
  rewrite <- !app_assoc. cbn [app].
  destruct (_ <? 0); [rewrite query_cleanup_value; cbn; discriminate |].
  io_step. io_step. rewrite get_local_time_double_trace.
  rewrite <- !app_assoc. cbn [app].
  match goal with
  | |- context [?b <? NTP_PACKET_SIZE] =>
      destruct (Z.ltb_spec b NTP_PACKET_SIZE) as [Hlt | Hge]
  end;
    [rewrite query_cleanup_value; cbn; discriminate |].
  io_step.
  match goal with
  | |- context [validate_ntp_response env ?p ?s ?f ?t] =>
      pose proof (validate_ntp_response_bool env p s f t) as Hb;
      destruct (Z.eqb_spec (fst (validate_ntp_response env p s f t)) 0)
        as [E0 | E0]
  end;
    [rewrite query_cleanup_value; cbn; discriminate |].
  intros _. split; [exact Hge |].
  destruct Hb as [Hb | Hb]; [contradiction | exact Hb].
Qed.

(** X5.  An exchange succeeds only on a full-length reply that the validator
    accepted: at least 48 bytes, server or broadcast mode, stratum 1..15,
    non-zero transmit second, origin second within the tolerance of the
    second that was sent. *)
Theorem query_ntp_server_success_validated
        {D : Type} `{DoubleOps D} (env : Env D) (hostname : string)
        (tr : trace D) :
  error (fst (query_ntp_server env hostname tr)) = NTP_SUCCESS ->
  is_u8 (stratum (exchange_reply env hostname tr)) ->
  let reply := exchange_reply env hostname tr in
  let sent_sec := fst (ntp_encode (exchange_t1 env hostname tr)) in
  NTP_PACKET_SIZE <= exchange_bytes env hostname tr /\
  (li_vn_mode reply mod 8 = 4 \/ li_vn_mode reply mod 8 = 5) /\
  1 <= stratum reply <= 15 /\
  ntohl (big_endian env) (trans_ts_sec reply) <> 0 /\
  (1 <? abs_i32 (sub_i32 (to_i32 (ntohl (big_endian env) (orig_ts_sec reply)))
                         (to_i32 sent_sec))) = false.
Proof.
  intros Hok Hs reply sent_sec.
  destruct (query_ntp_server_success_inv env hostname tr Hok) as (Hge & Hv).
  unfold exchange_valid in Hv.
  apply (validate_ntp_response_decides env _ _ _ _ Hs) in Hv.
  destruct Hv as (Hm & Hst & Hdiff & Ht).
  subst reply sent_sec. repeat split; try tauto; try lia.
Qed.

Lemma query_ntp_server_success_validated_witness :
  let env := posix_host (D := Q) 0 0 (48, good_reply) in
  let reply := exchange_reply env "time.example.org" [] in
  (error (fst (query_ntp_server env "time.example.org" [])) = NTP_SUCCESS /\
   is_u8 (stratum reply)) /\
  NTP_PACKET_SIZE <= exchange_bytes env "time.example.org" [] /\
  (li_vn_mode reply mod 8 = 4 \/ li_vn_mode reply mod 8 = 5) /\
  1 <= stratum reply <= 15 /\
  ntohl (big_endian env) (trans_ts_sec reply) <> 0 /\
  (1 <? abs_i32 (sub_i32
                   (to_i32 (ntohl (big_endian env) (orig_ts_sec reply)))
                   (to_i32 (fst (ntp_encode
                                   (exchange_t1 env "time.example.org" []))))))
  = false.
Proof.
  intros env reply.
  assert (Hok : error (fst (query_ntp_server env "time.example.org" []))
                = NTP_SUCCESS) by (vm_compute; reflexivity).
  assert (Hs : is_u8 (stratum reply))
    by (unfold is_u8; vm_compute; intuition discriminate).
  split; [split; assumption |].
  exact (query_ntp_server_success_validated env "time.example.org" [] Hok Hs).
Defined.

(** X6.  An exchange never succeeds on its own request: if what comes back
    is the request unchanged (a reflection, mode 3), the exchange fails,
    whatever the timestamps. *)
Theorem query_ntp_server_rejects_reflection
        {D : Type} `{DoubleOps D} (env : Env D) (hostname : string)
        (tr : trace D) :
  exchange_reply env hostname tr = exchange_request env hostname tr ->
  error (fst (query_ntp_server env hostname tr)) <> NTP_SUCCESS.
Proof.
  intros Hrefl Hok.
  destruct (query_ntp_server_success_inv env hostname tr Hok) as (_ & Hv).
  unfold exchange_valid in Hv. rewrite Hrefl in Hv.
  unfold validate_ntp_response, exchange_request in Hv.
  cbn [li_vn_mode] in Hv. cbn in Hv. discriminate.
Qed.

Lemma query_ntp_server_rejects_reflection_witness :
  let env := posix_host (D := Q) 0 0 (48, reflected_request) in
  exchange_reply env "time.example.org" []
  = exchange_request env "time.example.org" [] /\
  error (fst (query_ntp_server env "time.example.org" []))
  = NTP_ERR_INVALID_RESPONSE.
Proof.
  intros env.
  assert (Hrefl : exchange_reply env "time.example.org" []
                  = exchange_request env "time.example.org" [])
    by (vm_compute; reflexivity).
  split; [exact Hrefl |].
  pose proof (query_ntp_server_rejects_reflection env "time.example.org" []
                Hrefl) as Hne.
  destruct (error (fst (query_ntp_server env "time.example.org" []))) eqn:He;
    try (vm_compute in He; discriminate He).
  reflexivity.
Defined.

(* ================================================================== *)
(** ** Timestamps read from the wire (exact arithmetic) *)


(** X7.  Decoding a wire timestamp subtracts the epoch offset in unsigned
    64-bit arithmetic: a second at or after 1970 decodes to
    [sec - 2208988800 + frac / 2^32], a second before it (also any second of
    the era that starts in 2036) wraps and decodes to a value beyond
    [2^64 - 2208988800]. *)
Theorem ntp_decode_value (sec frac : Z) :
  is_u32 sec ->
  (ntp_decode sec frac
   == inject_Z (if NTP_TIMESTAMP_DELTA <=? sec
                then sec - NTP_TIMESTAMP_DELTA
                else sec - NTP_TIMESTAMP_DELTA + 2 ^ 64)
      + inject_Z frac / inject_Z (2 ^ 32))%Q.
Proof.
  unfold is_u32, NTP_TIMESTAMP_DELTA. intros Hsec.
  unfold ntp_decode, NTP_TIMESTAMP_DELTA.
  cbn [dbl_add dbl_div dbl_of_Z Q_DoubleOps].
  assert (Hw : to_u64 (sec - 2208988800)
               = if 2208988800 <=? sec then sec - 2208988800
                 else sec - 2208988800 + 2 ^ 64).
  { unfold to_u64. destruct (Z.leb_spec 2208988800 sec).
    - apply Z.mod_small. lia.
    - rewrite <- (Z.mod_add (sec - 2208988800) 1 (2 ^ 64)) by lia.
      rewrite Z.mod_small by lia. lia. }
  rewrite Hw. reflexivity.
Qed.

Lemma ntp_decode_value_witness :
  is_u32 1 /\
  (ntp_decode 1 0 == inject_Z (2 ^ 64 - NTP_TIMESTAMP_DELTA + 1))%Q.
Proof.
  assert (Hu : is_u32 1) by (unfold is_u32; lia).
  split; [exact Hu |].
  rewrite (ntp_decode_value 1 0 Hu). vm_compute. reflexivity.
Defined.



(* ================================================================== *)
(** ** Setting and reading the clock (exact arithmetic) *)









(* ================================================================== *)
(** ** What the validator prints *)

(** X11.  The validator accepts silently and rejects with exactly one
    diagnostic line; neither the verdict nor the line depends on the
    fraction of the sent timestamp or on what happened before. *)
Theorem validate_ntp_response_reports
        {D : Type} `{DoubleOps D} (env : Env D) (p : ntp_packet)
        (sent_sec sent_frac : Z) (tr : trace D) :
  (exists evs,
      snd (validate_ntp_response env p sent_sec sent_frac tr) = tr ++ evs /\
      ((fst (validate_ntp_response env p sent_sec sent_frac tr) = 1 /\
        evs = []) \/
       (fst (validate_ntp_response env p sent_sec sent_frac tr) = 0 /\
        exists m, evs = [EvOut m] /\ is_diagnostic m = true)) /\
      forall sent_frac' tr',
        validate_ntp_response env p sent_sec sent_frac' tr'
        = (fst (validate_ntp_response env p sent_sec sent_frac tr),
           tr' ++ evs)).
Proof.
  unfold validate_ntp_response.
  destruct (negb (Z.land (li_vn_mode p) 7 =? 4)
            && negb (Z.land (li_vn_mode p) 7 =? 5)).
  { eexists. split; [reflexivity |]. split; [| reflexivity].
    right. split; [reflexivity |]. eexists. split; reflexivity. }
  destruct (stratum p =? 0).
  { eexists. split; [reflexivity |]. split; [| reflexivity].
    right. split; [reflexivity |]. eexists. split; reflexivity. }
  destruct (MAX_VALID_STRATUM <? stratum p).
  { eexists. split; [reflexivity |]. split; [| reflexivity].
    right. split; [reflexivity |]. eexists. split; reflexivity. }
  cbv zeta.
  destruct (1 <? abs_i32 _).
  { eexists. split; [reflexivity |]. split; [| reflexivity].
    right. split; [reflexivity |]. eexists. split; reflexivity. }
  destruct (ntohl (big_endian env) (trans_ts_sec p) =? 0).
  { eexists. split; [reflexivity |]. split; [| reflexivity].
    right. split; [reflexivity |]. eexists. split; reflexivity. }
  exists []. cbn. rewrite app_nil_r. split; [reflexivity |].
  split; [left; split; reflexivity |].
  intros _ tr'. rewrite app_nil_r. reflexivity.
Qed.

(* ================================================================== *)
(** ** What the sampling of a host leaves in the history *)

Lemma query_ntp_server_one_resolution
      {D : Type} `{DoubleOps D} (env : Env D) (hostname : string)
      (tr : trace D) :
  exists evs,
    snd (query_ntp_server env hostname tr) = tr ++ evs /\
    filter is_resolution evs = [EvGetaddrinfo hostname] /\
    filter is_sample_line evs = [].
Proof.
  destruct (query_ntp_server_events env hostname tr)
    as (evs & E & [(_ & Hevs) | [(_ & _ & Hevs) | (_ & _ & mid & Hevs & Hmid)]]);
    exists evs; (split; [exact E |]); subst evs.
  - split; reflexivity.
  - split; reflexivity.
  - rewrite !filter_app.
    rewrite (filter_none is_resolution _ mid
               (fun e He => proj2 (proj2 (proj2 (proj2 (after_send_kinds e He)))))
               Hmid).
    rewrite (filter_none is_sample_line (fun e => after_send e = true) mid);
      [split; reflexivity | | exact Hmid].
    intros e He.
    destruct e as [| | h | | | t | s | | s p | s | | a b | w | | m];
      try discriminate; try reflexivity.
    destruct m; try discriminate; reflexivity.
Qed.

Section SamplingHistory.

Context {D : Type} `{DoubleOps D}.

Variable query : string -> M D (ntp_result D).
Variable hostname : string.

(** Each call of the exchange resolves the name once and prints no sample
    line of its own. *)
Hypothesis query_resolves_once :
  forall tr, exists evs,
    snd (query hostname tr) = tr ++ evs /\
    filter is_resolution evs = [EvGetaddrinfo hostname] /\
    filter is_sample_line evs = [].

Lemma sample_loop_history (samples : Z) (n : nat) :
  forall (i : Z) (a : sample_acc) (tr : trace D),
  exists rs evs,
    results (fst (sample_loop query hostname samples n i a tr))
    = results a ++ rs /\
    snd (sample_loop query hostname samples n i a tr) = tr ++ evs /\
    filter is_resolution evs = repeat (EvGetaddrinfo hostname) n /\
    filter is_sample_line evs = numbered_lines samples (i + 1) rs.
Proof.
  induction n as [| n IH]; intros i a tr.
  - exists [], []. cbn. rewrite !app_nil_r. repeat split; reflexivity.
  - cbn [sample_loop]. io_step.
    destruct (query_resolves_once tr) as (qevs & Eq & Hres & Hline).
    set (r := fst (query hostname tr)).
    rewrite Eq.
    destruct (ntp_error_eqb (error r) NTP_SUCCESS) eqn:Hr.
    + io_step. io_step.
      match goal with
      | |- context [sample_loop _ _ _ n ?i' ?a1 ?tr1] =>
          destruct (IH i' a1 tr1) as (rs & evs & E1 & E2 & E3 & E4)
      end.
      exists (r :: rs),
        (qevs ++ [EvOut (MsgSampleOk (i + 1) samples
                           (delay r * dbl_of_Z 1000)%dbl)] ++ evs).
      rewrite E1, E2. cbn [results]. rewrite <- !app_assoc.
      split; [reflexivity |]. split; [reflexivity |].
      rewrite !filter_app, Hres, Hline, E3, E4.
      cbn [filter is_resolution is_sample_line app repeat numbered_lines].
      unfold sample_line, succeeded. rewrite Hr.
      split; reflexivity.
    + io_step. io_step.
      match goal with
      | |- context [sample_loop _ _ _ n ?i' ?a1 ?tr1] =>
          destruct (IH i' a1 tr1) as (rs & evs & E1 & E2 & E3 & E4)
      end.
      exists (r :: rs),
        (qevs ++ [EvOut (MsgSampleFail (i + 1) samples (error r))] ++ evs).
      rewrite E1, E2. cbn [results]. rewrite <- !app_assoc.
      split; [reflexivity |]. split; [reflexivity |].
      rewrite !filter_app, Hres, Hline, E3, E4.
      cbn [filter is_resolution is_sample_line app repeat numbered_lines].
      unfold sample_line, succeeded. rewrite Hr.
      split; reflexivity.
Qed.

(** The history of one host: the announcement, the samples, the summary. *)
Lemma sync_with_history (samples : Z) (tr : trace D) :
  let final := fst (sync_with query hostname samples tr) in
  exists mid last,
    snd (sync_with query hostname samples tr)
    = tr ++ EvOut (MsgSyncing hostname samples) :: mid ++ [EvOut last] /\
    filter is_resolution mid
    = repeat (EvGetaddrinfo hostname) (Z.to_nat samples) /\
    filter is_sample_line mid
    = numbered_lines samples 1 (sampled_results query hostname samples tr) /\
    last = (if ntp_error_eqb (error final) NTP_SUCCESS
            then MsgSyncOk (delay final * dbl_of_Z 1000)%dbl
                   (Z.of_nat (List.length
                      (successes (sampled_results query hostname samples tr))))
                   samples
            else MsgAllSamplesFailed).
Proof.
  intros final. subst final.
  destruct (sampled_results_spec query hostname samples tr)
    as (_ & Hcount & _).
  destruct (sample_loop_history samples (Z.to_nat samples) 0
              (mk_acc [] 0 (dbl_of_Z 0) (dbl_of_Z 0))
              (tr ++ [EvOut (MsgSyncing hostname samples)]))
    as (rs & evs & E1 & E2 & E3 & E4).
  assert (Hrs : sampled_results query hostname samples tr = rs)
    by (unfold sampled_results; exact E1).
  unfold sync_with. io_step. io_step. rewrite E2.
  destruct (success_count _ =? 0) eqn:Hz.
  - io_step. cbn [error ntp_error_eqb].
    exists evs, MsgAllSamplesFailed. rewrite <- !app_assoc. cbn [app].
    rewrite Hrs. repeat split; assumption.
  - io_step. cbn [error ntp_error_eqb delay].
    eexists evs, _. rewrite <- !app_assoc. cbn [app].
    split; [reflexivity |]. rewrite Hrs in *.
    split; [exact E3 |]. split; [exact E4 |].
    rewrite Hcount. reflexivity.
Qed.

End SamplingHistory.

(** X12.  The name is resolved anew for every sample: sampling a host
    with a sample count within the capacity of the result array calls
    [getaddrinfo] once per sample, for that name and no other, and not at
    all when the count is not positive. *)
Theorem sync_resolves_for_each_sample
        {D : Type} `{DoubleOps D} (env : Env D) (hostname : string)
        (samples : Z) (tr : trace D) :
  samples <= MAX_SAMPLES ->
  exists evs,
    snd (sync_with_server_multi_sample env hostname samples tr) = tr ++ evs /\
    filter is_resolution evs
    = repeat (EvGetaddrinfo hostname) (Z.to_nat samples).
Proof.
  intros _.
  destruct (sync_with_history (query_ntp_server env) hostname
              (query_ntp_server_one_resolution env hostname) samples tr)
    as (mid & last & E & Hres & _).
  eexists. split; [exact E |].
  cbn [filter is_resolution]. rewrite filter_app, Hres.
  cbn. apply app_nil_r.
Qed.

Lemma sync_resolves_for_each_sample_witness :
  let env := posix_host (D := Q) 0 1 (48, good_reply) in
  2 <= MAX_SAMPLES /\
  exists evs,
    snd (sync_with_server_multi_sample env "pool.ntp.org" 2 []) = [] ++ evs /\
    filter is_resolution evs
    = repeat (EvGetaddrinfo "pool.ntp.org") (Z.to_nat 2).
Proof.
  intros env.
  assert (Hs : 2 <= MAX_SAMPLES) by (vm_compute; discriminate).
  split; [exact Hs |].
  exact (sync_resolves_for_each_sample env "pool.ntp.org" 2 [] Hs).
Defined.

(** X13.  What is printed for a host, for a sample count within the
    capacity of the result array: first the announcement with the sample
    count, then one line per sample, numbered from 1 in order and telling
    the delay or the error of that sample, and last one summary: the mean
    delay with the number of successes, or the failure of all samples. *)
Theorem sync_reports_each_sample
        {D : Type} `{DoubleOps D} (env : Env D) (hostname : string)
        (samples : Z) (tr : trace D) :
  samples <= MAX_SAMPLES ->
  let rs := sampled_results (query_ntp_server env) hostname samples tr in
  let final := fst (sync_with_server_multi_sample env hostname samples tr) in
  exists mid,
    snd (sync_with_server_multi_sample env hostname samples tr)
    = tr ++ EvOut (MsgSyncing hostname samples) :: mid
         ++ [EvOut (if ntp_error_eqb (error final) NTP_SUCCESS
                    then MsgSyncOk (delay final * dbl_of_Z 1000)%dbl
                           (Z.of_nat (List.length (successes rs))) samples
                    else MsgAllSamplesFailed)] /\
    filter is_sample_line mid = numbered_lines samples 1 rs.
Proof.
  intros _ rs final.
  destruct (sync_with_history (query_ntp_server env) hostname
              (query_ntp_server_one_resolution env hostname) samples tr)
    as (mid & last & E & _ & Hlines & Hlast).
  exists mid. subst last. split; [exact E | exact Hlines].
Qed.

Lemma sync_reports_each_sample_witness :
  let env := posix_host (D := Q) 0 1 (48, good_reply) in
  2 <= MAX_SAMPLES /\
  exists mid,
    snd (sync_with_server_multi_sample env "pool.ntp.org" 2 [])
    = [] ++ EvOut (MsgSyncing "pool.ntp.org" 2) :: mid
         ++ [EvOut MsgAllSamplesFailed] /\
    filter is_sample_line mid
    = [EvOut (MsgSampleFail 1 2 NTP_ERR_DNS_FAILED);
       EvOut (MsgSampleFail 2 2 NTP_ERR_DNS_FAILED)].
Proof.
  intros env.
  assert (Hs : 2 <= MAX_SAMPLES) by (vm_compute; discriminate).
  split; [exact Hs |].
  exact (sync_reports_each_sample env "pool.ntp.org" 2 [] Hs).
Defined.

(** X14.  A sample count that is not positive samples nothing: the host is
    announced, no exchange is made, and the result is the failure of all
    samples. *)
Theorem sync_without_samples
        {D : Type} `{DoubleOps D} (env : Env D) (hostname : string)
        (samples : Z) (tr : trace D) :
  samples <= 0 ->
  sync_with_server_multi_sample env hostname samples tr
  = (mk_result (dbl_of_Z 0) (dbl_of_Z 0) NTP_ERR_RECV_TIMEOUT,
     tr ++ [EvOut (MsgSyncing hostname samples); EvOut MsgAllSamplesFailed]).
Proof.
  intros Hs.
  unfold sync_with_server_multi_sample, sync_with.
  assert (Hn : Z.to_nat samples = 0%nat) by lia. rewrite Hn.
  io_step. cbn [sample_loop]. io_step. cbn [success_count].
  change (0 =? 0) with true. cbv iota. io_step.
  rewrite <- app_assoc. reflexivity.
Qed.

Lemma sync_without_samples_witness :
  sync_with_server_multi_sample (posix_host (D := Q) 0 0 (48, good_reply))
    "pool.ntp.org" 0 []
  = (mk_result 0%Q 0%Q NTP_ERR_RECV_TIMEOUT,
     [EvOut (MsgSyncing "pool.ntp.org" 0); EvOut MsgAllSamplesFailed]).
Proof.
  exact (sync_without_samples (posix_host (D := Q) 0 0 (48, good_reply))
           "pool.ntp.org" 0 [] ltac:(lia)).
Defined.

(* ================================================================== *)
(** ** The command line *)

Lemma atoi_help_flags : atoi "-h" = 0 /\ atoi "--help" = 0.
Proof. split; vm_compute; reflexivity. Qed.

Lemma parse_args_inv (n : nat) :
  forall (args : list string) (s0 : Z) (c0 : option string) (s : Z)
         (c : option string),
    (List.length args <= n)%nat ->
    parse_args args s0 c0 = ArgsOk s c ->
    (s = s0 \/ 1 <= s <= MAX_SAMPLES) /\
    ~ In "-h"%string args /\ ~ In "--help"%string args /\
    (c = c0 \/
     exists host, c = Some host /\ In host args /\
                  forall rest, host <> String "-" rest).
Proof.
  induction n as [| n IH]; intros args s0 c0 s c Hn Hp.
  { destruct args; [| cbn in Hn; lia].
    cbn in Hp. inversion Hp; subst. repeat split; auto. }
  destruct args as [| a rest].
  - cbn in Hp. inversion Hp; subst. repeat split; auto.
  - cbn [parse_args] in Hp.
    destruct (String.eqb_spec a "-h") as [Eh | Nh]; [discriminate |].
    destruct (String.eqb_spec a "--help") as [Eh2 | Nh2]; [discriminate |].
    cbn [orb] in Hp.
    destruct (String.eqb_spec a "-s") as [Es | Ns].
    + destruct rest as [| v rest']; [discriminate |].
      destruct (Z.ltb_spec (atoi v) 1) as [Hlo | Hlo]; [discriminate |].
      destruct (Z.ltb_spec MAX_SAMPLES (atoi v)) as [Hhi | Hhi];
        [discriminate |].
      cbn [orb] in Hp.
      apply IH in Hp; [| cbn in Hn |- *; lia].
      destruct Hp as (Hs & H1 & H2 & Hc).
      split; [right; destruct Hs as [-> | Hs]; [lia | exact Hs] |].
      destruct atoi_help_flags as [A1 A2].
      split; [intros [E | [E | E]]; [congruence | subst v; lia | auto] |].
      split; [intros [E | [E | E]]; [congruence | subst v; lia | auto] |].
      destruct Hc as [Hc | (host & E1 & E2 & E3)]; [left; exact Hc |].
      right. exists host. split; [exact E1 |].
      split; [right; right; exact E2 | exact E3].
    + assert (Hrest :
        forall c1, parse_args rest s0 c1 = ArgsOk s c ->
                   (s = s0 \/ 1 <= s <= MAX_SAMPLES) /\
                   ~ In "-h"%string (a :: rest) /\
                   ~ In "--help"%string (a :: rest) /\
                   (c = c1 \/
                    exists host, c = Some host /\ In host (a :: rest) /\
                                 forall rest, host <> String "-" rest)).
      { intros c1 H1. apply IH in H1; [| cbn in Hn |- *; lia].
        destruct H1 as (Hs & H1 & H2 & Hc).
        split; [exact Hs |].
        split; [intros [E | E]; [congruence | auto] |].
        split; [intros [E | E]; [congruence | auto] |].
        destruct Hc as [Hc | (host & E1 & E2 & E3)]; [left; exact Hc |].
        right. exists host. split; [exact E1 |].
        split; [right; exact E2 | exact E3]. }
      destruct a as [| ch a'].
      * apply Hrest in Hp. destruct Hp as (Hs & H1 & H2 & Hc).
        repeat (split; [assumption |]).
        destruct Hc as [Hc | Hc]; [| right; exact Hc].
        right. exists EmptyString. split; [exact Hc |].
        split; [left; reflexivity | discriminate].
      * destruct (Ascii.eqb_spec ch "-") as [Ed | Nd].
        -- subst ch. apply Hrest in Hp. exact Hp.
        -- assert (Hp' : parse_args rest s0 (Some (String ch a'))
                         = ArgsOk s c).
           { destruct ch as [[] [] [] [] [] [] [] []]; try exact Hp.
             elim Nd. reflexivity. }
           apply Hrest in Hp'. destruct Hp' as (Hs & H1 & H2 & Hc).
           repeat (split; [assumption |]).
           destruct Hc as [Hc | Hc]; [| right; exact Hc].
           right. exists (String ch a'). split; [exact Hc |].
           split; [left; reflexivity |].
           intros r E. inversion E. congruence.
Qed.

(** X15.  When the command line is accepted, the sample count is in
    1..[MAX_SAMPLES] (1 unless [-s] set it), no help flag was given, and the
    user's server, if any, is one of the arguments and does not start with
    a dash. *)
Theorem parse_args_accepted (args : list string) (samples : Z)
        (custom_server : option string) :
  parse_args args 1 None = ArgsOk samples custom_server ->
  1 <= samples <= MAX_SAMPLES /\
  ~ In "-h"%string args /\ ~ In "--help"%string args /\
  forall host,
    custom_server = Some host ->
    In host args /\ forall rest, host <> String "-" rest.
Proof.
  intros Hp. apply (parse_args_inv (List.length args)) in Hp; [| lia].
  destruct Hp as (Hs & H1 & H2 & Hc).
  split; [destruct Hs as [-> | Hs]; [unfold MAX_SAMPLES; lia | exact Hs] |].
  split; [exact H1 |]. split; [exact H2 |].
  intros host E. destruct Hc as [Hc | (h & E1 & E2 & E3)].
  - congruence.
  - assert (h = host) by congruence. subst h. split; assumption.
Qed.

Lemma parse_args_accepted_witness :
  parse_args ["-s"; "3"; "time.example.org"]%string 1 None
  = ArgsOk 3 (Some "time.example.org"%string) /\
  1 <= 3 <= MAX_SAMPLES /\
  In "time.example.org"%string ["-s"; "3"; "time.example.org"]%string.
Proof.
  assert (Hp : parse_args ["-s"; "3"; "time.example.org"]%string 1 None
               = ArgsOk 3 (Some "time.example.org"%string))
    by (vm_compute; reflexivity).
  split; [exact Hp |].
  destruct (parse_args_accepted _ _ _ Hp) as (Hs & _ & _ & Hc).
  split; [exact Hs | exact (proj1 (Hc _ eq_refl))].
Defined.

(* ================================================================== *)
(** ** The shape of a run *)

(** Lists of events, right-nested. *)
Ltac assoc_right := repeat first [rewrite <- app_assoc | progress cbn [app]].

Section RunFacts.

Context {D : Type} `{DoubleOps D}.

Variable env : Env D.

Lemma from_sampling_ordinary (e : event D) :
  from_sampling e = true -> ordinary e = true.
Proof.
  destruct e as [| | h | | | t | s | | s p | s | | a b | w | | m];
    try discriminate; try reflexivity.
  destruct m; try discriminate; reflexivity.
Qed.

Lemma sets_clock_ordinary (e : event D) :
  sets_clock e = true -> ordinary e = true.
Proof.
  destruct e as [| | h | | | t | s | | s p | s | | a b | w | | m];
    try discriminate; reflexivity.
Qed.

Lemma ordinary_spec (e : event D) :
  ordinary e = true ->
  server_attempt e = false /\ reports_update e = false /\
  reports_failure e = false /\ wsa_event e = false.
Proof.
  unfold ordinary. intros He. apply negb_true_iff in He.
  apply orb_false_iff in He. destruct He as [He H4].
  apply orb_false_iff in He. destruct He as [He H3].
  apply orb_false_iff in He. destruct He as [H1 H2].
  repeat split; assumption.
Qed.

Lemma query_ntp_server_ordinary (hostname : string) :
  extends (query_ntp_server env hostname) is_ordinary.
Proof.
  intros tr.
  destruct (query_ntp_server_events env hostname tr)
    as (evs & E & [(_ & Hevs) | [(_ & _ & Hevs) | (_ & _ & mid & Hevs & Hmid)]]);
    exists evs; (split; [exact E |]); subst evs.
  - repeat constructor.
  - repeat constructor.
  - apply Forall_app. split; [repeat constructor |].
    apply Forall_app. split; [| repeat constructor].
    eapply Forall_impl; [| exact Hmid].
    intros e He. apply from_sampling_ordinary.
    destruct e as [| | h | | | t | s | | s p | s | | a b | w | | m];
      try discriminate; try reflexivity.
    destruct m; try discriminate; reflexivity.
Qed.

Lemma sample_loop_ordinary (hostname : string) (samples : Z) (n : nat) :
  forall (i : Z) (a : sample_acc),
    extends (sample_loop (query_ntp_server env) hostname samples n i a)
            is_ordinary.
Proof.
  induction n as [| n IH]; intros i a; cbn [sample_loop].
  - apply extends_ret.
  - apply extends_bind; [apply query_ntp_server_ordinary | intros r].
    apply extends_bind; [| intros a'; apply IH].
    unfold is_ordinary. extends_steps.
Qed.

(** An attempt on a host: its announcement, then ordinary events. *)
Lemma sync_attempt (hostname : string) (samples : Z) (tr : trace D) :
  exists evs,
    snd (sync_with_server_multi_sample env hostname samples tr)
    = tr ++ EvOut (MsgSyncing hostname samples) :: evs /\
    Forall is_ordinary evs.
Proof.
  unfold sync_with_server_multi_sample, sync_with. io_step.
  assert (Hrest : extends
            (a <- sample_loop (query_ntp_server env) hostname samples
                    (Z.to_nat samples) 0
                    (mk_acc [] 0 (dbl_of_Z 0) (dbl_of_Z 0)) ;;
             if success_count a =? 0 then
               out MsgAllSamplesFailed ;;
               ret (mk_result (dbl_of_Z 0) (dbl_of_Z 0) NTP_ERR_RECV_TIMEOUT)
             else
               out (MsgSyncOk
                      (delay (mk_result
                                (sum_time a / dbl_of_Z (success_count a))%dbl
                                (sum_delay a / dbl_of_Z (success_count a))%dbl
                                NTP_SUCCESS) * dbl_of_Z 1000)%dbl
                      (success_count a) samples) ;;
               ret (mk_result (sum_time a / dbl_of_Z (success_count a))%dbl
                              (sum_delay a / dbl_of_Z (success_count a))%dbl
                              NTP_SUCCESS))%io
            is_ordinary).
  { apply extends_bind; [apply sample_loop_ordinary | intros a].
    unfold is_ordinary. extends_steps. }
  destruct (Hrest (tr ++ [EvOut (MsgSyncing hostname samples)]))
    as (evs & E & F).
  exists evs. split; [| exact F].
  etransitivity; [exact E |]. rewrite <- app_assoc. reflexivity.
Qed.

Lemma set_system_time_platform_ordinary (t : D) :
  extends (set_system_time_platform env t) is_ordinary.
Proof. unfold set_system_time_platform, is_ordinary. extends_steps. Qed.


(** Ordinary events change nothing in what the attempts leave behind. *)
Lemma ordinary_facts (evs : trace D) :
  Forall is_ordinary evs ->
  filter server_attempt evs = [] /\
  Forall (fun e => wsa_event e = false /\ reports_failure e = false) evs /\
  Forall (fun e => reports_update e = false) evs.
Proof.
  intros F. split; [| split].
  - apply (filter_none server_attempt is_ordinary); [| exact F].
    intros e He. apply (ordinary_spec e He).
  - eapply Forall_impl; [| exact F].
    intros e He. destruct (ordinary_spec e He) as (_ & _ & H3 & H4). auto.
  - eapply Forall_impl; [| exact F].
    intros e He. apply (ordinary_spec e He).
Qed.

Lemma attempts_outcome_prefix (samples : Z) (hosts : list string)
      (success : Z) (pre evs : trace D) :
  Forall is_ordinary pre ->
  attempts_outcome samples hosts success evs ->
  attempts_outcome samples hosts success (pre ++ evs).
Proof.
  intros F (k & Hk & Hw & Hcase).
  destruct (ordinary_facts pre F) as (P1 & P2 & P3).
  exists k. rewrite filter_app, P1. cbn [app].
  split; [exact Hk |]. split; [apply Forall_app; auto |].
  destruct Hcase as [(E & Ek & Hnone) | (E & p & sec & Ep & Hp)].
  - left. repeat split; auto. apply Forall_app; auto.
  - right. split; [exact E |]. exists (pre ++ p), sec.
    rewrite Ep, app_assoc. split; [reflexivity | apply Forall_app; auto].
Qed.

Lemma attempts_outcome_next (samples : Z) (host : string)
      (rest : list string) (success : Z) (mid evs : trace D) :
  Forall is_ordinary mid ->
  attempts_outcome samples rest success evs ->
  attempts_outcome samples (host :: rest) success
    (EvOut (MsgSyncing host samples) :: mid ++ evs).
Proof.
  intros F Hout.
  destruct (attempts_outcome_prefix samples rest success mid evs F Hout)
    as (k & Hk & Hw & Hcase).
  exists (S k). cbn [filter server_attempt firstn].
  rewrite Hk. split; [reflexivity |].
  split; [constructor; [split; reflexivity | exact Hw] |].
  destruct Hcase as [(E & Ek & Hnone) | (E & p & sec & Ep & Hp)].
  - left. split; [exact E |]. split; [cbn [List.length]; congruence |].
    constructor; [reflexivity | exact Hnone].
  - right. split; [exact E |].
    exists (EvOut (MsgSyncing host samples) :: p), sec.
    rewrite Ep. split; [reflexivity |].
    constructor; [reflexivity | exact Hp].
Qed.

Lemma attempts_outcome_updated (samples : Z) (host : string)
      (rest : list string) (mid : trace D) (final_sec : Z) :
  Forall is_ordinary mid ->
  attempts_outcome samples (host :: rest) 1
    (EvOut (MsgSyncing host samples) :: mid
     ++ [EvOut (MsgTimeUpdated final_sec)]).
Proof.
  intros F. destruct (ordinary_facts mid F) as (P1 & P2 & P3).
  exists 1%nat. cbn [filter server_attempt firstn announced map].
  rewrite filter_app, P1. cbn [filter server_attempt reports_update app].
  split; [reflexivity |].
  split.
  { constructor; [split; reflexivity |].
    apply Forall_app. split; [exact P2 | repeat constructor]. }
  right. split; [reflexivity |].
  exists (EvOut (MsgSyncing host samples) :: mid), final_sec.
  split; [reflexivity |]. constructor; [reflexivity | exact P3].
Qed.

Lemma attempts_outcome_none (samples : Z) :
  attempts_outcome (D := D) samples [] 0 [].
Proof.
  exists 0%nat. split; [reflexivity |]. split; [constructor |].
  left. repeat split. constructor.
Qed.

Lemma stage2_loop_outcome (servers : list string) (samples : Z) :
  forall tr, exists evs,
    snd (stage2_loop env servers samples tr) = tr ++ evs /\
    attempts_outcome samples servers
      (fst (stage2_loop env servers samples tr)) evs.
Proof.
  induction servers as [| server rest IH]; intros tr; cbn [stage2_loop].
  - exists []. cbn. rewrite app_nil_r.
    split; [reflexivity | apply attempts_outcome_none].
  - io_step.
    destruct (sync_attempt server samples tr) as (evs1 & E1 & F1).
    destruct (ntp_error_eqb
                (error (fst (sync_with_server_multi_sample env server
                               samples tr))) NTP_SUCCESS).
    + io_step. rewrite E1.
      set (t := corrected_time
                  (fst (sync_with_server_multi_sample env server samples tr))).
      destruct (set_system_time_platform_ordinary t
                  (tr ++ EvOut (MsgSyncing server samples) :: evs1))
        as (evs2 & E2 & F2).
      rewrite E2.
      destruct (ntp_error_eqb (fst (set_system_time_platform env t _))
                              NTP_SUCCESS).
      * io_step.
        exists (EvOut (MsgSyncing server samples) :: (evs1 ++ evs2)
                ++ [EvOut (MsgTimeUpdated (to_i64 (dbl_trunc t)))]).
        split.
        { assoc_right. reflexivity. }
        apply attempts_outcome_updated. apply Forall_app. auto.
      * io_step.
        match goal with
        | |- context [stage2_loop env rest samples ?tr1] =>
            destruct (IH tr1) as (evs3 & E3 & H3)
        end.
        exists (EvOut (MsgSyncing server samples)
                :: (evs1 ++ evs2
                    ++ [EvOut (MsgError
                                 (fst (set_system_time_platform env t
                                   (tr ++ EvOut (MsgSyncing server samples)
                                       :: evs1))))])
                ++ evs3).
        split.
        { rewrite E3. assoc_right. reflexivity. }
        apply attempts_outcome_next; [| exact H3].
        apply Forall_app. split; [exact F1 |].
        apply Forall_app. split; [exact F2 | repeat constructor].
    + rewrite E1.
      destruct (IH (tr ++ EvOut (MsgSyncing server samples) :: evs1))
        as (evs3 & E3 & H3).
      exists (EvOut (MsgSyncing server samples) :: evs1 ++ evs3).
      split.
      { rewrite E3. assoc_right. reflexivity. }
      apply attempts_outcome_next; assumption.
Qed.


Lemma stage2_outcome (samples : Z) (tr : trace D) :
  exists evs,
    snd (stage2 env samples tr) = tr ++ evs /\
    attempts_outcome samples INTERNAL_NTP_SERVERS
      (fst (stage2 env samples tr)) evs.
Proof.
  unfold stage2. io_step.
  destruct (stage2_loop_outcome INTERNAL_NTP_SERVERS samples
              (tr ++ [EvOut MsgStage2])) as (evs & E & Hout).
  exists ([EvOut MsgStage2] ++ evs).
  split; [rewrite E; assoc_right; reflexivity |].
  apply attempts_outcome_prefix; [repeat constructor | exact Hout].
Qed.

(** Stage 1: the attempt on the user's host, up to the report of the
    update or to the point where the pool takes over. *)
Lemma stage1_outcome (host : string) (samples : Z) (tr : trace D) :
  exists mid,
    Forall is_ordinary mid /\
    ((fst (stage1 env host samples tr) = 1 /\
      exists final_sec,
        snd (stage1 env host samples tr)
        = tr ++ EvOut MsgStage1 :: EvOut (MsgSyncing host samples) :: mid
             ++ [EvOut (MsgTimeUpdated final_sec)]) \/
     (fst (stage1 env host samples tr) = 0 /\
      snd (stage1 env host samples tr)
      = tr ++ EvOut MsgStage1 :: EvOut (MsgSyncing host samples) :: mid)).
Proof.
  unfold stage1. io_step. io_step.
  destruct (sync_attempt host samples (tr ++ [EvOut MsgStage1]))
    as (evs1 & E1 & F1).
  rewrite E1.
  destruct (ntp_error_eqb
              (error (fst (sync_with_server_multi_sample env host samples
                             (tr ++ [EvOut MsgStage1])))) NTP_SUCCESS).
  - io_step.
    set (t := corrected_time
                (fst (sync_with_server_multi_sample env host samples
                        (tr ++ [EvOut MsgStage1])))).
    destruct (set_system_time_platform_ordinary t
                ((tr ++ [EvOut MsgStage1])
                 ++ EvOut (MsgSyncing host samples) :: evs1))
      as (evs2 & E2 & F2).
    rewrite E2.
    destruct (ntp_error_eqb (fst (set_system_time_platform env t _))
                            NTP_SUCCESS).
    + io_step. exists (evs1 ++ evs2).
      split; [apply Forall_app; auto |].
      left. split; [reflexivity |]. eexists. assoc_right. reflexivity.
    + io_step. io_step.
      eexists (evs1 ++ evs2 ++ [EvOut (MsgError _); EvOut MsgHintPrivilege]).
      split.
      { apply Forall_app. split; [exact F1 |].
        apply Forall_app. split; [exact F2 | repeat constructor]. }
      right. split; [reflexivity |]. assoc_right. reflexivity.
  - io_step. exists (evs1 ++ [EvOut MsgSwitchToPool]).
    split; [apply Forall_app; split; [exact F1 | repeat constructor] |].
    right. split; [reflexivity |]. assoc_right. reflexivity.
Qed.

(** Both stages, for a user host that passed [validate_hostname]. *)
Lemma stages_outcome (host : string) (samples : Z) (tr : trace D) :
  let r1 := stage1 env host samples tr in
  let r2 := (if fst r1 =? 0 then stage2 env samples else ret (fst r1))
              (snd r1) in
  exists evs,
    snd r2 = tr ++ evs /\
    attempts_outcome samples (host :: INTERNAL_NTP_SERVERS) (fst r2) evs.
Proof.
  intros r1 r2. subst r1 r2.
  destruct (stage1_outcome host samples tr)
    as (mid & F & [(E1 & sec & E2) | (E1 & E2)]); rewrite E1, E2.
  - change (1 =? 0) with false. cbv iota. cbn [ret fst snd].
    eexists. split; [reflexivity |].
    apply (attempts_outcome_prefix samples _ 1 [EvOut MsgStage1]);
      [repeat constructor |].
    apply attempts_outcome_updated. exact F.
  - change (0 =? 0) with true. cbv iota.
    match goal with
    | |- context [stage2 env samples ?tr1] =>
        destruct (stage2_outcome samples tr1) as (evs & E & Hout)
    end.
    exists ([EvOut MsgStage1]
            ++ EvOut (MsgSyncing host samples) :: mid ++ evs).
    split; [rewrite E; assoc_right; reflexivity |].
    apply attempts_outcome_prefix; [repeat constructor |].
    apply attempts_outcome_next; assumption.
Qed.

Lemma finish_trace (success : Z) (tr : trace D) :
  finish env success tr
  = ((if success =? 0 then 1 else 0),
     tr ++ (if success =? 0 then [EvOut MsgAllServersFailed] else [])
        ++ cleanup_events env).
Proof.
  unfold finish, cleanup_networking, cleanup_events.
  io_step. destruct (success =? 0); io_step; destruct (win32 env);
    cbn [call ret fst snd]; assoc_right; rewrite ?app_nil_r; reflexivity.
Qed.

(** A run either fails to start, or refuses the user's host, or goes
    through its attempts and finishes. *)
Lemma run_shape (samples : Z) (custom_server : option string)
      (tr : trace D) :
  exists evs,
    snd (run env samples custom_server tr) = tr ++ evs /\
    run_outcome env samples custom_server tr
      (fst (run env samples custom_server tr)) evs.
Proof.
  unfold run.
  match goal with
  | |- context [bind (init_networking env) ?k] => set (K := k)
  end.
  assert (Hmain :
    forall tr0,
      exists evs,
        snd (K 1 tr0) = tr0 ++ evs /\
        ((exists host,
             custom_server = Some host /\ validate_hostname host = 0 /\
             evs = [EvOut (MsgErrInvalidHostname host)]
                   ++ cleanup_events env /\
             fst (K 1 tr0) = 1) \/
         (exists body success,
             attempts_outcome samples (candidates custom_server) success
                              body /\
             evs = body
                   ++ (if success =? 0 then [EvOut MsgAllServersFailed]
                       else [])
                   ++ cleanup_events env /\
             fst (K 1 tr0) = (if success =? 0 then 1 else 0)))).
  { intros tr0. subst K. cbv beta. change (1 =? 0) with false. cbv iota.
    destruct custom_server as [host |].
    - destruct (Z.eqb_spec (validate_hostname host) 0) as [Hv | Hv].
      + io_step. io_step.
        exists ([EvOut (MsgErrInvalidHostname host)] ++ cleanup_events env).
        assert (Hc : cleanup_networking env
                       (tr0 ++ [EvOut (MsgErrInvalidHostname host)])
                     = (tt, (tr0 ++ [EvOut (MsgErrInvalidHostname host)])
                            ++ cleanup_events env)).
        { unfold cleanup_networking, cleanup_events.
          destruct (win32 env); cbn [call ret]; rewrite ?app_nil_r;
            reflexivity. }
        rewrite Hc. cbn [fst snd ret].
        split; [assoc_right; reflexivity |].
        left. exists host. repeat split; assumption.
      + io_step. io_step. rewrite finish_trace.
        destruct (stages_outcome host samples tr0) as (body & E & Hout).
        cbv zeta in E, Hout. cbn [fst snd]. rewrite E.
        eexists. split; [assoc_right; reflexivity |].
        right. eexists body, _. split; [exact Hout |].
        split; reflexivity.
    - io_step. rewrite finish_trace.
      destruct (stage2_outcome samples tr0) as (body & E & Hout).
      cbn [fst snd]. rewrite E.
      eexists. split; [assoc_right; reflexivity |].
      right. eexists body, _. split; [exact Hout |].
      split; reflexivity. }
  unfold run_outcome, init_networking, startup_events.
  destruct (win32 env) eqn:Hw.
  - io_step. io_step. 
    destruct (Z.eqb_spec (os_WSAStartup env tr) 0) as [Hs | Hs];
      cbn [negb].
    + cbn [ret fst snd].
      destruct (Hmain (tr ++ [EvWSAStartup])) as (evs & E & Hcase).
      exists ([EvWSAStartup] ++ evs).
      split; [rewrite E; assoc_right; reflexivity |].
      right. destruct Hcase as [(host & E1 & E2 & E3 & E4)
                               | (body & success & E1 & E2 & E3)].
      * left. split; [intros _; exact Hs |].
        exists host. rewrite E3. repeat split; assumption.
      * right. split; [intros _; exact Hs |].
        exists body, success. rewrite E2. repeat split; assumption.
    + io_step. subst K. cbv beta. change (0 =? 0) with true. cbv iota.
      cbn [ret fst snd].
      eexists. split; [assoc_right; reflexivity |].
      left. repeat split; assumption.
  - io_step. cbn [ret fst snd].
    destruct (Hmain tr) as (evs & E & Hcase).
    exists evs. split; [exact E |].
    right. destruct Hcase as [(host & E1 & E2 & E3 & E4)
                             | (body & success & E1 & E2 & E3)].
    + left. split; [discriminate |].
      exists host. repeat split; assumption.
    + right. split; [discriminate |].
      exists body, success. repeat split; assumption.
Qed.


Lemma main_shape (argv : list string) (tr : trace D) :
  exists evs,
    snd (main env argv tr) = tr ++ evs /\
    match parse_args (tl argv) 1 None with
    | ArgsHelp =>
        evs = [EvOut (MsgUsage (hd EmptyString argv))] /\
        fst (main env argv tr) = 0
    | ArgsSamplesOutOfRange =>
        evs = [EvOut MsgErrSamplesRange] /\ fst (main env argv tr) = 1
    | ArgsSamplesMissing =>
        evs = [EvOut MsgErrSamplesMissing] /\ fst (main env argv tr) = 1
    | ArgsOk samples custom_server =>
        run_outcome env samples custom_server tr (fst (main env argv tr)) evs
    end.
Proof.
  unfold main, print_usage.
  destruct (parse_args (tl argv) 1 None) as [| | | samples custom_server].
  - io_step. eexists. split; [reflexivity |]. split; reflexivity.
  - io_step. eexists. split; [reflexivity |]. split; reflexivity.
  - io_step. eexists. split; [reflexivity |]. split; reflexivity.
  - apply run_shape.
Qed.

Lemma startup_cleanup_facts :
  Forall (fun e : event D => reports_update e = false /\
                             reports_failure e = false /\
                             server_attempt e = false)
         (startup_events env) /\
  Forall (fun e : event D => reports_update e = false /\
                             reports_failure e = false /\
                             server_attempt e = false)
         (cleanup_events env).
Proof.
  unfold startup_events, cleanup_events.
  destruct (win32 env); repeat constructor.
Qed.

End RunFacts.

Lemma Forall_false_not_Exists {A : Type} (f : A -> bool) (l : list A) :
  Forall (fun a => f a = false) l -> ~ Exists (fun a => f a = true) l.
Proof.
  intros F E. apply Exists_exists in E. destruct E as (a & Hin & Ha).
  rewrite Forall_forall in F. specialize (F a Hin). congruence.
Qed.

(** X16.  The exit code of the program is 0 or 1, and it is 0 exactly when
    help was asked for or the update of the clock was reported: bad
    arguments, a network stack that does not start, a refused host name and
    servers that all fail give 1. *)
Theorem main_exit_code
        {D : Type} `{DoubleOps D} (env : Env D) (argv : list string)
        (tr : trace D) :
  exists evs,
    snd (main env argv tr) = tr ++ evs /\
    (fst (main env argv tr) = 0 \/ fst (main env argv tr) = 1) /\
    (fst (main env argv tr) = 0 <->
     parse_args (tl argv) 1 None = ArgsHelp \/
     Exists (fun e => reports_update e = true) evs).
Proof.
  destruct (main_shape env argv tr) as (evs & E & Hshape).
  exists evs. split; [exact E |].
  destruct (startup_cleanup_facts env) as (Fs & Fc).
  assert (Fs' : Forall (fun e : event D => reports_update e = false)
                       (startup_events env))
    by (eapply Forall_impl; [| exact Fs]; intros e He; apply He).
  assert (Fc' : Forall (fun e : event D => reports_update e = false)
                       (cleanup_events env))
    by (eapply Forall_impl; [| exact Fc]; intros e He; apply He).
  destruct (parse_args (tl argv) 1 None) as [| | | samples custom_server].
  - destruct Hshape as (_ & Hc). rewrite Hc.
    split; [left; reflexivity |]. split; auto.
  - destruct Hshape as (-> & Hc). rewrite Hc.
    split; [right; reflexivity |].
    split; [discriminate |].
    intros [Hh | Hx]; [discriminate |].
    inversion Hx as [? ? Hu | ? ? Hu]; [discriminate | inversion Hu].
  - destruct Hshape as (-> & Hc). rewrite Hc.
    split; [right; reflexivity |].
    split; [discriminate |].
    intros [Hh | Hx]; [discriminate |].
    inversion Hx as [? ? Hu | ? ? Hu]; [discriminate | inversion Hu].
  - assert (Hfail :
      fst (main env argv tr) = 1 ->
      Forall (fun e : event D => reports_update e = false) evs ->
      (fst (main env argv tr) = 0 \/ fst (main env argv tr) = 1) /\
      (fst (main env argv tr) = 0 <->
       ArgsOk samples custom_server = ArgsHelp \/
       Exists (fun e => reports_update e = true) evs)).
    { intros Hc F. rewrite Hc. split; [right; reflexivity |].
      split; [discriminate |].
      intros [Hh | Hx]; [discriminate |].
      elim (Forall_false_not_Exists _ _ F Hx). }
    destruct Hshape as [(_ & _ & -> & Hc)
                       | [(_ & host & _ & _ & -> & Hc)
                         | (_ & body & success & Hout & -> & Hc)]].
    + apply Hfail; [exact Hc | repeat constructor].
    + apply Hfail; [exact Hc |].
      apply Forall_app. split; [exact Fs' |].
      apply Forall_app. split; [repeat constructor | exact Fc'].
    + destruct Hout as (k & _ & _ & [(Hs & _ & Hnone)
                                    | (Hs & pre & sec & Hb & _)]);
        subst success.
      * apply Hfail; [exact Hc |].
        apply Forall_app. split; [exact Fs' |].
        apply Forall_app. split; [exact Hnone |].
        apply Forall_app. split; [repeat constructor | exact Fc'].
      * rewrite Hc. change (1 =? 0) with false. cbv iota.
        split; [left; reflexivity |].
        split; [| reflexivity].
        intros _. right. subst body.
        apply Exists_app. right. apply Exists_app. left.
        apply Exists_app. right. constructor. reflexivity.
Qed.

(** X17.  The program stops at the first success: the update of the clock
    is reported at most once, and once it is reported nothing follows but
    the teardown of the network stack, so no further server is attempted
    and the clock is not set again. *)
Theorem main_stops_at_first_success
        {D : Type} `{DoubleOps D} (env : Env D) (argv : list string)
        (tr : trace D) :
  exists evs,
    snd (main env argv tr) = tr ++ evs /\
    (Forall (fun e => reports_update e = false) evs \/
     exists pre final_sec,
       evs = pre ++ EvOut (MsgTimeUpdated final_sec) :: cleanup_events env /\
       Forall (fun e => reports_update e = false) pre).
Proof.
  destruct (main_shape env argv tr) as (evs & E & Hshape).
  exists evs. split; [exact E |].
  destruct (startup_cleanup_facts env) as (Fs & Fc).
  assert (Fs' : Forall (fun e : event D => reports_update e = false)
                       (startup_events env))
    by (eapply Forall_impl; [| exact Fs]; intros e He; apply He).
  assert (Fc' : Forall (fun e : event D => reports_update e = false)
                       (cleanup_events env))
    by (eapply Forall_impl; [| exact Fc]; intros e He; apply He).
  destruct (parse_args (tl argv) 1 None) as [| | | samples custom_server].
  - destruct Hshape as (-> & _). left. repeat constructor.
  - destruct Hshape as (-> & _). left. repeat constructor.
  - destruct Hshape as (-> & _). left. repeat constructor.
  - destruct Hshape as [(_ & _ & -> & _)
                       | [(_ & host & _ & _ & -> & _)
                         | (_ & body & success & Hout & -> & _)]].
    + left. repeat constructor.
    + left. apply Forall_app. split; [exact Fs' |].
      apply Forall_app. split; [repeat constructor | exact Fc'].
    + destruct Hout as (k & _ & _ & [(Hs & _ & Hnone)
                                    | (Hs & pre & sec & Hb & Hpre)]);
        subst success.
      * left. apply Forall_app. split; [exact Fs' |].
        apply Forall_app. split; [exact Hnone |].
        apply Forall_app. split; [repeat constructor | exact Fc'].
      * right. exists (startup_events env ++ pre), sec. subst body.
        change (1 =? 0) with false. cbv iota.
        split; [assoc_right; reflexivity |].
        apply Forall_app. split; assumption.
Qed.

(** X18.  Servers are attempted in a fixed order, the user's server first
    and then the built-in pool from its first entry on, each announced with
    the sample count of the command line; and the final report that all
    servers failed is made only once every one of them has been attempted.
    Without an accepted command line no server is attempted. *)
Theorem main_attempts_in_order
        {D : Type} `{DoubleOps D} (env : Env D) (argv : list string)
        (tr : trace D) :
  exists evs k,
    snd (main env argv tr) = tr ++ evs /\
    match parse_args (tl argv) 1 None with
    | ArgsOk samples custom_server =>
        filter server_attempt evs
        = announced samples (firstn k (candidates custom_server)) /\
        (Exists (fun e => reports_failure e = true) evs ->
         k = List.length (candidates custom_server))
    | _ => filter server_attempt evs = []
    end.
Proof.
  destruct (main_shape env argv tr) as (evs & E & Hshape).
  destruct (startup_cleanup_facts env) as (Fs & Fc).
  assert (Fs1 : filter server_attempt (startup_events env) = [])
    by (apply (filter_none _ _ _ (fun e He => proj2 (proj2 He)) Fs)).
  assert (Fc1 : filter server_attempt (cleanup_events env) = [])
    by (apply (filter_none _ _ _ (fun e He => proj2 (proj2 He)) Fc)).
  assert (Fs2 : Forall (fun e : event D => reports_failure e = false)
                       (startup_events env))
    by (eapply Forall_impl; [| exact Fs]; intros e He; apply He).
  assert (Fc2 : Forall (fun e : event D => reports_failure e = false)
                       (cleanup_events env))
    by (eapply Forall_impl; [| exact Fc]; intros e He; apply He).
  destruct (parse_args (tl argv) 1 None) as [| | | samples custom_server].
  - destruct Hshape as (-> & _). eexists _, 0%nat. split; [exact E |].
    reflexivity.
  - destruct Hshape as (-> & _). eexists _, 0%nat. split; [exact E |].
    reflexivity.
  - destruct Hshape as (-> & _). eexists _, 0%nat. split; [exact E |].
    reflexivity.
  - destruct Hshape as [(_ & _ & -> & _)
                       | [(_ & host & _ & _ & -> & _)
                         | (_ & body & success & Hout & -> & _)]].
    + eexists _, 0%nat. split; [exact E |]. split; [reflexivity |].
      intros Hx. exfalso. revert Hx. apply Forall_false_not_Exists.
      repeat constructor.
    + eexists _, 0%nat. split; [exact E |].
      rewrite !filter_app, Fs1, Fc1. split; [reflexivity |].
      intros Hx. exfalso. revert Hx. apply Forall_false_not_Exists.
      apply Forall_app. split; [exact Fs2 |].
      apply Forall_app. split; [repeat constructor | exact Fc2].
    + destruct Hout as (k & Hk & Hw & Hcase).
      eexists _, k. split; [exact E |].
      rewrite !filter_app, Fs1, Fc1, Hk.
      assert (Hfin : filter server_attempt
                       (if success =? 0
                        then [EvOut (D := D) MsgAllServersFailed] else [])
                     = [])
        by (destruct (success =? 0); reflexivity).
      rewrite Hfin, !app_nil_r. split; [reflexivity |].
      destruct Hcase as [(Hs & Hlen & _) | (Hs & _)]; [intros _; exact Hlen |].
      subst success. change (1 =? 0) with false. cbv iota.
      intros Hx. exfalso. revert Hx. apply Forall_false_not_Exists.
      apply Forall_app. split; [exact Fs2 |].
      apply Forall_app. split.
      { eapply Forall_impl; [| exact Hw]. intros e He. apply He. }
      exact Fc2.
Qed.

(** X19.  Start-up and teardown of the network stack are paired: on Windows
    a run that reaches the network calls [WSAStartup] first and, if that
    succeeds, [WSACleanup] once as its last action, whatever happens in
    between; if it fails there is no teardown; on POSIX, or when the
    command line ends the program, neither is called. *)
Theorem main_winsock_pairing
        {D : Type} `{DoubleOps D} (env : Env D) (argv : list string)
        (tr : trace D) :
  exists evs,
    snd (main env argv tr) = tr ++ evs /\
    filter wsa_event evs
    = match parse_args (tl argv) 1 None with
      | ArgsOk _ _ =>
          if win32 env
          then if os_WSAStartup env tr =? 0
               then [EvWSAStartup; EvWSACleanup]
               else [EvWSAStartup]
          else []
      | _ => []
      end /\
    (In EvWSACleanup evs ->
     exists mid, evs = EvWSAStartup :: mid ++ [EvWSACleanup]).
Proof.
  destruct (main_shape env argv tr) as (evs & E & Hshape).
  exists evs. split; [exact E |].
  assert (Hno : forall l : trace D,
             Forall (fun e => wsa_event e = false) l ->
             filter wsa_event l = []).
  { intros l F. apply (filter_none _ _ _ (fun e He => He) F). }
  assert (Hin : forall l : trace D,
             In EvWSACleanup l -> In EvWSACleanup (filter wsa_event l)).
  { intros l Hl. apply filter_In. split; [exact Hl | reflexivity]. }
  destruct (parse_args (tl argv) 1 None) as [| | | samples custom_server].
  - destruct Hshape as (-> & _). split; [reflexivity |].
    intros [Hc | []]. discriminate.
  - destruct Hshape as (-> & _). split; [reflexivity |].
    intros [Hc | []]. discriminate.
  - destruct Hshape as (-> & _). split; [reflexivity |].
    intros [Hc | []]. discriminate.
  - assert (Hmid : forall mid : trace D,
               (win32 env = true -> os_WSAStartup env tr = 0) ->
               Forall (fun e => wsa_event e = false) mid ->
               evs = startup_events env ++ mid ++ cleanup_events env ->
               filter wsa_event evs
               = (if win32 env
                  then if os_WSAStartup env tr =? 0
                       then [EvWSAStartup; EvWSACleanup]
                       else [EvWSAStartup]
                  else []) /\
               (In EvWSACleanup evs ->
                exists mid, evs = EvWSAStartup :: mid ++ [EvWSACleanup])).
    { intros mid Hstart F ->. unfold startup_events, cleanup_events.
      destruct (win32 env).
      - rewrite (Hstart eq_refl). change (0 =? 0) with true. cbv iota.
        cbn [app filter wsa_event]. rewrite filter_app, (Hno mid F).
        split; [reflexivity |]. intros _. exists mid. reflexivity.
      - cbn [app]. rewrite app_nil_r, (Hno mid F).
        split; [reflexivity |]. intros Hc. apply Hin in Hc.
        rewrite (Hno mid F) in Hc. destruct Hc. }
    destruct Hshape as [(Hw & Hs & -> & _)
                       | [(Hstart & host & _ & _ & Hevs & _)
                         | (Hstart & body & success & Hout & Hevs & _)]].
    + rewrite Hw. apply Z.eqb_neq in Hs. rewrite Hs.
      split; [reflexivity |].
      intros [Hc | [Hc | []]]; discriminate.
    + apply (Hmid [EvOut (MsgErrInvalidHostname host)] Hstart);
        [repeat constructor | exact Hevs].
    + apply (Hmid (body ++ (if success =? 0
                            then [EvOut MsgAllServersFailed] else []))
                  Hstart).
      * destruct Hout as (k & _ & Hw & _).
        apply Forall_app. split.
        { eapply Forall_impl; [| exact Hw]. intros e He. apply He. }
        destruct (success =? 0); repeat constructor.
      * rewrite Hevs. assoc_right. reflexivity.
Qed.

(* ================================================================== *)
(** ** A reported update is a clock that was set *)

Section UpdateFacts.

Context {D : Type} `{DoubleOps D}.

Variable env : Env D.

Lemma ntp_error_eqb_success (e : ntp_error_t) :
  ntp_error_eqb e NTP_SUCCESS = true -> e = NTP_SUCCESS.
Proof. destruct e; try discriminate; reflexivity. Qed.

Lemma set_system_time_platform_success (t : D) (tr : trace D) :
  fst (set_system_time_platform env t tr) = NTP_SUCCESS ->
  clock_set_at env (snd (set_system_time_platform env t tr))
               (to_i64 (dbl_trunc t)).
Proof.
  unfold set_system_time_platform, clock_set_at.
  destruct (win32 env).
  - io_step.
    match goal with
    | |- context [os_SetSystemTime env tr ?w] =>
        destruct (os_SetSystemTime env tr w) eqn:Hok
    end; cbn [negb].
    + intros _. cbn [ret snd]. eexists tr, _. split; [reflexivity | exact Hok].
    + io_step. destruct (_ =? ERROR_ACCESS_DENIED); cbn; discriminate.
  - io_step. destruct (Z.eqb_spec (os_getuid env tr) 0) as [Hu | Hu];
      cbn [negb]; [| cbn; discriminate].
    io_step.
    match goal with
    | |- context [os_settimeofday env ?tr1 ?s ?u <? 0] =>
        destruct (Z.ltb_spec (os_settimeofday env tr1 s u) 0) as [Hrc | Hrc]
    end; [cbn; discriminate |].
    intros _. cbn [ret snd]. eexists tr, _.
    split; [assoc_right; reflexivity |]. split; [exact Hu | exact Hrc].
Qed.

Lemma stage2_loop_result (servers : list string) (samples : Z) :
  forall tr, stage_result env (stage2_loop env servers samples tr).
Proof.
  induction servers as [| server rest IH]; intros tr; cbn [stage2_loop].
  - left. reflexivity.
  - io_step.
    destruct (ntp_error_eqb _ NTP_SUCCESS); [| apply IH].
    io_step.
    match goal with
    | |- context [set_system_time_platform env ?t ?tr1] =>
        pose proof (set_system_time_platform_success t tr1) as Hset;
        destruct (ntp_error_eqb (fst (set_system_time_platform env t tr1))
                                NTP_SUCCESS) eqn:Hok
    end.
    + io_step. right. split; [reflexivity |].
      eexists _, _. split; [reflexivity |].
      apply Hset. apply ntp_error_eqb_success. exact Hok.
    + io_step. apply IH.
Qed.


Lemma stage2_result (samples : Z) (tr : trace D) :
  stage_result env (stage2 env samples tr).
Proof. unfold stage2. io_step. apply stage2_loop_result. Qed.

Lemma stage1_result (host : string) (samples : Z) (tr : trace D) :
  stage_result env (stage1 env host samples tr).
Proof.
  unfold stage1. io_step. io_step.
  destruct (ntp_error_eqb _ NTP_SUCCESS); [| io_step; left; reflexivity].
  io_step.
  match goal with
  | |- context [set_system_time_platform env ?t ?tr1] =>
      pose proof (set_system_time_platform_success t tr1) as Hset;
      destruct (ntp_error_eqb (fst (set_system_time_platform env t tr1))
                              NTP_SUCCESS) eqn:Hok
  end.
  - io_step. right. split; [reflexivity |].
    eexists _, _. split; [reflexivity |].
    apply Hset. apply ntp_error_eqb_success. exact Hok.
  - io_step. io_step. left. reflexivity.
Qed.

(** A run that returns 0 has set the clock and reported it, and then only
    cleaned up. *)
Lemma run_success (samples : Z) (custom_server : option string)
      (tr : trace D) :
  fst (run env samples custom_server tr) = 0 ->
  exists history final_sec,
    snd (run env samples custom_server tr)
    = history ++ EvOut (MsgTimeUpdated final_sec) :: cleanup_events env /\
    clock_set_at env history final_sec.
Proof.
  unfold run.
  match goal with
  | |- context [bind (init_networking env) ?k] => set (K := k)
  end.
  assert (Hfinish :
    forall r : Z * trace D,
      stage_result env r ->
      fst (finish env (fst r) (snd r)) = 0 ->
      exists history final_sec,
        snd (finish env (fst r) (snd r))
        = history ++ EvOut (MsgTimeUpdated final_sec) :: cleanup_events env /\
        clock_set_at env history final_sec).
  { intros r Hr. rewrite finish_trace. cbn [fst snd].
    destruct Hr as [Hr | (Hr & history & sec & E & Hset)]; rewrite Hr.
    - discriminate.
    - intros _. exists history, sec. rewrite E.
      change (1 =? 0) with false. cbv iota.
      split; [assoc_right; reflexivity | exact Hset]. }
  assert (Hmain :
    forall tr0,
      fst (K 1 tr0) = 0 ->
      exists history final_sec,
        snd (K 1 tr0)
        = history ++ EvOut (MsgTimeUpdated final_sec) :: cleanup_events env /\
        clock_set_at env history final_sec).
  { intros tr0. subst K. cbv beta. change (1 =? 0) with false. cbv iota.
    destruct custom_server as [host |].
    - destruct (validate_hostname host =? 0).
      + io_step. io_step. cbn. discriminate.
      + io_step. io_step.
        pose proof (stage1_result host samples tr0) as H1.
        set (r1 := stage1 env host samples tr0) in *.
        destruct H1 as [H1 | H1].
        * rewrite H1. change (0 =? 0) with true. cbv iota.
          apply Hfinish. apply stage2_result.
        * destruct H1 as (H1 & Hrest). rewrite H1.
          change (1 =? 0) with false. cbv iota. cbn [ret fst snd].
          intros Hc.
          apply (Hfinish (1, snd r1)); [| exact Hc].
          right. split; [reflexivity | exact Hrest].
    - io_step. apply Hfinish. apply stage2_result. }
  unfold init_networking.
  destruct (win32 env).
  - io_step. io_step. destruct (os_WSAStartup env tr =? 0); cbn [negb].
    + cbn [ret fst snd]. apply Hmain.
    + io_step. subst K. cbv beta. change (0 =? 0) with true. cbv iota.
      cbn. discriminate.
  - io_step. cbn [ret fst snd]. apply Hmain.
Qed.

End UpdateFacts.

(** X20.  Exit code 0, help apart, means that the clock was set: the run
    ends with a successful clock call (on POSIX [settimeofday] by root,
    not failing, to the very second that is reported; on Windows a
    [SetSystemTime] that returned true), then the report of the update,
    then the teardown of the network stack, and nothing else after it. *)
Theorem main_success_means_clock_set
        {D : Type} `{DoubleOps D} (env : Env D) (argv : list string)
        (tr : trace D) :
  fst (main env argv tr) = 0 ->
  parse_args (tl argv) 1 None <> ArgsHelp ->
  exists history final_sec,
    snd (main env argv tr)
    = history ++ EvOut (MsgTimeUpdated final_sec) :: cleanup_events env /\
    clock_set_at env history final_sec.
Proof.
  unfold main.
  destruct (parse_args (tl argv) 1 None) as [| | | samples custom_server].
  - intros _ Hh. elim Hh. reflexivity.
  - io_step. cbn. discriminate.
  - io_step. cbn. discriminate.
  - intros Hc _. apply run_success. exact Hc.
Qed.

Lemma main_success_means_clock_set_witness :
  let env := posix_host (D := Q) 0 0 (48, good_reply) in
  (fst (main env ["ntpc"%string] []) = 0 /\
   parse_args (tl ["ntpc"%string]) 1 None <> ArgsHelp) /\
  exists history final_sec,
    snd (main env ["ntpc"%string] [])
    = history ++ EvOut (MsgTimeUpdated final_sec) :: cleanup_events env /\
    clock_set_at env history final_sec.
Proof.
  intros env.
  assert (H0 : fst (main env ["ntpc"%string] []) = 0)
    by (vm_compute; reflexivity).
  assert (H1 : parse_args (tl ["ntpc"%string]) 1 None <> ArgsHelp)
    by (vm_compute; discriminate).
  split; [split; assumption |].
  exact (main_success_means_clock_set env ["ntpc"%string] [] H0 H1).
Defined.

(* ================================================================== *)
(** ** The sample count on the command line *)

Lemma atoi_digits_stop (suffix : string) (acc : Z) :
  match suffix with
  | String c _ => is_digit c = false
  | EmptyString => True
  end ->
  atoi_digits suffix acc = acc.
Proof.
  destruct suffix as [| c s]; cbn [atoi_digits]; [reflexivity |].
  intros Hc. rewrite Hc. reflexivity.
Qed.

Lemma atoi_single_digit (d : ascii) (suffix : string) :
  is_digit d = true ->
  match suffix with
  | String c _ => is_digit c = false
  | EmptyString => True
  end ->
  atoi (String d suffix) = Z.of_nat (nat_of_ascii d) - 48.
Proof.
  intros Hd Hs.
  destruct d as [b0 b1 b2 b3 b4 b5 b6 b7].
  destruct b0, b1, b2, b3, b4, b5, b6, b7;
    try (vm_compute in Hd; discriminate Hd);
    unfold atoi; simpl; rewrite (atoi_digits_stop suffix _ Hs);
    vm_compute; reflexivity.
Qed.

(** X21.  The value of [-s] is read by [atoi]: a digit from 1 to
    [MAX_SAMPLES] followed by anything that does not start with a digit is
    taken as that sample count, the text after the digit being ignored
    without a complaint. *)
Theorem samples_option_ignores_trailing_text
        (d : ascii) (suffix : string) (rest : list string) (samples : Z)
        (custom_server : option string) :
  1 <= Z.of_nat (nat_of_ascii d) - 48 <= MAX_SAMPLES ->
  match suffix with
  | String c _ => is_digit c = false
  | EmptyString => True
  end ->
  parse_args ("-s"%string :: String d suffix :: rest) samples custom_server
  = parse_args rest (Z.of_nat (nat_of_ascii d) - 48) custom_server.
Proof.
  intros Hd Hs.
  assert (Hdig : is_digit d = true).
  { unfold is_digit, MAX_SAMPLES in *. cbv zeta.
    apply andb_true_intro. split; [apply Z.leb_le | apply Z.leb_le]; lia. }
  cbn [parse_args]. change (("-s" =? "-h")%string) with false.
  change (("-s" =? "--help")%string) with false.
  change (("-s" =? "-s")%string) with true. cbn [orb]. cbv iota zeta.
  rewrite (atoi_single_digit d suffix Hdig Hs).
  destruct (Z.ltb_spec (Z.of_nat (nat_of_ascii d) - 48) 1); [lia |].
  destruct (Z.ltb_spec MAX_SAMPLES (Z.of_nat (nat_of_ascii d) - 48));
    [lia |].
  reflexivity.
Qed.

Lemma samples_option_ignores_trailing_text_witness :
  parse_args ["-s"; "3 samples, please"; "time.example.org"]%string 1 None
  = ArgsOk 3 (Some "time.example.org"%string).
Proof.
  exact (samples_option_ignores_trailing_text "3" " samples, please"
           ["time.example.org"%string] 1 None
           ltac:(vm_compute; split; discriminate) eq_refl).
Defined.
